(** * Stock movement engine of the warehouse desktop management system

    A shallow embedding of [service/stock_service.py] and of the model,
    DAO and validator code it calls, followed by the properties of the
    stock-movement core: balance invariant, failure semantics, document
    numbers, frame conditions of the inventory update and the ledger
    read path.

    Modelling conventions.
    - Python [int] is [Z]; an attribute that may be [None] is an [option].
    - [str] is [string], holding the bytes of the UTF-8 encoding of the
      text.  The text columns are compared as binary strings: ordering
      and [LIKE] matching go byte by byte.
    - [Decimal] is the sign, coefficient and exponent of a finite number,
      or a special value; products are rounded and checked as the default
      context of the [decimal] module does.  [float] values are told
      apart only as far as the comparison with zero needs.
    - The relational store is explicit state: two row lists with their
      auto-increment counters, and the two master-data tables keyed by
      primary key.  A statement that reaches the server is taken to
      succeed and to store its parameters as they are: the schema is not
      part of the sources, so column ranges and keys are not modelled,
      nor are the columns that no statement of the sources writes
      ([create_time], [update_time]).
    - Service methods run in a state-and-exception monad over the store;
      [datetime.now()] is the parameter [now] of each call. *)

From stdpp Require Import base option list strings gmap sorting.
From Stdlib Require Import ZArith Lia Ascii DecimalString.

Open Scope Z_scope.

(** ** Messages and exceptions *)

(** The messages collected by [validate_stock_record]. *)
Inductive message :=
| MsgRecordNoEmpty        (* "单据号不能为空" *)
| MsgRecordTypeInvalid    (* "记录类型必须是1（入库）或2（出库）" *)
| MsgWarehouseIdEmpty     (* "仓库ID不能为空" *)
| MsgProductIdEmpty       (* "货品ID不能为空" *)
| MsgQuantityNotPositive  (* "数量必须大于0" *)
| MsgUnitPriceNegative    (* "单价不能小于0" *)
| MsgRecordDateEmpty      (* "操作日期不能为空" *)
| MsgRecordDateFuture.    (* "操作日期不能晚于当前日期" *)

(** The exceptions a service call can end with. *)
Inductive exn :=
| ValueError (errors : list message)  (* ValueError("; ".join(errors)) *)
| IntValueError                       (* the ValueError of int() *)
| FloatValueError                     (* the ValueError of float() on a
                                         signaling NaN *)
| DecimalInvalidOperation             (* decimal.InvalidOperation *)
| DecimalOverflow                     (* decimal.Overflow *)
| WarehouseNotFound                   (* "仓库不存在" *)
| WarehouseDisabled                   (* "仓库已禁用，无法进行…操作" *)
| ProductNotFound                     (* "货品不存在" *)
| ProductDisabled                     (* "货品已禁用，无法进行…操作" *)
| StockInsufficient (current : Z) (required : option Z)
                                      (* "库存不足，当前库存：…，需要：…" *)
| InventoryNotFound                   (* "库存不存在，无法出库" *)
| TypeError                           (* arithmetic or comparison on None *)
| IntegrityError.                     (* NULL written to an int column *)

(** A computation without effect on the store that may raise. *)
Notation "'let?' x ':=' m 'in' k" :=
  (match m with inl e => inl e | inr x => k end)
  (at level 10, x name, m at level 100, k at level 200).

(** ** Python builtins used by the service *)

Module Py.

(** [datetime]: a naive timestamp; comparison is lexicographic on the
    fields, as [datetime.__lt__] is. *)
Record datetime := mk_datetime {
  year : Z; month : Z; day : Z;
  hour : Z; minute : Z; second : Z; microsecond : Z
}.

Definition fields (d : datetime) : list Z :=
  [year d; month d; day d; hour d; minute d; second d; microsecond d].

Fixpoint lex_compare (xs ys : list Z) : comparison :=
  match xs, ys with
  | [], [] => Eq
  | [], _ :: _ => Lt
  | _ :: _, [] => Gt
  | x :: xs', y :: ys' =>
      match x ?= y with
      | Eq => lex_compare xs' ys'
      | c => c
      end
  end.

Definition compare (a b : datetime) : comparison :=
  lex_compare (fields a) (fields b).

(** [a > b], [a >= b], [a <= b] on datetimes. *)
Definition gtb (a b : datetime) : bool :=
  match compare a b with Gt => true | _ => false end.
Definition geb (a b : datetime) : bool :=
  match compare a b with Lt => false | _ => true end.
Definition leb (a b : datetime) : bool :=
  match compare a b with Gt => false | _ => true end.

(** [str(n)] for [n >= 0]. *)
Definition str_of_nonneg (n : Z) : string :=
  NilZero.string_of_uint (N.to_uint (Z.to_N n)).

Fixpoint zeros (k : nat) : string :=
  match k with
  | O => EmptyString
  | S k' => String "0"%char (zeros k')
  end.

(** Left padding with zeros up to [width] characters. *)
Definition zfill (width : nat) (s : string) : string :=
  zeros (width - String.length s) +:+ s.

(** The format specification [0{width}d]: sign-aware zero padding to a
    minimum width, never truncating. *)
Definition format_0d (width : nat) (n : Z) : string :=
  if n <? 0
  then String "-"%char (zfill (width - 1) (str_of_nonneg (- n)))
  else zfill width (str_of_nonneg n).

(** [strftime('%Y%m%d')], with [%Y] as four digits: what the C library
    prints for the years from 1000 on, and on some platforms for every
    year. *)
Definition strftime_Ymd (d : datetime) : string :=
  format_0d 4 (year d) +:+ format_0d 2 (month d) +:+ format_0d 2 (day d).

(** *** Whitespace

    The characters for which [str.isspace] holds, in UTF-8: one byte
    (U+0009..U+000D, U+001C..U+0020), two bytes (U+0085, U+00A0) or
    three (U+1680, U+2000..U+200A, U+2028, U+2029, U+202F, U+205F,
    U+3000). *)
Definition is_space (c : ascii) : bool :=
  let n := nat_of_ascii c in
  ((9 <=? n) && (n <=? 13) || (28 <=? n) && (n <=? 32))%nat.

Definition is_space2 (a b : ascii) : bool :=
  let a := nat_of_ascii a in
  let b := nat_of_ascii b in
  ((a =? 194) && ((b =? 133) || (b =? 160)))%nat.

Definition is_space3 (a b c : ascii) : bool :=
  let a := nat_of_ascii a in
  let b := nat_of_ascii b in
  let c := nat_of_ascii c in
  ((a =? 225) && (b =? 154) && (c =? 128)
   || (a =? 226) && (b =? 128)
      && ((128 <=? c) && (c <=? 138) || (c =? 168) || (c =? 169) || (c =? 175))
   || (a =? 226) && (b =? 129) && (c =? 159)
   || (a =? 227) && (b =? 128) && (c =? 128))%nat.

(** Removal of the leading whitespace; [sp] tells which single bytes
    count as whitespace. *)
Fixpoint lstrip_with (sp : ascii -> bool) (s : string) : string :=
  match s with
  | EmptyString => EmptyString
  | String a s1 =>
      if sp a then lstrip_with sp s1
      else
        match s1 with
        | EmptyString => s
        | String b s2 =>
            if is_space2 a b then lstrip_with sp s2
            else
              match s2 with
              | EmptyString => s
              | String c s3 =>
                  if is_space3 a b c then lstrip_with sp s3 else s
              end
        end
  end.

(** Removal of the trailing whitespace: the text ends where what
    follows is whitespace only. *)
Fixpoint rstrip_with (sp : ascii -> bool) (s : string) : string :=
  match s with
  | EmptyString => EmptyString
  | String a s' =>
      match lstrip_with sp s with
      | EmptyString => EmptyString
      | String _ _ => String a (rstrip_with sp s')
      end
  end.

Definition lstrip (s : string) : string := lstrip_with is_space s.

Definition rstrip (s : string) : string := rstrip_with is_space s.

(** [s.strip()]. *)
Definition strip (s : string) : string := rstrip (lstrip s).

(** *** Slicing *)

(** A byte that continues a character begun before it. *)
Definition is_continuation (c : ascii) : bool :=
  let n := nat_of_ascii c in ((128 <=? n) && (n <? 192))%nat.

(** [len(s)]: the number of characters. *)
Fixpoint len (s : string) : nat :=
  match s with
  | EmptyString => O
  | String c s' => if is_continuation c then len s' else S (len s')
  end.

(** [s[-4:]]: the last four characters, or all of [s] when it is
    shorter. *)
Fixpoint last4 (s : string) : string :=
  match s with
  | EmptyString => EmptyString
  | String c s' =>
      if is_continuation c || (4 <? len s)%nat then last4 s' else s
  end.

(** *** [int(s)] *)

(** Digit groups separated by single underscores, as [int()] accepts
    them: no underscore first, last, or next to another one. *)
Fixpoint underscores_ok (prev_digit : bool) (s : string) : bool :=
  match s with
  | EmptyString => prev_digit
  | String c s' =>
      if Ascii.eqb c "_"%char
      then prev_digit && underscores_ok false s'
      else underscores_ok true s'
  end.

Fixpoint remove_underscores (s : string) : string :=
  match s with
  | EmptyString => EmptyString
  | String c s' =>
      if Ascii.eqb c "_"%char then remove_underscores s'
      else String c (remove_underscores s')
  end.

Definition int_unsigned (s : string) : option Z :=
  if underscores_ok false s
  then Z.of_uint <$> NilZero.uint_of_string (remove_underscores s)
  else None.

(** The code points of a text: a byte below 128 is a character, a
    greater one begins a character of two, three or four bytes;
    [pending] and [need] hold the part read and the number of bytes
    missing of a character that has begun. *)
Fixpoint code_points (pending : N) (need : nat) (s : string) : list N :=
  match s with
  | EmptyString => []
  | String a s' =>
      let a := N_of_ascii a in
      match need with
      | O =>
          if (a <? 128)%N then a :: code_points 0 0 s'
          else if (a <? 224)%N then code_points (a - 192) 1 s'
          else if (a <? 240)%N then code_points (a - 224) 2 s'
          else code_points (a - 240) 3 s'
      | S O => (pending * 64 + (a - 128))%N :: code_points 0 0 s'
      | S need' => code_points (pending * 64 + (a - 128)) need' s'
      end
  end.

(** Whitespace beyond ASCII, as code points. *)
Definition is_space_code (c : N) : bool :=
  ((c =? 133) || (c =? 160) || (c =? 5760)
   || (8192 <=? c) && (c <=? 8202)
   || (c =? 8232) || (c =? 8233) || (c =? 8239) || (c =? 8287)
   || (c =? 12288))%N.

(** The decimal digits: 66 runs of ten code points, each from the zero
    of a script to its nine (the character database of Python 3.11,
    Unicode 14.0). *)
Definition digit_zeros : list N :=
  [48; 1632; 1776; 1984; 2406; 2534; 2662; 2790; 2918; 3046; 3174; 3302;
   3430; 3558; 3664; 3792; 3872; 4160; 4240; 6112; 6160; 6470; 6608; 6784;
   6800; 6992; 7088; 7232; 7248; 42528; 43216; 43264; 43472; 43504; 43600;
   44016; 65296; 66720; 68912; 69734; 69872; 69942; 70096; 70384; 70736;
   70864; 71248; 71360; 71472; 71904; 72016; 72784; 73040; 73120; 92768;
   92864; 93008; 120782; 120792; 120802; 120812; 120822; 123200; 123632;
   125264; 130032]%N.

Definition decimal_of (c : N) : option N :=
  (fun zero => c - zero)%N
    <$> List.find (fun zero => (zero <=? c)%N && (c <? zero + 10)%N) digit_zeros.

(** What [int()] makes of a character before it reads the number: a
    character below U+007F is kept, any other whitespace becomes a
    space, any other decimal digit the ASCII digit of its value; no
    other character is accepted. *)
Definition int_char (c : N) : option ascii :=
  if (c <? 127)%N then Some (ascii_of_N c)
  else if is_space_code c then Some " "%char
  else (fun d => ascii_of_N (48 + d)) <$> decimal_of c.

(** The single bytes [int()] skips around the number: U+0009..U+000D
    and the space, not U+001C..U+001F. *)
Definition is_space_int (c : ascii) : bool :=
  let n := nat_of_ascii c in
  ((9 <=? n) && (n <=? 13) || (n =? 32))%nat.

(** [int(s)] in base ten: surrounding whitespace is dropped, one sign
    is allowed; [None] stands for the [ValueError]. *)
Definition int (s : string) : option Z :=
  match mapM int_char (code_points 0 0 s) with
  | None => None
  | Some text =>
      match rstrip_with is_space_int
              (lstrip_with is_space_int (String.string_of_list_ascii text)) with
      | String "-"%char r => Z.opp <$> int_unsigned r
      | String "+"%char r => int_unsigned r
      | r => int_unsigned r
      end
  end.

(** *** [decimal.Decimal]

    A finite number is [(-1)^sign * coefficient * 10^exponent], the
    triple [as_tuple()] shows; the other values are the infinities and
    the quiet and signaling NaNs with their payload. *)
Inductive Decimal :=
| Finite (sign : bool) (coefficient : N) (exponent : Z)
| Infinity (sign : bool)
| NaN (sign : bool) (payload : N)
| sNaN (sign : bool) (payload : N).

(** [Decimal(str(n))] for an [int] [n]. *)
Definition Decimal_of_int (n : Z) : Decimal := Finite (n <? 0) (Z.abs_N n) 0.

(** [Decimal('0')]. *)
Definition Decimal_zero : Decimal := Finite false 0 0.

(** Truth value of a [Decimal]: false exactly for the zeros. *)
Definition Decimal_bool (d : Decimal) : bool :=
  match d with
  | Finite _ c _ => negb (c =? 0)%N
  | _ => true
  end.

(** [d < 0]: an ordering comparison with a NaN signals
    [InvalidOperation], which the default context traps. *)
Definition Decimal_lt0 (d : Decimal) : exn + bool :=
  match d with
  | Finite s c _ => inr (s && negb (c =? 0)%N)
  | Infinity s => inr s
  | NaN _ _ | sNaN _ _ => inl DecimalInvalidOperation
  end.

(** The default context: 28 significant digits, rounding half-even,
    exponents between [Emin] and [Emax], traps on [InvalidOperation],
    [DivisionByZero] and [Overflow]. *)
Definition prec : Z := 28.
Definition Emax : Z := 999999.
Definition Emin : Z := -999999.
Definition Etiny : Z := Emin - prec + 1.
Definition Etop : Z := Emax - prec + 1.

(** The number of decimal digits of [c], [len(str(c))]: at most its
    number of binary digits, which bounds the recursion. *)
Fixpoint digits_upto (fuel : nat) (c : N) : Z :=
  match fuel with
  | O => 1
  | S fuel' => if (c <? 10)%N then 1 else 1 + digits_upto fuel' (c / 10)%N
  end.

Definition digits (c : N) : Z := digits_upto (S (N.to_nat (N.log2 c))) c.

(** [c / 10^k] rounded to the nearest integer, a tie going to the even
    one ([ROUND_HALF_EVEN]); [k > 0]. *)
Definition round_half_even (c k : Z) : Z :=
  let q := c / 10 ^ k in
  let r := c mod 10 ^ k in
  match 2 * r ?= 10 ^ k with
  | Lt => q
  | Gt => q + 1
  | Eq => if Z.even q then q else q + 1
  end.

(** What every operation does to a finite result (the method [_fix]):
    a zero keeps an exponent within [Etiny] and [Emax]; a coefficient
    of more than [prec] digits, or an exponent below [Etiny], is
    rounded; a result above [Emax] signals [Overflow], which is
    trapped.  [Underflow], [Subnormal], [Inexact], [Rounded] and
    [Clamped] are not trapped. *)
Definition Decimal_fix (sign : bool) (c : N) (e : Z) : exn + Decimal :=
  if (c =? 0)%N then inr (Finite sign 0 (Z.min (Z.max e Etiny) Emax))
  else
    let exp_min := digits c + e - prec in
    if Etop <? exp_min then inl DecimalOverflow
    else
      let exp_min := Z.max exp_min Etiny in
      if e <? exp_min then
        let coeff := round_half_even (Z.of_N c) (exp_min - e) in
        let carry := prec <? digits (Z.to_N coeff) in
        let coeff := if carry then coeff / 10 else coeff in
        let exp_min := if carry then exp_min + 1 else exp_min in
        if Etop <? exp_min then inl DecimalOverflow
        else inr (Finite sign (Z.to_N coeff) exp_min)
      else inr (Finite sign c e).

(** A NaN operand is the result, its payload cut to [prec] digits. *)
Definition Decimal_fix_nan (sign : bool) (payload : N) : Decimal :=
  NaN sign (payload mod 10 ^ Z.to_N prec)%N.

(** [a * b]. *)
Definition Decimal_mul (a b : Decimal) : exn + Decimal :=
  match a, b with
  | sNaN _ _, _ | _, sNaN _ _ => inl DecimalInvalidOperation
  | NaN s p, _ => inr (Decimal_fix_nan s p)
  | _, NaN s p => inr (Decimal_fix_nan s p)
  | Infinity s, Infinity s' => inr (Infinity (xorb s s'))
  | Infinity s, Finite s' c _ | Finite s' c _, Infinity s =>
      if (c =? 0)%N then inl DecimalInvalidOperation
      else inr (Infinity (xorb s s'))
  | Finite s c e, Finite s' c' e' => Decimal_fix (xorb s s') (c * c') (e + e')
  end.

(** *** [float]

    A double as far as [validate_number] looks at it: a NaN, a number
    below zero (minus infinity included), a zero of either sign, or a
    number above zero. *)
Inductive float := Fnan | Fneg | Fzero | Fpos.

(** [float(d)]: the double nearest to [d], a tie going to the even
    one.  The least double above zero is [2^-1074], so a magnitude of at
    most [2^-1075] becomes a zero and every greater one does not; a
    magnitude beyond the range becomes an infinity.  A signaling NaN
    raises [ValueError]. *)
Definition float_of_Decimal (d : Decimal) : exn + float :=
  match d with
  | Finite s c e =>
      if (if 0 <=? e then (c =? 0)%N
          else Z.of_N c * 2 ^ 1075 <=? 10 ^ (- e))
      then inr Fzero
      else inr (if s then Fneg else Fpos)
  | Infinity s => inr (if s then Fneg else Fpos)
  | NaN _ _ => inr Fnan
  | sNaN _ _ => inl FloatValueError
  end.

(** [x < 0] on doubles: false for a NaN and for both zeros. *)
Definition float_lt0 (x : float) : bool :=
  match x with
  | Fneg => true
  | _ => false
  end.

End Py.


(** ** The fragment of SQL the service relies on *)

Module Sql.

(** All suffixes of a string, the longest first. *)
Fixpoint suffixes (s : string) : list string :=
  s :: match s with
       | EmptyString => []
       | String _ s' => suffixes s'
       end.

(** [s LIKE p]: [%] matches any run of characters, [_] any single one,
    and a backslash makes the character after it literal. *)
Fixpoint like (p s : string) : bool :=
  match p with
  | EmptyString =>
      match s with EmptyString => true | String _ _ => false end
  | String c p' =>
      if Ascii.eqb c "%"%char then existsb (like p') (suffixes s)
      else if Ascii.eqb c "_"%char then
        match s with
        | EmptyString => false
        | String _ s' => like p' s'
        end
      else if Ascii.eqb c "\"%char then
        match p' with
        | EmptyString =>
            match s with
            | String c' EmptyString => Ascii.eqb c c'
            | _ => false
            end
        | String e p'' =>
            match s with
            | EmptyString => false
            | String c' s' => Ascii.eqb e c' && like p'' s'
            end
        end
      else
        match s with
        | EmptyString => false
        | String c' s' => Ascii.eqb c c' && like p' s'
        end
  end.

(** A comparison with a [NULL] operand is not true. *)
Definition eq_Z (column param : option Z) : bool :=
  match column, param with
  | Some a, Some b => a =? b
  | _, _ => false
  end.

Definition like_opt (column : option string) (pattern : string) : bool :=
  match column with
  | Some s => like pattern s
  | None => false
  end.

Definition ge_datetime (column : option Py.datetime) (param : Py.datetime) : bool :=
  match column with
  | Some d => Py.geb d param
  | None => false
  end.

Definition le_datetime (column : option Py.datetime) (param : Py.datetime) : bool :=
  match column with
  | Some d => Py.leb d param
  | None => false
  end.

(** Ordering of nullable columns: [NULL] is below every value. *)
Definition compare_opt {A} (cmp : A -> A -> comparison) (a b : option A) : comparison :=
  match a, b with
  | None, None => Eq
  | None, Some _ => Lt
  | Some _, None => Gt
  | Some x, Some y => cmp x y
  end.

(** The greatest string of a list ([ORDER BY s DESC LIMIT 1]). *)
Fixpoint greatest (l : list string) : option string :=
  match l with
  | [] => None
  | s :: l' =>
      match greatest l' with
      | None => Some s
      | Some m => if String.ltb s m then Some m else Some s
      end
  end.

End Sql.

(** ** Model classes *)

Module StockRecord.

Record t := mk {
  id : option Z;
  record_no : option string;
  record_type : option Z;
  warehouse_id : option Z;
  product_id : option Z;
  quantity : option Z;
  unit_price : option Py.Decimal;
  total_amount : option Py.Decimal;
  supplier_client_id : option Z;
  operator : option string;
  record_date : option Py.datetime;
  remark : option string
}.

Definition set_id (v : option Z) (r : t) : t :=
  mk v (record_no r) (record_type r) (warehouse_id r) (product_id r)
     (quantity r) (unit_price r) (total_amount r) (supplier_client_id r)
     (operator r) (record_date r) (remark r).

Definition set_record_no (v : option string) (r : t) : t :=
  mk (id r) v (record_type r) (warehouse_id r) (product_id r)
     (quantity r) (unit_price r) (total_amount r) (supplier_client_id r)
     (operator r) (record_date r) (remark r).

Definition set_record_type (v : option Z) (r : t) : t :=
  mk (id r) (record_no r) v (warehouse_id r) (product_id r)
     (quantity r) (unit_price r) (total_amount r) (supplier_client_id r)
     (operator r) (record_date r) (remark r).

Definition set_total_amount (v : option Py.Decimal) (r : t) : t :=
  mk (id r) (record_no r) (record_type r) (warehouse_id r) (product_id r)
     (quantity r) (unit_price r) v (supplier_client_id r)
     (operator r) (record_date r) (remark r).

(** [calculate_total_amount]: the object after the call and the value
    returned.  The attribute is assigned only when both [quantity] and
    [unit_price] are truthy; the product may raise. *)
Definition calculate_total_amount (self : t) : exn + (t * Py.Decimal) :=
  match quantity self, unit_price self with
  | Some q, Some p =>
      if negb (q =? 0) && Py.Decimal_bool p
      then let? total := Py.Decimal_mul (Py.Decimal_of_int q) p in
           inr (set_total_amount (Some total) self, total)
      else inr (self, Py.Decimal_zero)
  | _, _ => inr (self, Py.Decimal_zero)
  end.

End StockRecord.

Module Inventory.

Record t := mk {
  id : Z;
  warehouse_id : Z;
  product_id : Z;
  quantity : Z;
  last_in_date : option Py.datetime;
  last_out_date : option Py.datetime
}.

End Inventory.

(** Master data: only the columns the movement engine reads. *)
Module Warehouse.
Record t := mk { id : Z; status : Z }.
End Warehouse.

Module Product.
Record t := mk { id : Z; status : Z }.
End Product.

(** ** The store and the monad of service calls *)

Record DB := mk_DB {
  stock_record : list StockRecord.t;
  stock_record_auto_increment : Z;
  inventory : list Inventory.t;
  inventory_auto_increment : Z;
  warehouse : gmap Z Warehouse.t;
  product : gmap Z Product.t
}.

Definition M (A : Type) : Type := DB -> DB * (exn + A).

Definition ret {A} (a : A) : M A := fun db => (db, inr a).

Definition raise {A} (e : exn) : M A := fun db => (db, inl e).

Definition bind {A B} (m : M A) (k : A -> M B) : M B :=
  fun db =>
    match m db with
    | (db', inr a) => k a db'
    | (db', inl e) => (db', inl e)
    end.

(** A computation that raises or returns without touching the store. *)
Definition lift {A} (x : exn + A) : M A := fun db => (db, x).

Definition get : M DB := fun db => (db, inr db).

Definition put (db' : DB) : M unit := fun _ => (db', inr tt).

Notation "'let*' x ':=' m 'in' k" := (bind m (fun x => k))
  (at level 10, x name, m at level 100, k at level 200).

Notation "m ';;' k" := (bind m (fun _ => k))
  (at level 100, k at level 200, right associativity).

(** [try: body; connection.commit() except: connection.rollback(); raise]
    on a connection opened with [autocommit=False]: the statements of
    [body] become visible together, or not at all. *)
Definition transaction {A} (body : M A) : M A :=
  fun db =>
    match body db with
    | (db', inr a) => (db', inr a)
    | (_, inl e) => (db, inl e)
    end.

(** ** utils/validator.py *)

Module Validator.

(** [validate_not_empty(value, field_name)]: fails on [None] and on a
    string that is empty once stripped. *)
Definition validate_not_empty (value : option string) : bool :=
  match value with
  | None => false
  | Some s =>
      match Py.strip s with
      | EmptyString => false
      | String _ _ => true
      end
  end.

(** [validate_number(value, min_value=0, field_name=...)] on a
    [float], the only way the service calls it: the conversion inside
    returns the value itself, there is no [max_value], and the value
    fails when it is below [min_value]. *)
Definition validate_number_min0 (value : Py.float) : bool :=
  negb (Py.float_lt0 value).

End Validator.

(** ** dao/warehouse_dao.py, dao/product_dao.py, dao/inventory_dao.py *)

Module WarehouseDAO.
(** [SELECT * FROM warehouse WHERE id=%s]. *)
Definition get_by_id (id : option Z) : M (option Warehouse.t) :=
  let* db := get in
  ret (match id with
       | Some i => warehouse db !! i
       | None => None
       end).
End WarehouseDAO.

Module ProductDAO.
(** [SELECT * FROM product WHERE id=%s]. *)
Definition get_by_id (id : option Z) : M (option Product.t) :=
  let* db := get in
  ret (match id with
       | Some i => product db !! i
       | None => None
       end).
End ProductDAO.

Module InventoryDAO.

(** [WHERE warehouse_id=%s AND product_id=%s] on an inventory row. *)
Definition matches (warehouse_id product_id : option Z) (r : Inventory.t) : bool :=
  Sql.eq_Z (Some (Inventory.warehouse_id r)) warehouse_id
  && Sql.eq_Z (Some (Inventory.product_id r)) product_id.

(** The first row of the result, as [fetch_one] and [fetchone] give. *)
Definition select (warehouse_id product_id : option Z) (rows : list Inventory.t)
  : option Inventory.t :=
  List.find (matches warehouse_id product_id) rows.

Definition get_by_warehouse_product (warehouse_id product_id : option Z)
  : M (option Inventory.t) :=
  let* db := get in
  ret (select warehouse_id product_id (inventory db)).

(** [check_stock]: is the stock of the pair at least [required_quantity]? *)
Definition check_stock (warehouse_id product_id required_quantity : option Z)
  : M bool :=
  let* inventory := get_by_warehouse_product warehouse_id product_id in
  match inventory with
  | None => ret false
  | Some inv =>
      match required_quantity with
      | Some q => ret (Inventory.quantity inv >=? q)
      | None => raise TypeError
      end
  end.

End InventoryDAO.

(** ** service/stock_service.py *)

Module StockService.

(** [not x] for an optional string and for an optional int. *)
Definition not_str (x : option string) : bool :=
  match x with
  | None => true
  | Some EmptyString => true
  | Some (String _ _) => false
  end.

Definition not_int (x : option Z) : bool :=
  match x with
  | None => true
  | Some n => n =? 0
  end.

(** The prefix built by [generate_record_no]. *)
Definition record_no_prefix (now : Py.datetime) (record_type : Z) : string :=
  let date_str := Py.strftime_Ymd now in
  if record_type =? 1 then "RK" +:+ date_str
  else if record_type =? 2 then "CK" +:+ date_str
  else "SR" +:+ date_str.

(** [SELECT record_no FROM stock_record WHERE record_no LIKE %s
     ORDER BY record_no DESC LIMIT 1]. *)
Definition select_last_record_no (pattern : string) (rows : list StockRecord.t)
  : option string :=
  Sql.greatest
    (List.filter (Sql.like pattern)
       (omap StockRecord.record_no rows)).

Definition generate_record_no (now : Py.datetime) (record_type : Z) : M string :=
  let prefix := record_no_prefix now record_type in
  let* db := get in
  match select_last_record_no (prefix +:+ "%") (stock_record db) with
  | Some last_code =>
      match Py.int (Py.last4 last_code) with
      | Some last_num =>
          let new_num := last_num + 1 in
          ret (prefix +:+ Py.format_0d 4 new_num)
      | None => raise IntValueError
      end
  | None => ret (prefix +:+ Py.format_0d 4 1)
  end.

(** The unit price step of [validate_stock_record]:
    [float(stock_record.unit_price)] is evaluated, and may raise, before
    [validate_number] is entered. *)
Definition unit_price_errors (unit_price : option Py.Decimal) : exn + list message :=
  match unit_price with
  | Some p =>
      let? value := Py.float_of_Decimal p in
      inr (if Validator.validate_number_min0 value then []
           else [MsgUnitPriceNegative])
  | None => inr []
  end.

Definition validate_stock_record (now : Py.datetime) (r : StockRecord.t)
  : exn + (bool * list message) :=
  let? price_errors := unit_price_errors (StockRecord.unit_price r) in
  let errors :=
    (if Validator.validate_not_empty (StockRecord.record_no r)
     then [] else [MsgRecordNoEmpty])
    ++ (match StockRecord.record_type r with
        | Some 1 | Some 2 => []
        | _ => [MsgRecordTypeInvalid]
        end)
    ++ (if not_int (StockRecord.warehouse_id r) then [MsgWarehouseIdEmpty] else [])
    ++ (if not_int (StockRecord.product_id r) then [MsgProductIdEmpty] else [])
    ++ (match StockRecord.quantity r with
        | Some q => if (q =? 0) || (q <=? 0) then [MsgQuantityNotPositive] else []
        | None => [MsgQuantityNotPositive]
        end)
    ++ price_errors
    ++ (match StockRecord.record_date r with
        | None => [MsgRecordDateEmpty]
        | Some d => if Py.gtb d now then [MsgRecordDateFuture] else []
        end)
  in
  inr (match errors with [] => true | _ :: _ => false end, errors).

(** The [INSERT INTO stock_record] statement; the value returned is
    [cursor.lastrowid]. *)
Definition insert_stock_record (r : StockRecord.t) : M Z :=
  let* db := get in
  let new_id := stock_record_auto_increment db in
  put (mk_DB (stock_record db ++ [StockRecord.set_id (Some new_id) r])
             (new_id + 1)
             (inventory db) (inventory_auto_increment db)
             (warehouse db) (product db));;
  ret new_id.

(** [UPDATE inventory SET quantity=%s, last_in_date=%s WHERE ...] and
    its [last_out_date] twin, on one row. *)
Definition update_row (is_in : bool) (warehouse_id product_id : option Z)
    (new_quantity : Z) (record_date : option Py.datetime) (r : Inventory.t)
  : Inventory.t :=
  if InventoryDAO.matches warehouse_id product_id r then
    if is_in
    then Inventory.mk (Inventory.id r) (Inventory.warehouse_id r)
           (Inventory.product_id r) new_quantity
           record_date (Inventory.last_out_date r)
    else Inventory.mk (Inventory.id r) (Inventory.warehouse_id r)
           (Inventory.product_id r) new_quantity
           (Inventory.last_in_date r) record_date
  else r.

Definition update_inventory (is_in : bool) (warehouse_id product_id : option Z)
    (new_quantity : Z) (record_date : option Py.datetime) : M unit :=
  let* db := get in
  put (mk_DB (stock_record db) (stock_record_auto_increment db)
             (map (update_row is_in warehouse_id product_id new_quantity record_date)
                  (inventory db))
             (inventory_auto_increment db)
             (warehouse db) (product db)).

(** [INSERT INTO inventory (warehouse_id, product_id, quantity,
    last_in_date)]. *)
Definition insert_inventory (warehouse_id product_id quantity : Z)
    (record_date : option Py.datetime) : M unit :=
  let* db := get in
  let new_id := inventory_auto_increment db in
  put (mk_DB (stock_record db) (stock_record_auto_increment db)
             (inventory db ++
                [Inventory.mk new_id warehouse_id product_id quantity
                   record_date None])
             (new_id + 1)
             (warehouse db) (product db)).

Definition _update_inventory_in_transaction (stock_record : StockRecord.t)
    (is_in : bool) : M unit :=
  let warehouse_id := StockRecord.warehouse_id stock_record in
  let product_id := StockRecord.product_id stock_record in
  let quantity := StockRecord.quantity stock_record in
  let record_date := StockRecord.record_date stock_record in
  let* db := get in
  match InventoryDAO.select warehouse_id product_id (inventory db) with
  | Some existing =>
      match quantity with
      | None => raise TypeError
      | Some q =>
          if is_in then
            let new_quantity := Inventory.quantity existing + q in
            update_inventory true warehouse_id product_id new_quantity record_date
          else
            let new_quantity := Inventory.quantity existing - q in
            if new_quantity <? 0
            then raise (StockInsufficient (Inventory.quantity existing) quantity)
            else update_inventory false warehouse_id product_id new_quantity
                   record_date
      end
  | None =>
      if negb is_in then raise InventoryNotFound
      else
        match warehouse_id, product_id, quantity with
        | Some w, Some p, Some q => insert_inventory w p q record_date
        | _, _, _ => raise IntegrityError
        end
  end.

(** Both operations start alike, apart from the kind and from the word
    for the operation in two messages: kind, document number,
    validation, warehouse, product. *)
Definition assign_record_no (now : Py.datetime) (kind : Z)
    (stock_record : StockRecord.t) : M StockRecord.t :=
  let stock_record := StockRecord.set_record_type (Some kind) stock_record in
  if not_str (StockRecord.record_no stock_record)
  then let* record_no := generate_record_no now kind in
       ret (StockRecord.set_record_no (Some record_no) stock_record)
  else ret stock_record.

Definition check_references (stock_record : StockRecord.t) : M unit :=
  let* warehouse := WarehouseDAO.get_by_id (StockRecord.warehouse_id stock_record) in
  match warehouse with
  | None => raise WarehouseNotFound
  | Some wh =>
      if negb (Warehouse.status wh =? 1) then raise WarehouseDisabled
      else
        let* product := ProductDAO.get_by_id (StockRecord.product_id stock_record) in
        match product with
        | None => raise ProductNotFound
        | Some pr =>
            if negb (Product.status pr =? 1) then raise ProductDisabled
            else ret tt
        end
  end.

Definition prepare (now : Py.datetime) (kind : Z) (stock_record : StockRecord.t)
  : M StockRecord.t :=
  let* stock_record := assign_record_no now kind stock_record in
  let* validation := lift (validate_stock_record now stock_record) in
  let '(is_valid, errors) := validation in
  if negb is_valid then raise (ValueError errors)
  else check_references stock_record;; ret stock_record.

(** The transaction of both operations: ledger row, then balance. *)
Definition commit_movement (stock_record : StockRecord.t) (is_in : bool)
  : M StockRecord.t :=
  transaction
    (let* lastrowid := insert_stock_record stock_record in
     let stock_record := StockRecord.set_id (Some lastrowid) stock_record in
     _update_inventory_in_transaction stock_record is_in;;
     ret stock_record).

Definition add_in_stock (now : Py.datetime) (stock_record : StockRecord.t)
  : M StockRecord.t :=
  let* stock_record := prepare now 1 stock_record in
  let* total := lift (StockRecord.calculate_total_amount stock_record) in
  let stock_record := fst total in
  commit_movement stock_record true.

Definition add_out_stock (now : Py.datetime) (stock_record : StockRecord.t)
  : M StockRecord.t :=
  let* stock_record := prepare now 2 stock_record in
  let* enough :=
    InventoryDAO.check_stock (StockRecord.warehouse_id stock_record)
      (StockRecord.product_id stock_record) (StockRecord.quantity stock_record) in
  if negb enough then
    let* inventory :=
      InventoryDAO.get_by_warehouse_product
        (StockRecord.warehouse_id stock_record)
        (StockRecord.product_id stock_record) in
    let current_stock :=
      match inventory with
      | Some inv => Inventory.quantity inv
      | None => 0
      end in
    raise (StockInsufficient current_stock (StockRecord.quantity stock_record))
  else
    let* total := lift (StockRecord.calculate_total_amount stock_record) in
    let stock_record := fst total in
    commit_movement stock_record false.

(** The [conditions] dictionary: the keys a caller may set. *)
Record conditions := mk_conditions {
  c_warehouse_id : option Z;
  c_product_id : option Z;
  c_supplier_client_id : option Z;
  c_record_type : option Z;
  c_start_date : option Py.datetime;
  c_end_date : option Py.datetime;
  c_record_no : option string;
  c_operator : option string
}.

(** The [WHERE] clause assembled by [search_stock_records]: a key adds
    its condition when [conditions.get(key)] is truthy. *)
Definition where_clause (c : conditions) (r : StockRecord.t) : bool :=
  (if not_int (c_warehouse_id c) then true
   else Sql.eq_Z (StockRecord.warehouse_id r) (c_warehouse_id c))
  && (if not_int (c_product_id c) then true
      else Sql.eq_Z (StockRecord.product_id r) (c_product_id c))
  && (if not_int (c_record_type c) then true
      else Sql.eq_Z (StockRecord.record_type r) (c_record_type c))
  && (match c_start_date c with
      | None => true
      | Some d => Sql.ge_datetime (StockRecord.record_date r) d
      end)
  && (match c_end_date c with
      | None => true
      | Some d => Sql.le_datetime (StockRecord.record_date r) d
      end)
  && (match c_record_no c with
      | Some (String a q) =>
          Sql.like_opt (StockRecord.record_no r) ("%" +:+ String a q +:+ "%")
      | _ => true
      end)
  && (match c_operator c with
      | Some (String a q) =>
          Sql.like_opt (StockRecord.operator r) ("%" +:+ String a q +:+ "%")
      | _ => true
      end).

(** [ORDER BY record_date DESC, id DESC]. *)
Definition order_compare (a b : StockRecord.t) : comparison :=
  match Sql.compare_opt Py.compare (StockRecord.record_date a) (StockRecord.record_date b) with
  | Eq => Sql.compare_opt Z.compare (StockRecord.id a) (StockRecord.id b)
  | c => c
  end.

Definition newest_firstb (a b : StockRecord.t) : bool :=
  match order_compare a b with
  | Lt => false
  | _ => true
  end.

Definition newest_first (a b : StockRecord.t) : Prop := newest_firstb a b = true.

#[global] Instance newest_first_dec a b : Decision (newest_first a b) :=
  bool_eq_dec (newest_firstb a b) true.

Definition search_stock_records (c : conditions) : M (list StockRecord.t) :=
  let* db := get in
  ret (merge_sort newest_first (List.filter (where_clause c) (stock_record db))).

End StockService.

(** ** Sequential posting *)

Inductive request :=
| InStock (now : Py.datetime) (stock_record : StockRecord.t)
| OutStock (now : Py.datetime) (stock_record : StockRecord.t).

Definition post (op : request) : M StockRecord.t :=
  match op with
  | InStock now r => StockService.add_in_stock now r
  | OutStock now r => StockService.add_out_stock now r
  end.

(** Posts the requests one after the other; a failed call is skipped.
    The result is the final store and the records returned by the calls
    that succeeded, in order. *)
Fixpoint run (ops : list request) (db : DB) : DB * list StockRecord.t :=
  match ops with
  | [] => (db, [])
  | op :: ops' =>
      match post op db with
      | (db', inr r) =>
          let '(db'', rs) := run ops' db' in (db'', r :: rs)
      | (db', inl _) => run ops' db'
      end
  end.

(** Is [r] a record of kind [kind] for the pair [(w, p)]? *)
Definition of_pair_and_kind (w p kind : Z) (r : StockRecord.t) : bool :=
  Sql.eq_Z (StockRecord.warehouse_id r) (Some w)
  && Sql.eq_Z (StockRecord.product_id r) (Some p)
  && Sql.eq_Z (StockRecord.record_type r) (Some kind).

(** [SUM(quantity)] over the records of one kind for one pair. *)
Definition sum_quantity (w p kind : Z) (rs : list StockRecord.t) : Z :=
  foldr Z.add 0
    (map (fun r => default 0 (StockRecord.quantity r))
       (List.filter (of_pair_and_kind w p kind) rs)).

(** Inbound minus outbound. *)
Definition net_quantity (w p : Z) (rs : list StockRecord.t) : Z :=
  sum_quantity w p 1 rs - sum_quantity w p 2 rs.

(** ** Vocabulary of the statements *)

(** Both references resolve and are active. *)
Definition references_active (db : DB) (r : StockRecord.t) : Prop :=
  exists w p wh pr,
    StockRecord.warehouse_id r = Some w /\ warehouse db !! w = Some wh /\
    Warehouse.status wh = 1 /\
    StockRecord.product_id r = Some p /\ product db !! p = Some pr /\
    Product.status pr = 1.

(** The stock of a pair as the pre-check of [add_out_stock] reports it. *)
Definition current_stock (w p : option Z) (db : DB) : Z :=
  match InventoryDAO.select w p (inventory db) with
  | Some inv => Inventory.quantity inv
  | None => 0
  end.

(** The inventory table after a committed movement of [q] units for the
    pair [(w, p)], as [_update_inventory_in_transaction] leaves it. *)
Definition inventory_after (is_in : bool) (w p q : Z) (d : option Py.datetime)
    (db : DB) : list Inventory.t :=
  match InventoryDAO.select (Some w) (Some p) (inventory db) with
  | Some e =>
      map (StockService.update_row is_in (Some w) (Some p)
             (if is_in then Inventory.quantity e + q else Inventory.quantity e - q) d)
          (inventory db)
  | None =>
      inventory db ++ [Inventory.mk (inventory_auto_increment db) w p q d None]
  end.

(** What a successful movement leaves behind. *)
Definition committed (is_in : bool) (r' : StockRecord.t) (w p q : Z) (db db' : DB) : Prop :=
  StockRecord.id r' = Some (stock_record_auto_increment db) /\
  StockRecord.warehouse_id r' = Some w /\ w <> 0 /\
  StockRecord.product_id r' = Some p /\ p <> 0 /\
  StockRecord.quantity r' = Some q /\ 0 < q /\
  StockRecord.record_type r' = Some (if is_in then 1 else 2) /\
  stock_record db' = stock_record db ++ [r'] /\
  stock_record_auto_increment db' = stock_record_auto_increment db + 1 /\
  inventory db' = inventory_after is_in w p q (StockRecord.record_date r') db /\
  warehouse db' = warehouse db /\ product db' = product db.

(** The invariant of the balance of a pair: every row of the pair holds
    the quantity [n], which is not negative, and [n] is zero when the
    pair has no row. *)
Definition balance (w p : Z) (rows : list Inventory.t) (n : Z) : Prop :=
  0 <= n /\
  (forall row, In row rows ->
     InventoryDAO.matches (Some w) (Some p) row = true ->
     Inventory.quantity row = n) /\
  (InventoryDAO.select (Some w) (Some p) rows = None -> n = 0).

(** ** A small store for the examples

    Warehouse 1 and product 1 are active, warehouse 2 and product 2 are
    disabled; nothing has been posted yet. *)
Module Example.

Definition db : DB :=
  mk_DB [] 1 [] 1
    {[ 1 := Warehouse.mk 1 1; 2 := Warehouse.mk 2 0 ]}
    {[ 1 := Product.mk 1 1; 2 := Product.mk 2 0 ]}.

Definition now : Py.datetime := Py.mk_datetime 2025 1 23 12 0 0 0.

Definition morning : Py.datetime := Py.mk_datetime 2025 1 23 9 30 0 0.

(** A request as the entry forms build it: no id, no total. *)
Definition entry (record_no : option string) (warehouse_id product_id quantity : Z)
    (unit_price : option Py.Decimal) : StockRecord.t :=
  StockRecord.mk None record_no None (Some warehouse_id) (Some product_id)
    (Some quantity) unit_price None None (Some "admin"%string)
    (Some morning) None.

(** 100 units in at 5.00, 30 out, then 71 out. *)
Definition postings : list request :=
  [InStock now (entry None 1 1 100 (Some (Py.Finite false 500 (-2))));
   OutStock now (entry None 1 1 30 None);
   OutStock now (entry None 1 1 71 None)].

End Example.

(** The four errors of the reference checks. *)
Definition reference_error (e : exn) : Prop :=
  e = WarehouseNotFound \/ e = WarehouseDisabled \/
  e = ProductNotFound \/ e = ProductDisabled.

(** The request passes the steps before the stock check: a document
    number is found for it, the validation accepts it, and both
    references are active. *)
Definition accepted (now : Py.datetime) (kind : Z) (r : StockRecord.t) (db : DB) : Prop :=
  exists r1, StockService.prepare now kind r db = (db, inr r1).

(** The store of the examples after [Example.postings]: 70 units of
    product 1 in warehouse 1. *)
Definition stocked : DB := fst (run Example.postings Example.db).

(** A document number is found for the request and the validation
    accepts it. *)
Definition validated (now : Py.datetime) (kind : Z) (r : StockRecord.t) (db : DB) : Prop :=
  exists r1, StockService.assign_record_no now kind r db = (db, inr r1)
             /\ StockService.validate_stock_record now r1 = inr (true, []).

(** What each message of the validation stands for, on the request as
    the caller built it.  The document number is at fault only when it is
    present, not empty, and blank; no message concerns the kind, which
    the operation sets itself; the unit price is at fault when its
    [float] is below zero. *)
Definition violation (now : Py.datetime) (r : StockRecord.t) (m : message) : Prop :=
  match m with
  | MsgRecordNoEmpty =>
      exists c s, StockRecord.record_no r = Some (String c s)
                  /\ Py.strip (String c s) = EmptyString
  | MsgRecordTypeInvalid => False
  | MsgWarehouseIdEmpty =>
      StockRecord.warehouse_id r = None \/ StockRecord.warehouse_id r = Some 0
  | MsgProductIdEmpty =>
      StockRecord.product_id r = None \/ StockRecord.product_id r = Some 0
  | MsgQuantityNotPositive =>
      forall q, StockRecord.quantity r = Some q -> q <= 0
  | MsgUnitPriceNegative =>
      exists u, StockRecord.unit_price r = Some u
                /\ Py.float_of_Decimal u = inr Py.Fneg
  | MsgRecordDateEmpty => StockRecord.record_date r = None
  | MsgRecordDateFuture =>
      exists d, StockRecord.record_date r = Some d /\ Py.compare d now = Gt
  end.

(** A text without [LIKE] wildcards and without the escape character. *)
Fixpoint plain (q : string) : bool :=
  match q with
  | EmptyString => true
  | String c q' =>
      negb (Ascii.eqb c "%"%char) && negb (Ascii.eqb c "_"%char)
      && negb (Ascii.eqb c "\"%char) && plain q'
  end.

(** [q] occurs in [s]. *)
Definition contains (q s : string) : Prop :=
  exists a b, s = (a +:+ q +:+ b)%string.

(** A comparison function that behaves as a total preorder: swapping the
    arguments flips the result, and [>=] is transitive, with equality of
    the ends forcing equality in the middle. *)
Definition ordering {A} (cmp : A -> A -> comparison) : Prop :=
  (forall a b, cmp b a = CompOpp (cmp a b)) /\
  (forall a b c, cmp a b <> Lt -> cmp b c <> Lt ->
     cmp a c <> Lt /\ (cmp a c = Eq -> cmp a b = Eq /\ cmp b c = Eq)).

(** The records a search selects, condition by condition: a key that is
    absent, zero or empty selects everything; the counterparty key is
    not among the conditions. *)
Definition selected (c : StockService.conditions) (r : StockRecord.t) : Prop :=
  (forall w, StockService.c_warehouse_id c = Some w -> w <> 0 ->
     StockRecord.warehouse_id r = Some w) /\
  (forall p, StockService.c_product_id c = Some p -> p <> 0 ->
     StockRecord.product_id r = Some p) /\
  (forall k, StockService.c_record_type c = Some k -> k <> 0 ->
     StockRecord.record_type r = Some k) /\
  (forall d, StockService.c_start_date c = Some d ->
     exists d', StockRecord.record_date r = Some d' /\ Py.compare d' d <> Lt) /\
  (forall d, StockService.c_end_date c = Some d ->
     exists d', StockRecord.record_date r = Some d' /\ Py.compare d' d <> Gt) /\
  (forall q, StockService.c_record_no c = Some q -> q <> EmptyString ->
     exists s, StockRecord.record_no r = Some s
               /\ Sql.like ("%" +:+ q +:+ "%") s = true) /\
  (forall q, StockService.c_operator c = Some q -> q <> EmptyString ->
     exists s, StockRecord.operator r = Some s
               /\ Sql.like ("%" +:+ q +:+ "%") s = true).

(** The conditions with another value under the counterparty key. *)
Definition with_supplier_client_id (x : option Z) (c : StockService.conditions)
  : StockService.conditions :=
  StockService.mk_conditions (StockService.c_warehouse_id c)
    (StockService.c_product_id c) x (StockService.c_record_type c)
    (StockService.c_start_date c) (StockService.c_end_date c)
    (StockService.c_record_no c) (StockService.c_operator c).

(** The document numbers of the ledger that start with [prefix]. *)
Definition numbers_with (prefix : string) (db : DB) : list string :=
  List.filter (String.prefix prefix) (omap StockRecord.record_no (stock_record db)).

(** The checks on the rendering of the sequence numbers below 10000 that
    are done by evaluation. *)
Definition suffix_checks (n : Z) : bool :=
  match Py.int (Py.format_0d 4 n) with
  | Some m => m =? n
  | None => false
  end
  && (String.length (Py.format_0d 4 n) =? 4)%nat
  && ((n =? 9999) || String.ltb (Py.format_0d 4 n) (Py.format_0d 4 (n + 1)))
  && (String.length (Py.format_0d 2 (n mod 100)) =? 2)%nat.

(** The checks on the slice [generate_record_no] takes of such a
    rendering, done by evaluation as well. *)
Definition slice_checks (n : Z) : bool :=
  (Py.len (Py.format_0d 4 n) =? 4)%nat
  && String.eqb (Py.last4 (Py.format_0d 4 n)) (Py.format_0d 4 n).

(** A date as [datetime] objects hold it. *)
Definition valid_date (d : Py.datetime) : Prop :=
  1 <= Py.year d <= 9999 /\ 1 <= Py.month d <= 12 /\ 1 <= Py.day d <= 31.

(** A request posted on the day [date] without a document number of its
    own. *)
Definition auto_numbered_on (date : string) (op : request) : Prop :=
  match op with
  | InStock now r | OutStock now r =>
      Py.strftime_Ymd now = date
      /\ StockService.not_str (StockRecord.record_no r) = true
  end.

(** The prefix of the numbers of a kind on a day: [RK] for inbound,
    [CK] for outbound. *)
Definition kind_prefix (kind : Z) (date : string) : string :=
  ((if (kind =? 1)%Z then "RK" else "CK") +:+ date)%string.

Definition of_kind (kind : Z) (r : StockRecord.t) : bool :=
  Sql.eq_Z (StockRecord.record_type r) (Some kind).

(** The state of the numbering of a prefix after [m] numbers. *)
Definition numbered_up_to (prefix : string) (db : DB) (m : nat) : Prop :=
  match m with
  | O => numbers_with prefix db = []
  | S _ =>
      Sql.greatest (numbers_with prefix db)
      = Some (prefix +:+ Py.format_0d 4 (Z.of_nat m))%string
  end.

(** The store of the examples on a day whose inbound numbers are used
    up: the ledger holds the number ending in 9999. *)
Definition full_day : DB :=
  mk_DB
    [StockRecord.mk (Some 1) (Some "RK202501239999"%string) (Some 1) (Some 1) (Some 1)
       (Some 10) None None None (Some "admin"%string) (Some Example.morning) None]
    2
    [Inventory.mk 1 1 1 10 (Some Example.morning) None]
    2
    (warehouse Example.db) (product Example.db).

(** ** model/stock_record.py, the remaining methods *)

Module StockRecordMethods.

(** [validate]: the checks of the model itself.  The messages are the
    texts the service uses for the same fields.  The unit price is
    compared as a [Decimal], which raises for a NaN. *)
Definition validate (self : StockRecord.t) : exn + (bool * list message) :=
  let? price_errors :=
    match StockRecord.unit_price self with
    | Some p =>
        let? negative := Py.Decimal_lt0 p in
        inr (if negative then [MsgUnitPriceNegative] else [])
    | None => inr []
    end in
  let errors :=
    (if StockService.not_str (StockRecord.record_no self)
     then [MsgRecordNoEmpty] else [])
    ++ (match StockRecord.record_type self with
        | Some 1 | Some 2 => []
        | _ => [MsgRecordTypeInvalid]
        end)
    ++ (if StockService.not_int (StockRecord.warehouse_id self)
        then [MsgWarehouseIdEmpty] else [])
    ++ (if StockService.not_int (StockRecord.product_id self)
        then [MsgProductIdEmpty] else [])
    ++ (match StockRecord.quantity self with
        | Some q => if (q =? 0) || (q <=? 0) then [MsgQuantityNotPositive] else []
        | None => [MsgQuantityNotPositive]
        end)
    ++ price_errors
    ++ (match StockRecord.record_date self with
        | None => [MsgRecordDateEmpty]
        | Some _ => []
        end)
  in
  inr (match errors with [] => true | _ :: _ => false end, errors).

Definition is_in_stock (self : StockRecord.t) : bool :=
  match StockRecord.record_type self with
  | Some k => k =? 1
  | None => false
  end.

Definition is_out_stock (self : StockRecord.t) : bool :=
  match StockRecord.record_type self with
  | Some k => k =? 2
  | None => false
  end.

End StockRecordMethods.

(** ** dao/stock_dao.py, the range queries *)

Module StockDAO.

(** A row is read back as the record it was written from: [from_dict]
    leaves the [Decimal] and [datetime] values of a row as they are. *)

(** The optional date range the three range queries share: a bound adds
    its condition when it is given. *)
Definition in_range (start_date end_date : option Py.datetime) (r : StockRecord.t)
  : bool :=
  (match start_date with
   | None => true
   | Some d => Sql.ge_datetime (StockRecord.record_date r) d
   end)
  && (match end_date with
      | None => true
      | Some d => Sql.le_datetime (StockRecord.record_date r) d
      end).

Definition get_by_warehouse (warehouse_id : option Z)
    (start_date end_date : option Py.datetime) : M (list StockRecord.t) :=
  let* db := get in
  ret (merge_sort StockService.newest_first
         (List.filter
            (fun r => Sql.eq_Z (StockRecord.warehouse_id r) warehouse_id
                      && in_range start_date end_date r)
            (stock_record db))).

Definition get_by_product (product_id : option Z)
    (start_date end_date : option Py.datetime) : M (list StockRecord.t) :=
  let* db := get in
  ret (merge_sort StockService.newest_first
         (List.filter
            (fun r => Sql.eq_Z (StockRecord.product_id r) product_id
                      && in_range start_date end_date r)
            (stock_record db))).

Definition get_by_type (record_type : option Z)
    (start_date end_date : option Py.datetime) : M (list StockRecord.t) :=
  let* db := get in
  ret (merge_sort StockService.newest_first
         (List.filter
            (fun r => Sql.eq_Z (StockRecord.record_type r) record_type
                      && in_range start_date end_date r)
            (stock_record db))).

Definition get_all : M (list StockRecord.t) :=
  let* db := get in
  ret (merge_sort StockService.newest_first (stock_record db)).

End StockDAO.

(** ** service/stock_service.py, the remaining methods *)

Module StockServiceRest.

(** [calculate_total_amount(quantity, unit_price)], the helper of the
    service. *)
Definition calculate_total_amount (quantity : option Z) (unit_price : option Py.Decimal)
  : exn + Py.Decimal :=
  match quantity, unit_price with
  | Some q, Some p =>
      if negb (q =? 0) && Py.Decimal_bool p
      then Py.Decimal_mul (Py.Decimal_of_int q) p
      else inr Py.Decimal_zero
  | _, _ => inr Py.Decimal_zero
  end.

End StockServiceRest.

(** ** dao/inventory_dao.py, the write path *)

Module InventoryDAOWrite.

(** [update_quantity]: the balance update in a transaction of its own.
    Its statements are those of the service; the stock check is on the
    sum whatever the direction, and the message carries
    [abs(quantity_change)]. *)
Definition update_quantity (warehouse_id product_id : option Z)
    (quantity_change : Z) (is_in : bool) (record_date : option Py.datetime)
  : M bool :=
  transaction
    (let* db := get in
     match InventoryDAO.select warehouse_id product_id (inventory db) with
     | Some existing =>
         let new_quantity := Inventory.quantity existing + quantity_change in
         if new_quantity <? 0
         then raise (StockInsufficient (Inventory.quantity existing)
                       (Some (Z.abs quantity_change)))
         else
           StockService.update_inventory is_in warehouse_id product_id
             new_quantity record_date;;
           ret true
     | None =>
         if negb is_in then raise InventoryNotFound
         else
           match warehouse_id, product_id with
           | Some w, Some p =>
               StockService.insert_inventory w p quantity_change record_date;;
               ret true
           | _, _ => raise IntegrityError
           end
     end).

End InventoryDAOWrite.

(** ** service/query_service.py, the ledger queries *)

Module QueryService.

(** The [WHERE] clause of [query_stock_records]: that of
    [search_stock_records] with the counterparty condition after the
    product. *)
Definition where_clause (c : StockService.conditions) (r : StockRecord.t) : bool :=
  (if StockService.not_int (StockService.c_warehouse_id c) then true
   else Sql.eq_Z (StockRecord.warehouse_id r) (StockService.c_warehouse_id c))
  && (if StockService.not_int (StockService.c_product_id c) then true
      else Sql.eq_Z (StockRecord.product_id r) (StockService.c_product_id c))
  && (if StockService.not_int (StockService.c_supplier_client_id c) then true
      else Sql.eq_Z (StockRecord.supplier_client_id r)
             (StockService.c_supplier_client_id c))
  && (if StockService.not_int (StockService.c_record_type c) then true
      else Sql.eq_Z (StockRecord.record_type r) (StockService.c_record_type c))
  && (match StockService.c_start_date c with
      | None => true
      | Some d => Sql.ge_datetime (StockRecord.record_date r) d
      end)
  && (match StockService.c_end_date c with
      | None => true
      | Some d => Sql.le_datetime (StockRecord.record_date r) d
      end)
  && (match StockService.c_record_no c with
      | Some (String a q) =>
          Sql.like_opt (StockRecord.record_no r) ("%" +:+ String a q +:+ "%")
      | _ => true
      end)
  && (match StockService.c_operator c with
      | Some (String a q) =>
          Sql.like_opt (StockRecord.operator r) ("%" +:+ String a q +:+ "%")
      | _ => true
      end).

Definition query_stock_records (c : StockService.conditions)
  : M (list StockRecord.t) :=
  let* db := get in
  ret (merge_sort StockService.newest_first
         (List.filter (where_clause c) (stock_record db))).

Definition query_stock_records_by_date (start_date end_date : option Py.datetime)
  : M (list StockRecord.t) :=
  query_stock_records
    (StockService.mk_conditions None None None None start_date end_date None None).

Definition query_stock_records_by_warehouse (warehouse_id : option Z)
    (start_date end_date : option Py.datetime) : M (list StockRecord.t) :=
  query_stock_records
    (StockService.mk_conditions warehouse_id None None None start_date end_date
       None None).

Definition query_stock_records_by_product (product_id : option Z)
    (start_date end_date : option Py.datetime) : M (list StockRecord.t) :=
  query_stock_records
    (StockService.mk_conditions None product_id None None start_date end_date
       None None).

Definition query_stock_records_by_supplier_client (supplier_client_id : option Z)
    (start_date end_date : option Py.datetime) : M (list StockRecord.t) :=
  query_stock_records
    (StockService.mk_conditions None None supplier_client_id None start_date
       end_date None None).

End QueryService.

(** The record and the clock reading of a request. *)
Definition record_of (op : request) : StockRecord.t :=
  match op with
  | InStock _ r | OutStock _ r => r
  end.

Definition time_of (op : request) : Py.datetime :=
  match op with
  | InStock now _ | OutStock now _ => now
  end.

Definition kind_of (op : request) : Z :=
  match op with
  | InStock _ _ => 1
  | OutStock _ _ => 2
  end.

(** A store as the operations build it: every ledger row has an id below
    the counter of the table, no two ledger rows share an id, and no two
    inventory rows share a (warehouse, product) pair. *)
Definition store_ok (db : DB) : Prop :=
  (forall r, In r (stock_record db) ->
     exists i, StockRecord.id r = Some i /\ i < stock_record_auto_increment db) /\
  NoDup (map StockRecord.id (stock_record db)) /\
  NoDup (map (fun row => (Inventory.warehouse_id row, Inventory.product_id row))
           (inventory db)).

(** The counterparty condition of [query_stock_records]. *)
Definition counterparty_selected (c : StockService.conditions) (r : StockRecord.t)
  : Prop :=
  forall s, StockService.c_supplier_client_id c = Some s -> s <> 0 ->
            StockRecord.supplier_client_id r = Some s.

(** Quantity and unit price are both truthy: the condition under which
    [calculate_total_amount] computes a product. *)
Definition priced (r : StockRecord.t) : bool :=
  match StockRecord.quantity r, StockRecord.unit_price r with
  | Some q, Some u => negb (q =? 0) && Py.Decimal_bool u
  | _, _ => false
  end.

(** A unit price that is absent or a finite number. *)
Definition finite_price (unit_price : option Py.Decimal) : Prop :=
  match unit_price with
  | Some u => exists s c e, u = Py.Finite s c e
  | None => True
  end.

(** * Properties *)

Import StockService.

Ltac run_monad :=
  cbv [bind ret raise lift get put transaction
       WarehouseDAO.get_by_id ProductDAO.get_by_id
       InventoryDAO.get_by_warehouse_product InventoryDAO.check_stock
       insert_stock_record update_inventory insert_inventory].

Lemma generate_record_no_db now kind db :
  fst (generate_record_no now kind db) = db.
Proof.
  unfold generate_record_no; run_monad.
  repeat case_match; reflexivity.
Qed.

Lemma validate_stock_record_inr now r ok errors :
  validate_stock_record now r = inr (ok, errors) ->
  ok = match errors with [] => true | _ :: _ => false end.
Proof.
  unfold validate_stock_record.
  destruct (unit_price_errors _); [discriminate|]. intros [= <- <-]. reflexivity.
Qed.

Lemma validate_stock_record_true now r errors :
  validate_stock_record now r = inr (true, errors) ->
  exists w p q d,
    StockRecord.warehouse_id r = Some w /\ w <> 0 /\
    StockRecord.product_id r = Some p /\ p <> 0 /\
    StockRecord.quantity r = Some q /\ 0 < q /\
    StockRecord.record_date r = Some d /\ Py.gtb d now = false /\
    Validator.validate_not_empty (StockRecord.record_no r) = true /\
    unit_price_errors (StockRecord.unit_price r) = inr [] /\
    errors = [].
Proof.
  intros H. pose proof (validate_stock_record_inr _ _ _ _ H) as Hok.
  destruct errors as [|m errors]; [clear Hok|discriminate Hok].
  revert H. unfold validate_stock_record, not_int.
  destruct (unit_price_errors _) as [e|price_errors]; [discriminate|].
  destruct (Validator.validate_not_empty _); [|discriminate].
  destruct (StockRecord.record_type r) as [[|[|[]|]|]|]; try discriminate;
  (destruct (StockRecord.warehouse_id r) as [w|]; [|discriminate];
  destruct (Z.eqb_spec w 0); [discriminate|];
  destruct (StockRecord.product_id r) as [p|]; [|discriminate];
  destruct (Z.eqb_spec p 0); [discriminate|];
  destruct (StockRecord.quantity r) as [q|]; [|discriminate];
  destruct (Z.eqb_spec q 0); [discriminate|];
  destruct (Z.leb_spec q 0); [discriminate|];
  destruct price_errors; [|discriminate];
  (destruct (StockRecord.record_date r) as [d|]; [|discriminate];
  destruct (Py.gtb d now) eqn:?; [discriminate|];
  intros _; exists w, p, q, d; repeat split; auto)).
Qed.


Lemma assign_record_no_db now kind r db :
  fst (assign_record_no now kind r db) = db.
Proof.
  unfold assign_record_no. destruct (not_str _); [|reflexivity].
  unfold bind. pose proof (generate_record_no_db now kind db) as Hg.
  destruct (generate_record_no now kind db) as [db1 [e|no]]; exact Hg.
Qed.

Lemma check_references_db r db : fst (check_references r db) = db.
Proof. unfold check_references; run_monad. repeat case_match; reflexivity. Qed.

Lemma check_references_inr r db :
  snd (check_references r db) = inr tt <-> references_active db r.
Proof.
  unfold check_references, references_active; run_monad. split.
  - destruct (StockRecord.warehouse_id r) as [w|]; [|discriminate].
    destruct (warehouse db !! w) as [wh|] eqn:Hwh; [|discriminate].
    destruct (Z.eqb_spec (Warehouse.status wh) 1); cbn [negb]; [|discriminate].
    destruct (StockRecord.product_id r) as [p|]; [|discriminate].
    destruct (product db !! p) as [pr|] eqn:Hpr; [|discriminate].
    destruct (Z.eqb_spec (Product.status pr) 1); cbn [negb]; [|discriminate].
    intros _. eauto 12.
  - intros (w & p & wh & pr & Hw & Hwh & Hs & Hp & Hpr & Hs').
    rewrite Hw, Hwh, Hs. cbn. rewrite Hp, Hpr, Hs'. reflexivity.
Qed.

Lemma prepare_eq now kind r db :
  prepare now kind r db =
  match assign_record_no now kind r db with
  | (db1, inr r1) =>
      match validate_stock_record now r1 with
      | inr (true, _) =>
          match check_references r1 db1 with
          | (db2, inr _) => (db2, inr r1)
          | (db2, inl e) => (db2, inl e)
          end
      | inr (false, errors) => (db1, inl (ValueError errors))
      | inl e => (db1, inl e)
      end
  | (db1, inl e) => (db1, inl e)
  end.
Proof.
  unfold prepare. unfold bind at 1.
  destruct (assign_record_no now kind r db) as [db1 [e|r1]]; [reflexivity|].
  unfold bind at 1, lift.
  destruct (validate_stock_record now r1) as [e|[[] errs]]; reflexivity.
Qed.

Lemma prepare_db now kind r db : fst (prepare now kind r db) = db.
Proof.
  rewrite prepare_eq.
  pose proof (assign_record_no_db now kind r db) as Ha.
  destruct (assign_record_no now kind r db) as [db1 [e|r1]]; cbn in Ha; subst db1;
    [reflexivity|].
  destruct (validate_stock_record now r1) as [e|[[] errs]]; try reflexivity.
  pose proof (check_references_db r1 db) as Hc.
  destruct (check_references r1 db) as [db1 [e|[]]]; exact Hc.
Qed.

Lemma prepare_inr now kind r db db' r' :
  prepare now kind r db = (db', inr r') ->
  db' = db /\
  assign_record_no now kind r db = (db, inr r') /\
  validate_stock_record now r' = inr (true, []) /\
  references_active db r'.
Proof.
  intros H. pose proof (prepare_db now kind r db) as Hdb.
  rewrite H in Hdb; cbn in Hdb; subst db'. split; [reflexivity|].
  revert H. rewrite prepare_eq.
  pose proof (assign_record_no_db now kind r db) as Ha.
  destruct (assign_record_no now kind r db) as [db1 [e|r1]]; cbn in Ha; subst db1;
    [discriminate|].
  destruct (validate_stock_record now r1) as [e|[[] errs]] eqn:Hv; try discriminate.
  pose proof (check_references_db r1 db) as Hc.
  pose proof (check_references_inr r1 db) as Hi.
  destruct (check_references r1 db) as [db1 [e|[]]]; cbn in Hc, Hi; subst db1;
    [discriminate|].
  intros [= <-]. split; [reflexivity|]. split.
  - apply validate_stock_record_true in Hv as Hv'.
    destruct Hv' as (? & ? & ? & ? & ? & ? & ? & ? & ? & ? & ? & ? & ? & ? & ->).
    exact Hv.
  - apply Hi; reflexivity.
Qed.

Lemma assign_record_no_inr now kind r db db' r' :
  assign_record_no now kind r db = (db', inr r') ->
  StockRecord.record_type r' = Some kind /\
  StockRecord.id r' = StockRecord.id r /\
  StockRecord.warehouse_id r' = StockRecord.warehouse_id r /\
  StockRecord.product_id r' = StockRecord.product_id r /\
  StockRecord.quantity r' = StockRecord.quantity r /\
  StockRecord.unit_price r' = StockRecord.unit_price r /\
  StockRecord.total_amount r' = StockRecord.total_amount r /\
  StockRecord.record_date r' = StockRecord.record_date r /\
  (if not_str (StockRecord.record_no r)
   then exists no, generate_record_no now kind db = (db, inr no)
                   /\ StockRecord.record_no r' = Some no
   else StockRecord.record_no r' = StockRecord.record_no r).
Proof.
  unfold assign_record_no. cbn [StockRecord.record_no StockRecord.set_record_type].
  destruct (not_str (StockRecord.record_no r)).
  - unfold bind, ret. pose proof (generate_record_no_db now kind db) as Hg.
    destruct (generate_record_no now kind db) as [db1 [e|no]]; cbn in Hg; subst db1;
      [discriminate|].
    intros [= <- <-]. cbn. eauto 12.
  - intros [= <- <-]. cbn. auto 12.
Qed.

Lemma calculate_total_amount_fields r r' t :
  StockRecord.calculate_total_amount r = inr (r', t) ->
  StockRecord.id r' = StockRecord.id r /\
  StockRecord.record_no r' = StockRecord.record_no r /\
  StockRecord.record_type r' = StockRecord.record_type r /\
  StockRecord.warehouse_id r' = StockRecord.warehouse_id r /\
  StockRecord.product_id r' = StockRecord.product_id r /\
  StockRecord.quantity r' = StockRecord.quantity r /\
  StockRecord.unit_price r' = StockRecord.unit_price r /\
  StockRecord.record_date r' = StockRecord.record_date r.
Proof.
  unfold StockRecord.calculate_total_amount.
  destruct (StockRecord.quantity r) as [q|] eqn:Hq;
    [destruct (StockRecord.unit_price r) as [u|] eqn:Hu;
       [destruct (negb (q =? 0) && Py.Decimal_bool u);
          [destruct (Py.Decimal_mul _ u); [discriminate|]|]|]|];
    intros [= <- <-]; cbn; rewrite ?Hq, ?Hu; auto 10.
Qed.

Lemma commit_movement_in r w p q db :
  StockRecord.warehouse_id r = Some w ->
  StockRecord.product_id r = Some p ->
  StockRecord.quantity r = Some q ->
  exists db',
    commit_movement r true db
      = (db', inr (StockRecord.set_id (Some (stock_record_auto_increment db)) r)) /\
    stock_record db'
      = stock_record db ++ [StockRecord.set_id (Some (stock_record_auto_increment db)) r] /\
    stock_record_auto_increment db' = stock_record_auto_increment db + 1 /\
    inventory db' = inventory_after true w p q (StockRecord.record_date r) db /\
    warehouse db' = warehouse db /\ product db' = product db.
Proof.
  intros Hw Hp Hq.
  unfold commit_movement, _update_inventory_in_transaction, inventory_after.
  run_monad. cbn. rewrite Hw, Hp, Hq. unfold InventoryDAO.select.
  destruct (find _ (inventory db)) as [e|];
    cbn; (eexists; split; [reflexivity|]); cbn; repeat split.
Qed.

Lemma commit_movement_out r w p q e db :
  StockRecord.warehouse_id r = Some w ->
  StockRecord.product_id r = Some p ->
  StockRecord.quantity r = Some q ->
  InventoryDAO.select (Some w) (Some p) (inventory db) = Some e ->
  q <= Inventory.quantity e ->
  exists db',
    commit_movement r false db
      = (db', inr (StockRecord.set_id (Some (stock_record_auto_increment db)) r)) /\
    stock_record db'
      = stock_record db ++ [StockRecord.set_id (Some (stock_record_auto_increment db)) r] /\
    stock_record_auto_increment db' = stock_record_auto_increment db + 1 /\
    inventory db' = inventory_after false w p q (StockRecord.record_date r) db /\
    warehouse db' = warehouse db /\ product db' = product db.
Proof.
  intros Hw Hp Hq He Hle.
  unfold commit_movement, _update_inventory_in_transaction, inventory_after.
  run_monad. cbn. rewrite Hw, Hp, Hq. unfold InventoryDAO.select in *.
  rewrite He.
  destruct (Z.ltb_spec (Inventory.quantity e - q) 0); [lia|].
  cbn; (eexists; split; [reflexivity|]); cbn; repeat split.
Qed.

Lemma add_in_stock_cases now r db :
  (exists e, prepare now 1 r db = (db, inl e) /\
             add_in_stock now r db = (db, inl e))
  \/ (exists r1 e,
        prepare now 1 r db = (db, inr r1) /\
        StockRecord.calculate_total_amount r1 = inl e /\
        add_in_stock now r db = (db, inl e))
  \/ (exists r1 r2 t w p q db',
        prepare now 1 r db = (db, inr r1) /\
        StockRecord.calculate_total_amount r1 = inr (r2, t) /\
        add_in_stock now r db
          = (db', inr (StockRecord.set_id (Some (stock_record_auto_increment db)) r2)) /\
        committed true
          (StockRecord.set_id (Some (stock_record_auto_increment db)) r2) w p q db db').
Proof.
  assert (Heq : add_in_stock now r db =
    match prepare now 1 r db with
    | (db1, inr r1) =>
        match StockRecord.calculate_total_amount r1 with
        | inr total => commit_movement (fst total) true db1
        | inl e => (db1, inl e)
        end
    | (db1, inl e) => (db1, inl e)
    end).
  { unfold add_in_stock. unfold bind at 1.
    destruct (prepare now 1 r db) as [db1 [e|r1]]; [reflexivity|].
    unfold bind at 1, lift.
    destruct (StockRecord.calculate_total_amount r1); reflexivity. }
  pose proof (prepare_db now 1 r db) as Hdb.
  destruct (prepare now 1 r db) as [db1 [e|r1]] eqn:Hprep; cbn in Hdb; subst db1.
  { left; eauto. }
  right. rewrite Heq. clear Heq.
  destruct (StockRecord.calculate_total_amount r1) as [e|[r2 t]] eqn:Htotal.
  { left; eauto. }
  right. apply prepare_inr in Hprep as (_ & Ha & Hv & _).
  apply validate_stock_record_true in Hv
    as (w & p & q & d & Hw & Hw0 & Hp & Hp0 & Hq & Hq0 & Hd & _).
  apply assign_record_no_inr in Ha as (Ht & _).
  pose proof (calculate_total_amount_fields _ _ _ Htotal)
    as (Hi' & Hn' & Ht' & Hw' & Hp' & Hq' & Hu' & Hd').
  cbn [fst].
  destruct (commit_movement_in r2 w p q db) as (db' & Hc & Hs & Hai & Hinv & Hwh & Hpr);
    [congruence..|].
  exists r1, r2, t, w, p, q, db'. split; [reflexivity|]. split; [exact Htotal|].
  split; [exact Hc|].
  unfold committed. cbn. rewrite Hw', Hp', Hq', Ht', Ht.
  repeat split; try assumption.
Qed.

Lemma add_out_stock_cases now r db :
  (exists e, prepare now 2 r db = (db, inl e) /\
             add_out_stock now r db = (db, inl e))
  \/ (exists r1 w p q,
        prepare now 2 r db = (db, inr r1) /\
        StockRecord.warehouse_id r1 = Some w /\
        StockRecord.product_id r1 = Some p /\
        StockRecord.quantity r1 = Some q /\
        match InventoryDAO.select (Some w) (Some p) (inventory db) with
        | Some e => Inventory.quantity e < q
        | None => True
        end /\
        add_out_stock now r db
          = (db, inl (StockInsufficient (current_stock (Some w) (Some p) db) (Some q))))
  \/ (exists r1 w p q e err,
        prepare now 2 r db = (db, inr r1) /\
        StockRecord.warehouse_id r1 = Some w /\
        StockRecord.product_id r1 = Some p /\
        StockRecord.quantity r1 = Some q /\
        InventoryDAO.select (Some w) (Some p) (inventory db) = Some e /\
        q <= Inventory.quantity e /\
        StockRecord.calculate_total_amount r1 = inl err /\
        add_out_stock now r db = (db, inl err))
  \/ (exists r1 r2 t w p q e db',
        prepare now 2 r db = (db, inr r1) /\
        StockRecord.calculate_total_amount r1 = inr (r2, t) /\
        InventoryDAO.select (Some w) (Some p) (inventory db) = Some e /\
        q <= Inventory.quantity e /\
        add_out_stock now r db
          = (db', inr (StockRecord.set_id (Some (stock_record_auto_increment db)) r2)) /\
        committed false
          (StockRecord.set_id (Some (stock_record_auto_increment db)) r2) w p q db db').
Proof.
  assert (Heq : add_out_stock now r db =
    match prepare now 2 r db with
    | (db1, inr r1) =>
        match InventoryDAO.select (StockRecord.warehouse_id r1)
                (StockRecord.product_id r1) (inventory db1) with
        | Some inv =>
            match StockRecord.quantity r1 with
            | Some q =>
                if Inventory.quantity inv >=? q
                then match StockRecord.calculate_total_amount r1 with
                     | inr total => commit_movement (fst total) false db1
                     | inl e => (db1, inl e)
                     end
                else (db1, inl (StockInsufficient
                                  (current_stock (StockRecord.warehouse_id r1)
                                     (StockRecord.product_id r1) db1)
                                  (StockRecord.quantity r1)))
            | None => (db1, inl TypeError)
            end
        | None =>
            (db1, inl (StockInsufficient
                         (current_stock (StockRecord.warehouse_id r1)
                            (StockRecord.product_id r1) db1)
                         (StockRecord.quantity r1)))
        end
    | (db1, inl e) => (db1, inl e)
    end).
  { unfold add_out_stock, current_stock. unfold bind at 1.
    destruct (prepare now 2 r db) as [db1 [e|r1]]; [reflexivity|].
    unfold InventoryDAO.check_stock, InventoryDAO.get_by_warehouse_product.
    run_monad.
    destruct (InventoryDAO.select _ _ (inventory db1)) eqn:He;
      cbn; rewrite ?He; [|reflexivity].
    destruct (StockRecord.quantity r1); [|reflexivity].
    destruct (_ >=? _); cbn; rewrite ?He; [|reflexivity].
    destruct (StockRecord.calculate_total_amount r1); reflexivity. }
  pose proof (prepare_db now 2 r db) as Hdb.
  destruct (prepare now 2 r db) as [db1 [e|r1]] eqn:Hprep; cbn in Hdb; subst db1.
  { left; eauto. }
  right. rewrite Heq. clear Heq. apply prepare_inr in Hprep as (_ & Ha & Hv & _).
  apply validate_stock_record_true in Hv
    as (w & p & q & d & Hw & Hw0 & Hp & Hp0 & Hq & Hq0 & Hd & _).
  apply assign_record_no_inr in Ha as (Ht & _).
  rewrite Hw, Hp, Hq. unfold current_stock.
  destruct (InventoryDAO.select (Some w) (Some p) (inventory db)) as [e|] eqn:He.
  2:{ left. exists r1, w, p, q. rewrite He. cbn. auto 10. }
  destruct (Z.geb_spec (Inventory.quantity e) q) as [Hge|Hlt]; cbn [negb].
  2:{ left. exists r1, w, p, q. rewrite He. cbn. auto 10. }
  right.
  destruct (StockRecord.calculate_total_amount r1) as [err|[r2 t]] eqn:Htotal.
  { left. exists r1, w, p, q, e, err. repeat split; auto; lia. }
  right.
  pose proof (calculate_total_amount_fields _ _ _ Htotal)
    as (Hi' & Hn' & Ht' & Hw' & Hp' & Hq' & Hu' & Hd').
  cbn [fst].
  destruct (commit_movement_out r2 w p q e db) as (db' & Hc & Hs & Hai & Hinv & Hwh & Hpr);
    [congruence..|lia|].
  exists r1, r2, t, w, p, q, e, db'.
  split; [reflexivity|]. split; [exact Htotal|]. split; [exact He|].
  split; [lia|]. split; [exact Hc|].
  unfold committed. cbn. rewrite Hw', Hp', Hq', Ht', Ht.
  repeat split; try assumption.
Qed.

Lemma matches_spec w p w' p' row :
  InventoryDAO.matches (Some w) (Some p) row = true ->
  InventoryDAO.matches (Some w') (Some p') row = true ->
  w = w' /\ p = p'.
Proof.
  unfold InventoryDAO.matches, Sql.eq_Z.
  intros [H1 H2]%andb_prop [H3 H4]%andb_prop. lia.
Qed.

Lemma matches_update_row w p is_in w' p' n d row :
  InventoryDAO.matches w p (update_row is_in w' p' n d row)
  = InventoryDAO.matches w p row.
Proof.
  unfold update_row. destruct (InventoryDAO.matches w' p' row); [|reflexivity].
  destruct is_in; reflexivity.
Qed.

Lemma select_map_update_row w p is_in w' p' n d rows :
  InventoryDAO.select w p (map (update_row is_in w' p' n d) rows)
  = update_row is_in w' p' n d <$> InventoryDAO.select w p rows.
Proof.
  unfold InventoryDAO.select. induction rows as [|row rows IH]; [reflexivity|].
  cbn. rewrite matches_update_row.
  destruct (InventoryDAO.matches w p row); [reflexivity|exact IH].
Qed.

Lemma select_Some w p rows row :
  InventoryDAO.select w p rows = Some row ->
  In row rows /\ InventoryDAO.matches w p row = true.
Proof. apply find_some. Qed.

Lemma select_None w p rows row :
  InventoryDAO.select w p rows = None -> In row rows ->
  InventoryDAO.matches w p row = false.
Proof. intros H. exact (find_none _ _ H row). Qed.

Lemma select_app_None w p rows row :
  InventoryDAO.select w p rows = None ->
  InventoryDAO.select w p (rows ++ [row])
  = if InventoryDAO.matches w p row then Some row else None.
Proof.
  unfold InventoryDAO.select. induction rows as [|r0 rows IH]; [reflexivity|].
  cbn. destruct (InventoryDAO.matches w p r0); [discriminate|exact IH].
Qed.

Lemma select_app_Some w p rows row e :
  InventoryDAO.select w p rows = Some e ->
  InventoryDAO.select w p (rows ++ [row]) = Some e.
Proof.
  unfold InventoryDAO.select. induction rows as [|r0 rows IH]; [discriminate|].
  cbn. destruct (InventoryDAO.matches w p r0); [auto|exact IH].
Qed.

Lemma net_quantity_cons w p r rs :
  net_quantity w p (r :: rs) = net_quantity w p [r] + net_quantity w p rs.
Proof.
  unfold net_quantity, sum_quantity. cbn.
  destruct (of_pair_and_kind w p 1 r), (of_pair_and_kind w p 2 r); cbn; lia.
Qed.

Lemma net_quantity_single (is_in : bool) r w p q w' p' :
  StockRecord.warehouse_id r = Some w' ->
  StockRecord.product_id r = Some p' ->
  StockRecord.quantity r = Some q ->
  StockRecord.record_type r = Some (if is_in then 1 else 2) ->
  net_quantity w p [r]
  = if (w' =? w) && (p' =? p) then (if is_in then q else - q) else 0.
Proof.
  intros Hw Hp Hq Ht. unfold net_quantity, sum_quantity, of_pair_and_kind.
  cbn. rewrite Hw, Hp, Ht. cbn.
  destruct ((w' =? w) && (p' =? p)), is_in; cbn; rewrite ?Hq; cbn; lia.
Qed.

Lemma balance_step is_in r' w' p' q db db' w p n :
  committed is_in r' w' p' q db db' ->
  (is_in = false ->
   exists e, InventoryDAO.select (Some w') (Some p') (inventory db) = Some e
             /\ q <= Inventory.quantity e) ->
  balance w p (inventory db) n ->
  balance w p (inventory db') (n + net_quantity w p [r']).
Proof.
  intros (Hid & Hw & Hw0 & Hp & Hp0 & Hq & Hq0 & Ht & Hs & Hai & Hinv & _) Hout
         (Hn & Hall & Hnone).
  rewrite (net_quantity_single is_in r' w p q w' p' Hw Hp Hq Ht).
  rewrite Hinv. unfold inventory_after.
  destruct (InventoryDAO.select (Some w') (Some p') (inventory db)) as [e|] eqn:He.
  - (* the pair of the movement has a row *)
    pose proof (select_Some _ _ _ _ He) as [Hin Hm].
    destruct ((w' =? w) && (p' =? p)) eqn:Hsame.
    + apply andb_prop in Hsame as [->%Z.eqb_eq ->%Z.eqb_eq].
      pose proof (Hall e Hin Hm) as Hqe.
      assert (Hn' : 0 <= (if is_in then n + q else n - q)).
      { destruct is_in; [lia|]. destruct (Hout eq_refl) as (e' & He' & Hle).
        injection He' as <-. lia. }
      split; [destruct is_in; lia|]. split.
      * intros row [row0 [<- Hin0]]%in_map_iff. rewrite matches_update_row.
        intros Hm0. unfold update_row. rewrite Hm0, Hqe.
        destruct is_in; cbn; lia.
      * rewrite select_map_update_row, He. discriminate.
    + assert (Hne : forall row, InventoryDAO.matches (Some w) (Some p) row = true ->
                      InventoryDAO.matches (Some w') (Some p') row = false).
      { intros row H1. destruct (InventoryDAO.matches (Some w') (Some p') row) eqn:H2;
          [|reflexivity].
        destruct (matches_spec _ _ _ _ _ H1 H2) as [-> ->].
        rewrite !Z.eqb_refl in Hsame. discriminate. }
      rewrite Z.add_0_r. split; [exact Hn|]. split.
      * intros row [row0 [<- Hin0]]%in_map_iff. rewrite matches_update_row.
        intros Hm0. unfold update_row. rewrite (Hne _ Hm0). auto.
      * rewrite select_map_update_row. intros H. apply Hnone.
        destruct (InventoryDAO.select (Some w) (Some p) (inventory db));
          [discriminate|reflexivity].
  - (* first movement of its pair *)
    destruct is_in; [|destruct (Hout eq_refl) as (e & ? & _); discriminate].
    set (new := Inventory.mk _ _ _ _ _ _).
    destruct ((w' =? w) && (p' =? p)) eqn:Hsame.
    + apply andb_prop in Hsame as [->%Z.eqb_eq ->%Z.eqb_eq].
      rewrite (Hnone He). split; [lia|]. split.
      * intros row [Hin|[<-|[]]]%in_app_or; [|reflexivity].
        intros Hm. rewrite (select_None _ _ _ _ He Hin) in Hm. discriminate.
      * rewrite (select_app_None _ _ _ _ He).
        unfold new, InventoryDAO.matches, Sql.eq_Z; cbn.
        rewrite !Z.eqb_refl. discriminate.
    + rewrite Z.add_0_r. split; [exact Hn|].
      assert (Hnew : InventoryDAO.matches (Some w) (Some p) new = false).
      { unfold new, InventoryDAO.matches, Sql.eq_Z; cbn. exact Hsame. }
      split.
      * intros row [Hin|[<-|[]]]%in_app_or; [auto|]. rewrite Hnew. discriminate.
      * destruct (InventoryDAO.select (Some w) (Some p) (inventory db)) as [e|] eqn:He2.
        -- rewrite (select_app_Some _ _ _ _ _ He2). discriminate.
        -- rewrite (select_app_None _ _ _ _ He2), Hnew. auto.
Qed.

Lemma post_cases op db :
  (exists e, post op db = (db, inl e))
  \/ (exists (is_in : bool) r' w p q db',
        post op db = (db', inr r') /\
        committed is_in r' w p q db db' /\
        (is_in = false ->
         exists e, InventoryDAO.select (Some w) (Some p) (inventory db) = Some e
                   /\ q <= Inventory.quantity e)).
Proof.
  destruct op as [now r|now r]; cbn [post].
  - destruct (add_in_stock_cases now r db)
      as [(e & _ & H)|[(r1 & e & _ & _ & H)
                      |(r1 & r2 & t & w & p & q & db' & _ & _ & H & Hc)]].
    + left; eauto.
    + left; eauto.
    + right. exists true. eexists _, w, p, q, db'.
      split; [exact H|]. split; [exact Hc|discriminate].
  - destruct (add_out_stock_cases now r db)
      as [(e & _ & H)|[(r1 & w & p & q & _ & _ & _ & _ & _ & H)
                      |[(r1 & w & p & q & e & err & _ & _ & _ & _ & _ & _ & _ & H)
                       |(r1 & r2 & t & w & p & q & e & db' & _ & _ & He & Hle & H & Hc)]]].
    + left; eauto.
    + left; eauto.
    + left; eauto.
    + right. exists false. eexists _, w, p, q, db'.
      split; [exact H|]. split; [exact Hc|eauto].
Qed.

Lemma run_balance w p ops : forall db n,
  balance w p (inventory db) n ->
  stock_record (fst (run ops db)) = stock_record db ++ snd (run ops db) /\
  balance w p (inventory (fst (run ops db))) (n + net_quantity w p (snd (run ops db))).
Proof.
  induction ops as [|op ops IH]; intros db n Hb; cbn [run].
  - cbn. rewrite app_nil_r. unfold net_quantity, sum_quantity. cbn.
    rewrite Z.add_0_r. auto.
  - destruct (post_cases op db)
      as [(e & ->)|(is_in & r' & w' & p' & q & db' & -> & Hc & Hout)].
    + apply IH, Hb.
    + pose proof (balance_step _ _ _ _ _ _ _ w p n Hc Hout Hb) as Hb'.
      destruct (IH db' _ Hb') as [Hs Hbal].
      destruct (run ops db') as [db'' rs]. cbn [fst snd] in *.
      destruct Hc as (_ & _ & _ & _ & _ & _ & _ & _ & Hs' & _).
      rewrite Hs, Hs', <- app_assoc. split; [reflexivity|].
      rewrite net_quantity_cons, Z.add_assoc. exact Hbal.
Qed.

(** C1.  Starting from a store with no inventory row for the pair
    [(w, p)], after any sequence of [add_in_stock] and [add_out_stock]
    calls the ledger has grown by exactly the records of the calls that
    succeeded, and the quantity of the inventory row of the pair is the
    sum of the inbound quantities minus the sum of the outbound ones over
    those records; it is never negative, and there is no row only while
    that difference is zero.  Every prefix of a sequence is a sequence,
    so this holds in each state in between. *)
Theorem inventory_equals_ledger_net (w p : Z) (ops : list request) (db0 : DB) :
  InventoryDAO.select (Some w) (Some p) (inventory db0) = None ->
  let '(db, posted) := run ops db0 in
  stock_record db = stock_record db0 ++ posted /\
  0 <= sum_quantity w p 1 posted - sum_quantity w p 2 posted /\
  match InventoryDAO.select (Some w) (Some p) (inventory db) with
  | Some row =>
      Inventory.quantity row
      = sum_quantity w p 1 posted - sum_quantity w p 2 posted
  | None => sum_quantity w p 1 posted - sum_quantity w p 2 posted = 0
  end.
Proof.
  intros Hnone.
  assert (Hb : balance w p (inventory db0) 0).
  { split; [lia|]. split; [|auto].
    intros row Hin Hm. rewrite (select_None _ _ _ _ Hnone Hin) in Hm. discriminate. }
  destruct (run_balance w p ops db0 0 Hb) as [Hs (Hn & Hall & Hzero)].
  destruct (run ops db0) as [db posted]. cbn [fst snd] in *.
  fold (net_quantity w p posted). rewrite Z.add_0_l in *.
  split; [exact Hs|]. split; [exact Hn|].
  destruct (InventoryDAO.select (Some w) (Some p) (inventory db)) as [row|] eqn:Hsel.
  - apply select_Some in Hsel as [Hin Hm]. auto.
  - auto.
Qed.

Lemma inventory_equals_ledger_net_witness :
  InventoryDAO.select (Some 1) (Some 1) (inventory Example.db) = None /\
  let '(db, posted) := run Example.postings Example.db in
  stock_record db = stock_record Example.db ++ posted /\
  0 <= sum_quantity 1 1 1 posted - sum_quantity 1 1 2 posted /\
  match InventoryDAO.select (Some 1) (Some 1) (inventory db) with
  | Some row =>
      Inventory.quantity row
      = sum_quantity 1 1 1 posted - sum_quantity 1 1 2 posted
  | None => sum_quantity 1 1 1 posted - sum_quantity 1 1 2 posted = 0
  end.
Proof.
  split; [reflexivity|].
  apply (inventory_equals_ledger_net 1 1 Example.postings Example.db).
  reflexivity.
Defined.

Example postings_balance :
  InventoryDAO.select (Some 1) (Some 1)
    (inventory (fst (run Example.postings Example.db)))
  = Some (Inventory.mk 1 1 1 70 (Some Example.morning) (Some Example.morning)).
Proof. vm_compute. reflexivity. Qed.

Lemma check_references_inl r db e :
  snd (check_references r db) = inl e -> reference_error e.
Proof.
  unfold check_references, reference_error; run_monad.
  repeat case_match; intros [= <-]; auto.
Qed.

Lemma references_active_ids db r r' :
  StockRecord.warehouse_id r' = StockRecord.warehouse_id r ->
  StockRecord.product_id r' = StockRecord.product_id r ->
  references_active db r' <-> references_active db r.
Proof. unfold references_active. intros -> ->. reflexivity. Qed.

Lemma generate_record_no_inl now kind db db' e :
  generate_record_no now kind db = (db', inl e) -> e = IntValueError.
Proof.
  unfold generate_record_no; run_monad.
  destruct (select_last_record_no _ _); [|discriminate].
  destruct (Py.int _); [discriminate|]. intros [= _ <-]. reflexivity.
Qed.

Lemma unit_price_errors_inl x e :
  unit_price_errors x = inl e <->
  e = FloatValueError /\ exists s p, x = Some (Py.sNaN s p).
Proof.
  unfold unit_price_errors. destruct x as [[s c ex|s|s p|s p]|]; cbn.
  - destruct (if 0 <=? ex then _ else _); split;
      try discriminate; intros [_ (? & ? & [=])].
  - split; [discriminate|intros [_ (? & ? & [=])]].
  - split; [discriminate|intros [_ (? & ? & [=])]].
  - split; [intros [= <-]; eauto|intros [-> _]; reflexivity].
  - split; [discriminate|intros [_ (? & ? & [=])]].
Qed.

Lemma validate_stock_record_inl now r e :
  validate_stock_record now r = inl e <->
  e = FloatValueError /\ exists s p, StockRecord.unit_price r = Some (Py.sNaN s p).
Proof.
  rewrite <- unit_price_errors_inl. unfold validate_stock_record.
  destruct (unit_price_errors _); split; congruence.
Qed.

(** How [prepare] ends, in order of the checks. *)
Lemma prepare_cases now kind r db :
  (assign_record_no now kind r db = (db, inl IntValueError)
   /\ prepare now kind r db = (db, inl IntValueError))
  \/ (exists r1,
        assign_record_no now kind r db = (db, inr r1) /\
        ((validate_stock_record now r1 = inl FloatValueError /\
          prepare now kind r db = (db, inl FloatValueError))
         \/ (exists errors,
               validate_stock_record now r1 = inr (false, errors) /\
               prepare now kind r db = (db, inl (ValueError errors)))
         \/ (validate_stock_record now r1 = inr (true, []) /\
             ~ references_active db r /\
             exists e, reference_error e /\ prepare now kind r db = (db, inl e))
         \/ (validate_stock_record now r1 = inr (true, []) /\
             references_active db r /\
             prepare now kind r db = (db, inr r1)))).
Proof.
  pose proof (prepare_eq now kind r db) as Heq.
  pose proof (assign_record_no_db now kind r db) as Ha.
  destruct (assign_record_no now kind r db) as [db1 [e|r1]] eqn:Hassign;
    cbn in Ha; subst db1.
  - left. rewrite Heq.
    assert (e = IntValueError) as ->; [|auto].
    revert Hassign. unfold assign_record_no.
    destruct (not_str _); [|discriminate].
    unfold bind at 1.
    destruct (generate_record_no now kind db) as [db1 [e1|no]] eqn:Hg;
      [|discriminate].
    intros [= _ <-]. exact (generate_record_no_inl _ _ _ _ _ Hg).
  - right. exists r1. split; [reflexivity|].
    apply assign_record_no_inr in Hassign as (_ & _ & Hw & Hp & _).
    pose proof (references_active_ids db r r1 Hw Hp) as Href.
    rewrite Heq.
    destruct (validate_stock_record now r1) as [e|[[] errors]] eqn:Hv.
    + left. apply validate_stock_record_inl in Hv as [-> _]. auto.
    + right; right.
      assert (errors = []) as ->.
      { apply validate_stock_record_true in Hv.
        destruct Hv as (? & ? & ? & ? & ? & ? & ? & ? & ? & ? & ? & ? & ? & ? & ->).
        reflexivity. }
      pose proof (check_references_db r1 db) as Hc.
      pose proof (check_references_inr r1 db) as Hi.
      pose proof (check_references_inl r1 db) as Hl.
      destruct (check_references r1 db) as [db1 [e|[]]]; cbn in Hc, Hi, Hl; subst db1.
      * left. split; [reflexivity|]. split.
        -- rewrite <- Href, <- Hi. discriminate.
        -- exists e. auto.
      * right. split; [reflexivity|]. split; [|reflexivity].
        apply Href, Hi. reflexivity.
    + right; left. eauto.
Qed.

(** The request as the checks of [add_out_stock] see it carries the
    warehouse, product and quantity of the caller. *)
Lemma prepare_keeps now kind r db r1 :
  prepare now kind r db = (db, inr r1) ->
  StockRecord.warehouse_id r1 = StockRecord.warehouse_id r /\
  StockRecord.product_id r1 = StockRecord.product_id r /\
  StockRecord.quantity r1 = StockRecord.quantity r.
Proof.
  intros Hprep. apply prepare_inr in Hprep as (_ & Ha & _).
  apply assign_record_no_inr in Ha as (_ & _ & Hw1 & Hp1 & Hq1 & _). auto.
Qed.

(** C2.  An outbound request for more than the stock of its pair (zero
    when the pair has no row) always fails and leaves the store as it
    was; when the request is accepted by the earlier steps, the error is
    the insufficient-stock one and carries the current stock and the
    quantity asked for. *)
Theorem out_stock_insufficient (now : Py.datetime) (r : StockRecord.t) (db : DB)
    (w p q : Z) :
  StockRecord.warehouse_id r = Some w ->
  StockRecord.product_id r = Some p ->
  StockRecord.quantity r = Some q ->
  current_stock (Some w) (Some p) db < q ->
  exists err,
    add_out_stock now r db = (db, inl err) /\
    (accepted now 2 r db ->
     err = StockInsufficient (current_stock (Some w) (Some p) db) (Some q)).
Proof.
  intros Hw Hp Hq Hlt.
  destruct (add_out_stock_cases now r db)
    as [(e & Hprep & H)
       |[(r1 & w' & p' & q' & Hprep & Hw' & Hp' & Hq' & _ & H)
        |[(r1 & w' & p' & q' & e & err & Hprep & Hw' & Hp' & Hq' & He & Hle & _)
         |(r1 & r2 & t & w' & p' & q' & e & db' & Hprep & Htotal & He & Hle & _ & Hc)]]].
  - exists e. split; [exact H|]. intros [r1 Hr1]. congruence.
  - apply prepare_keeps in Hprep as (Hw1 & Hp1 & Hq1).
    assert (w' = w) as -> by congruence.
    assert (p' = p) as -> by congruence.
    assert (q' = q) as -> by congruence.
    eexists. split; [exact H|]. reflexivity.
  - exfalso. apply prepare_keeps in Hprep as (Hw1 & Hp1 & Hq1).
    assert (w' = w) as -> by congruence.
    assert (p' = p) as -> by congruence.
    assert (q' = q) as -> by congruence.
    unfold current_stock in Hlt. rewrite He in Hlt. lia.
  - exfalso. apply prepare_keeps in Hprep as (Hw1 & Hp1 & Hq1).
    destruct Hc as (_ & Hw3 & _ & Hp3 & _ & Hq3 & _).
    cbn in Hw3, Hp3, Hq3.
    pose proof (calculate_total_amount_fields _ _ _ Htotal)
      as (_ & _ & _ & Hw4 & Hp4 & Hq4 & _).
    assert (w' = w) as -> by congruence.
    assert (p' = p) as -> by congruence.
    assert (q' = q) as -> by congruence.
    unfold current_stock in Hlt. rewrite He in Hlt. lia.
Qed.


Lemma out_stock_insufficient_witness :
  exists err,
    add_out_stock Example.now (Example.entry None 1 1 71 None) stocked
      = (stocked, inl err) /\
    (accepted Example.now 2 (Example.entry None 1 1 71 None) stocked ->
     err = StockInsufficient (current_stock (Some 1) (Some 1) stocked) (Some 71)).
Proof.
  apply (out_stock_insufficient Example.now (Example.entry None 1 1 71 None)
           stocked 1 1 71);
    [reflexivity | reflexivity | reflexivity | vm_compute; reflexivity].
Defined.

Example out_stock_71_of_70 :
  add_out_stock Example.now (Example.entry None 1 1 71 None) stocked
  = (stocked, inl (StockInsufficient 70 (Some 71))).
Proof. vm_compute. reflexivity. Qed.

Lemma update_inventory_without_row r db :
  InventoryDAO.select (StockRecord.warehouse_id r) (StockRecord.product_id r)
    (inventory db) = None ->
  _update_inventory_in_transaction r false db = (db, inl InventoryNotFound).
Proof.
  intros H. unfold _update_inventory_in_transaction; run_monad.
  rewrite H. reflexivity.
Qed.

(** C3, as the code has it.  An outbound request against a pair with no
    inventory row fails and leaves the store as it was, but never with
    the error of a missing balance: the pre-check of [add_out_stock]
    counts a missing row as a stock of zero, so an accepted request ends
    with the insufficient-stock error carrying 0 and the quantity asked
    for.  The missing-balance error is what
    [_update_inventory_in_transaction] raises when it is reached for an
    outbound movement without a row. *)
Theorem out_stock_without_row (now : Py.datetime) (r : StockRecord.t) (db : DB)
    (w p : Z) :
  StockRecord.warehouse_id r = Some w ->
  StockRecord.product_id r = Some p ->
  InventoryDAO.select (Some w) (Some p) (inventory db) = None ->
  (exists err,
     add_out_stock now r db = (db, inl err) /\
     err <> InventoryNotFound /\
     (accepted now 2 r db -> err = StockInsufficient 0 (StockRecord.quantity r)))
  /\ _update_inventory_in_transaction r false db = (db, inl InventoryNotFound).
Proof.
  intros Hw Hp Hnone. split.
  2:{ apply update_inventory_without_row. rewrite Hw, Hp. exact Hnone. }
  destruct (add_out_stock_cases now r db)
    as [(e & Hprep & H)
       |[(r1 & w' & p' & q' & Hprep & Hw' & Hp' & Hq' & _ & H)
        |[(r1 & w' & p' & q' & e & err & Hprep & Hw' & Hp' & Hq' & He & Hle & _)
         |(r1 & r2 & t & w' & p' & q' & e & db' & Hprep & Htotal & He & Hle & _ & Hc)]]].
  - exists e. split; [exact H|]. split.
    + destruct (prepare_cases now 2 r db)
        as [[_ H1]|(r1 & _ & [[_ H1]|[(errors & _ & H1)
                                     |[(_ & _ & e' & He' & H1)|(_ & _ & H1)]]])];
        rewrite Hprep in H1; simplify_eq; try discriminate.
      destruct He' as [-> | [-> | [-> | ->]]]; discriminate.
    + intros [r1 Hr1]. congruence.
  - apply prepare_keeps in Hprep as (Hw1 & Hp1 & Hq1).
    assert (w' = w) as -> by congruence.
    assert (p' = p) as -> by congruence.
    unfold current_stock in H. rewrite Hnone in H.
    eexists. split; [exact H|]. split; [discriminate|].
    intros _. congruence.
  - exfalso. apply prepare_keeps in Hprep as (Hw1 & Hp1 & Hq1).
    assert (w' = w) as -> by congruence.
    assert (p' = p) as -> by congruence.
    congruence.
  - exfalso. apply prepare_keeps in Hprep as (Hw1 & Hp1 & Hq1).
    destruct Hc as (_ & Hw3 & _ & Hp3 & _).
    cbn in Hw3, Hp3.
    pose proof (calculate_total_amount_fields _ _ _ Htotal)
      as (_ & _ & _ & Hw4 & Hp4 & _).
    assert (w' = w) as -> by congruence.
    assert (p' = p) as -> by congruence.
    congruence.
Qed.

Lemma out_stock_without_row_witness :
  (exists err,
     add_out_stock Example.now (Example.entry None 1 1 5 None) Example.db
       = (Example.db, inl err) /\
     err <> InventoryNotFound /\
     (accepted Example.now 2 (Example.entry None 1 1 5 None) Example.db ->
      err = StockInsufficient 0 (Some 5)))
  /\ _update_inventory_in_transaction (Example.entry None 1 1 5 None) false Example.db
     = (Example.db, inl InventoryNotFound).
Proof.
  apply (out_stock_without_row Example.now (Example.entry None 1 1 5 None)
           Example.db 1 1); reflexivity.
Defined.

(** C3 as stated fails: the first outbound request for a pair that never
    had stock is accepted by all earlier steps and ends with the
    insufficient-stock error, not with the missing-balance one. *)
Lemma out_stock_without_row_counterexample :
  InventoryDAO.select (Some 1) (Some 1) (inventory Example.db) = None /\
  accepted Example.now 2 (Example.entry None 1 1 5 None) Example.db /\
  add_out_stock Example.now (Example.entry None 1 1 5 None) Example.db
    = (Example.db, inl (StockInsufficient 0 (Some 5))) /\
  add_out_stock Example.now (Example.entry None 1 1 5 None) Example.db
    <> (Example.db, inl InventoryNotFound).
Proof.
  split; [reflexivity|]. split.
  - eexists. vm_compute. reflexivity.
  - split; [vm_compute; reflexivity|].
    intros H. vm_compute in H. discriminate H.
Qed.

(** C6.  When the warehouse or the product of a request is missing or
    not active, both operations stop in the steps before the stock check
    and the transaction, and the store is as it was; for a request that
    has a document number and passes validation the error is one of the
    four reference errors. *)
Theorem inactive_reference_aborts (now : Py.datetime) (r : StockRecord.t) (db : DB) :
  ~ references_active db r ->
  exists e1 e2,
    prepare now 1 r db = (db, inl e1) /\
    add_in_stock now r db = (db, inl e1) /\
    prepare now 2 r db = (db, inl e2) /\
    add_out_stock now r db = (db, inl e2) /\
    (validated now 1 r db -> reference_error e1) /\
    (validated now 2 r db -> reference_error e2).
Proof.
  intros Hna.
  assert (Hprep : forall kind, exists e,
            prepare now kind r db = (db, inl e) /\
            (validated now kind r db -> reference_error e)).
  { intros kind.
    destruct (prepare_cases now kind r db)
      as [[Ha H1]|(r1 & Ha & [[Hv H1]|[(errors & Hv & H1)
                                      |[(Hv & _ & e' & He' & H1)|(_ & Hact & _)]]])].
    - eexists. split; [exact H1|]. intros (r1 & Hr1 & _). congruence.
    - eexists. split; [exact H1|]. intros (r2 & Hr2 & Hv2).
      assert (r2 = r1) as -> by congruence. congruence.
    - eexists. split; [exact H1|]. intros (r2 & Hr2 & Hv2).
      assert (r2 = r1) as -> by congruence. congruence.
    - exists e'. auto.
    - contradiction. }
  destruct (Hprep 1) as (e1 & H1 & Hr1). destruct (Hprep 2) as (e2 & H2 & Hr2).
  exists e1, e2. split; [exact H1|]. split.
  { destruct (add_in_stock_cases now r db)
      as [(e & He & H)|[(r1 & ? & He & _)|(r1 & ? & ? & ? & ? & ? & ? & He & _)]];
      congruence. }
  split; [exact H2|]. split; [|auto].
  destruct (add_out_stock_cases now r db)
    as [(e & He & H)|[(r1 & ? & ? & ? & He & _)
                     |[(r1 & ? & ? & ? & ? & ? & He & _)
                      |(r1 & ? & ? & ? & ? & ? & ? & ? & He & _)]]];
    congruence.
Qed.

Lemma inactive_reference_aborts_witness :
  exists e1 e2,
    prepare Example.now 1 (Example.entry None 2 1 5 None) Example.db
      = (Example.db, inl e1) /\
    add_in_stock Example.now (Example.entry None 2 1 5 None) Example.db
      = (Example.db, inl e1) /\
    prepare Example.now 2 (Example.entry None 2 1 5 None) Example.db
      = (Example.db, inl e2) /\
    add_out_stock Example.now (Example.entry None 2 1 5 None) Example.db
      = (Example.db, inl e2) /\
    (validated Example.now 1 (Example.entry None 2 1 5 None) Example.db ->
     reference_error e1) /\
    (validated Example.now 2 (Example.entry None 2 1 5 None) Example.db ->
     reference_error e2).
Proof.
  apply (inactive_reference_aborts Example.now (Example.entry None 2 1 5 None)
           Example.db).
  intros (w & p & wh & pr & Hw & Hwh & Hs & _).
  injection Hw as <-. vm_compute in Hwh. injection Hwh as <-. discriminate Hs.
Defined.

Example disabled_warehouse :
  add_in_stock Example.now (Example.entry None 2 1 5 None) Example.db
  = (Example.db, inl WarehouseDisabled).
Proof. vm_compute. reflexivity. Qed.

Lemma lstrip_ascii c t :
  Py.is_space c = false -> (nat_of_ascii c <? 128)%nat = true ->
  Py.lstrip (String c t) = String c t.
Proof.
  intros Hc Hlt%Nat.ltb_lt. unfold Py.lstrip. cbn [Py.lstrip_with]. rewrite Hc.
  assert (H2 : forall b, Py.is_space2 c b = false).
  { intros b. unfold Py.is_space2. cbv zeta.
    destruct (Nat.eqb_spec (nat_of_ascii c) 194); [lia|reflexivity]. }
  assert (H3 : forall b d, Py.is_space3 c b d = false).
  { intros b d. unfold Py.is_space3. cbv zeta.
    destruct (Nat.eqb_spec (nat_of_ascii c) 225); [lia|].
    destruct (Nat.eqb_spec (nat_of_ascii c) 226); [lia|].
    destruct (Nat.eqb_spec (nat_of_ascii c) 227); [lia|]. reflexivity. }
  destruct t as [|b [|d t]]; rewrite ?H2, ?H3; reflexivity.
Qed.

Lemma strip_ascii_first c t :
  Py.is_space c = false -> (nat_of_ascii c <? 128)%nat = true ->
  Py.strip (String c t) <> EmptyString.
Proof.
  intros Hc Hlt. unfold Py.strip. rewrite (lstrip_ascii c t Hc Hlt).
  unfold Py.rstrip. cbn [Py.rstrip_with]. fold (Py.lstrip (String c t)).
  rewrite (lstrip_ascii c t Hc Hlt). discriminate.
Qed.

Lemma generated_record_no_not_blank now kind db db' no :
  generate_record_no now kind db = (db', inr no) ->
  Validator.validate_not_empty (Some no) = true.
Proof.
  unfold generate_record_no, record_no_prefix; run_monad.
  assert (H : forall c t, Py.is_space c = false ->
            (nat_of_ascii c <? 128)%nat = true ->
            Validator.validate_not_empty (Some (String c t)) = true).
  { intros c t Hc Hlt. unfold Validator.validate_not_empty.
    pose proof (strip_ascii_first c t Hc Hlt).
    destruct (Py.strip (String c t)); [contradiction|reflexivity]. }
  repeat case_match; intros [= _ <-]; apply H; reflexivity.
Qed.

Lemma validate_not_empty_false r :
  not_str (StockRecord.record_no r) = false ->
  Validator.validate_not_empty (StockRecord.record_no r) = false <->
  exists c s, StockRecord.record_no r = Some (String c s)
              /\ Py.strip (String c s) = EmptyString.
Proof.
  unfold not_str, Validator.validate_not_empty.
  destruct (StockRecord.record_no r) as [[|c s]|]; try discriminate.
  intros _. split.
  - destruct (Py.strip (String c s)) eqn:Hs; [eauto|discriminate].
  - intros (c' & s' & [= <- <-] & ->). reflexivity.
Qed.

Lemma gtb_compare d now : Py.gtb d now = true <-> Py.compare d now = Gt.
Proof. unfold Py.gtb. destruct (Py.compare d now); split; congruence. Qed.

Lemma In_guarded (b : bool) (m m' : message) :
  In m (if b then [m'] else []) <-> b = true /\ m = m'.
Proof. destruct b; cbn; intuition congruence. Qed.

Lemma not_int_true x : not_int x = true <-> x = None \/ x = Some 0.
Proof.
  unfold not_int. destruct x as [n|]; [|intuition].
  rewrite Z.eqb_eq. split; [intros ->; auto|intros [H|[= ->]]; [discriminate|reflexivity]].
Qed.

Lemma quantity_errors m (x : option Z) :
  In m (match x with
        | Some q => if (q =? 0) || (q <=? 0) then [MsgQuantityNotPositive] else []
        | None => [MsgQuantityNotPositive]
        end)
  <-> m = MsgQuantityNotPositive /\ (forall q, x = Some q -> q <= 0).
Proof.
  destruct x as [q|].
  - rewrite In_guarded, orb_true_iff, Z.eqb_eq, Z.leb_le. split.
    + intros [H ->]. split; [reflexivity|]. intros ? [= <-]. lia.
    + intros [-> H]. split; [|reflexivity]. right. auto.
  - cbn. split; [intros [<-|[]]|intros [-> _]; auto].
    split; [reflexivity|discriminate].
Qed.

Lemma unit_price_errors_In m (x : option Py.Decimal) l :
  unit_price_errors x = inr l ->
  In m l
  <-> m = MsgUnitPriceNegative
      /\ (exists u, x = Some u /\ Py.float_of_Decimal u = inr Py.Fneg).
Proof.
  unfold unit_price_errors, Validator.validate_number_min0.
  destruct x as [u|].
  - destruct (Py.float_of_Decimal u) as [e|f] eqn:Hf; [discriminate|].
    intros [= <-]. split.
    + destruct f; cbn; intros H; try contradiction.
      destruct H as [<-|[]]. eauto.
    + intros [-> (u' & [= <-] & Hu')]. rewrite Hf in Hu'. injection Hu' as ->.
      left. reflexivity.
  - intros [= <-]. cbn. split; [intros []|intros [_ (u' & [=] & _)]].
Qed.

(** The float of a finite price whose exponent is at least -323 is
    below zero exactly when the price is negative. *)
Lemma float_of_Decimal_negative s c e :
  -323 <= e ->
  Py.float_of_Decimal (Py.Finite s c e) = inr Py.Fneg <-> s = true /\ c <> 0%N.
Proof.
  intros He. cbn [Py.float_of_Decimal].
  assert (Hzero : (if 0 <=? e then (c =? 0)%N
                   else Z.of_N c * 2 ^ 1075 <=? 10 ^ (- e)) = (c =? 0)%N).
  { destruct (Z.leb_spec 0 e); [reflexivity|].
    destruct (N.eqb_spec c 0) as [->|Hc].
    - apply Z.leb_le. change (Z.of_N 0) with 0. rewrite Z.mul_0_l.
      apply Z.pow_nonneg. lia.
    - apply Z.leb_gt.
      assert (H1 : 10 ^ (- e) <= 10 ^ 323) by (apply Z.pow_le_mono_r; lia).
      assert (H2 : 10 ^ 323 < 2 ^ 1075) by (vm_compute; reflexivity).
      assert (H3 : 0 < 2 ^ 1075) by (vm_compute; reflexivity).
      assert (H4 : 1 <= Z.of_N c) by lia. nia. }
  rewrite Hzero. destruct (N.eqb_spec c 0) as [->|Hc], s; split;
    try discriminate; try (intros [? ?]; congruence); auto.
Qed.

Lemma float_of_Decimal_Fneg u :
  Py.float_of_Decimal u = inr Py.Fneg ->
  u = Py.Infinity true \/ exists c e, u = Py.Finite true c e /\ c <> 0%N.
Proof.
  destruct u as [s c e|s|s p|s p]; cbn [Py.float_of_Decimal].
  - destruct (N.eq_dec c 0) as [->|Hc].
    + assert (H : (if 0 <=? e then (0 =? 0)%N
                   else Z.of_N 0 * 2 ^ 1075 <=? 10 ^ (- e)) = true).
      { destruct (0 <=? e); [reflexivity|]. apply Z.leb_le.
        change (Z.of_N 0) with 0. rewrite Z.mul_0_l. apply Z.pow_nonneg. lia. }
      rewrite H. discriminate.
    + destruct (if 0 <=? e then _ else _); [discriminate|].
      destruct s; [|discriminate]. intros _. right. eauto.
  - destruct s; [auto|discriminate].
  - discriminate.
  - discriminate.
Qed.

Lemma record_date_errors now m (x : option Py.datetime) :
  In m (match x with
        | None => [MsgRecordDateEmpty]
        | Some d => if Py.gtb d now then [MsgRecordDateFuture] else []
        end)
  <-> (m = MsgRecordDateEmpty /\ x = None)
      \/ (m = MsgRecordDateFuture /\ exists d, x = Some d /\ Py.compare d now = Gt).
Proof.
  destruct x as [d|].
  - rewrite In_guarded, gtb_compare. split.
    + intros [H ->]. right. eauto.
    + intros [[_ [=]]|[-> (d' & [= <-] & H)]]. auto.
  - cbn. split.
    + intros [<-|[]]. auto.
    + intros [[-> _]|[_ (d' & [=] & _)]]. auto.
Qed.

Lemma validate_errors_iff now kind r db r1 ok errors :
  kind = 1 \/ kind = 2 ->
  assign_record_no now kind r db = (db, inr r1) ->
  validate_stock_record now r1 = inr (ok, errors) ->
  forall m, In m errors <-> violation now r m.
Proof.
  intros Hk Ha Hv. pose proof (assign_record_no_inr _ _ _ _ _ _ Ha)
    as (Ht & _ & Hw & Hp & Hq & Hu & _ & Hd & Hno).
  assert (Hne : Validator.validate_not_empty (StockRecord.record_no r1) = false <->
                violation now r MsgRecordNoEmpty).
  { destruct (not_str (StockRecord.record_no r)) eqn:Hns.
    - destruct Hno as (no & Hg & Hr1). rewrite Hr1.
      rewrite (generated_record_no_not_blank _ _ _ _ _ Hg). cbn.
      split; [discriminate|].
      intros (c & s & Hs & _). rewrite Hs in Hns. discriminate.
    - rewrite Hno. apply validate_not_empty_false, Hns. }
  assert (Hty : match StockRecord.record_type r1 with
                | Some 1 | Some 2 => []
                | _ => [MsgRecordTypeInvalid]
                end = []).
  { rewrite Ht. destruct Hk as [-> | ->]; reflexivity. }
  revert Hv. unfold validate_stock_record. rewrite Hty, Hw, Hp, Hq, Hu, Hd.
  destruct (unit_price_errors (StockRecord.unit_price r)) as [e|price_errors] eqn:Hpe;
    [discriminate|].
  intros [= _ <-] m.
  rewrite !in_app_iff, !In_guarded, quantity_errors,
    (unit_price_errors_In m _ _ Hpe), (record_date_errors now), !not_int_true.
  assert (H1 : In m (if Validator.validate_not_empty (StockRecord.record_no r1)
                     then [] else [MsgRecordNoEmpty])
               <-> m = MsgRecordNoEmpty /\ violation now r MsgRecordNoEmpty).
  { rewrite <- Hne.
    destruct (Validator.validate_not_empty (StockRecord.record_no r1)); cbn;
      intuition congruence. }
  rewrite H1. clear H1 Hne.
  destruct m; cbn [violation In]; intuition (try discriminate).
Qed.

(** C5, as the code has it.  Once the request has its document number
    (the one supplied, or a generated one when none or an empty one was
    supplied), the validation collects exactly the messages of the
    conditions the request violates: a document number that is blank
    without being empty, a warehouse or product id that is missing or
    zero, a quantity that is missing or not positive, a unit price whose
    [float] is below zero, a missing operation date or one later than
    [now].  When there is any, the operation ends with the validation
    error carrying all of them and the store is as it was; when there is
    none the request passes validation.  Only a signaling NaN as unit
    price makes the validation itself raise, with the error of the
    conversion, which ends the operation as well.  A unit price whose
    [float] is below zero is negative, and a negative unit price has a
    [float] below zero when it is minus infinity or its exponent is -323
    or more. *)
Theorem validation_failures (now : Py.datetime) (kind : Z) (r r1 : StockRecord.t)
    (db : DB) :
  kind = 1 \/ kind = 2 ->
  assign_record_no now kind r db = (db, inr r1) ->
  match validate_stock_record now r1 with
  | inr (is_valid, errors) =>
      (forall m, In m errors <-> violation now r m) /\
      (is_valid = true <-> errors = []) /\
      (errors <> [] ->
       (kind = 1 -> add_in_stock now r db = (db, inl (ValueError errors))) /\
       (kind = 2 -> add_out_stock now r db = (db, inl (ValueError errors)))) /\
      ((forall m, ~ violation now r m) -> is_valid = true)
  | inl e =>
      e = FloatValueError /\
      (kind = 1 -> add_in_stock now r db = (db, inl e)) /\
      (kind = 2 -> add_out_stock now r db = (db, inl e))
  end /\
  ((exists e, validate_stock_record now r1 = inl e)
   <-> exists s p, StockRecord.unit_price r = Some (Py.sNaN s p)) /\
  (forall u, StockRecord.unit_price r = Some u ->
     (violation now r MsgUnitPriceNegative -> Py.Decimal_lt0 u = inr true) /\
     (Py.Decimal_lt0 u = inr true ->
      (forall s c e, u = Py.Finite s c e -> -323 <= e) ->
      violation now r MsgUnitPriceNegative)).
Proof.
  intros Hk Ha.
  pose proof (assign_record_no_inr _ _ _ _ _ _ Ha) as (_ & _ & _ & _ & _ & Hu & _).
  assert (Hops : forall e,
            prepare now kind r db = (db, inl e) ->
            (kind = 1 -> add_in_stock now r db = (db, inl e)) /\
            (kind = 2 -> add_out_stock now r db = (db, inl e))).
  { intros e Hprep. split; intros ->.
    - destruct (add_in_stock_cases now r db)
        as [(e' & He & H)|[(r2 & ? & He & _)|(r2 & ? & ? & ? & ? & ? & ? & He & _)]];
        congruence.
    - destruct (add_out_stock_cases now r db)
        as [(e' & He & H)|[(r2 & ? & ? & ? & He & _)
                          |[(r2 & ? & ? & ? & ? & ? & He & _)
                           |(r2 & ? & ? & ? & ? & ? & ? & ? & He & _)]]];
        congruence. }
  split; [|split].
  - destruct (validate_stock_record now r1) as [e|[is_valid errors]] eqn:Hv.
    + apply validate_stock_record_inl in Hv as Hv'. destruct Hv' as [-> _].
      split; [reflexivity|]. apply Hops.
      destruct (prepare_cases now kind r db)
        as [[Ha' _]|(r1' & Ha' & [[_ H]|[(errs & Hv' & _)|[(Hv' & _)|(Hv' & _)]]])];
        congruence.
    + pose proof (validate_errors_iff now kind r db r1 _ _ Hk Ha Hv) as Hiff.
      pose proof (validate_stock_record_inr _ _ _ _ Hv) as Hok.
      split; [exact Hiff|]. split; [|split].
      * rewrite Hok. destruct errors; split; congruence.
      * intros Hne. apply Hops.
        destruct (prepare_cases now kind r db)
          as [[Ha' _]|(r1' & Ha' & [[Hv' _]|[(errs & Hv' & H)|[(Hv' & _)|(Hv' & _)]]])];
          congruence.
      * intros Hnone. rewrite Hok. destruct errors as [|m errors']; [reflexivity|].
        exfalso. apply (Hnone m), Hiff. left. reflexivity.
  - rewrite <- Hu. split.
    + intros [e He%validate_stock_record_inl]. tauto.
    + intros Hs. exists FloatValueError. apply validate_stock_record_inl. auto.
  - intros u Hp. cbn [violation]. rewrite Hp. split.
    + intros (u' & [= <-] & H).
      apply float_of_Decimal_Fneg in H as [->|(c & e & -> & Hc)]; [reflexivity|].
      cbn. destruct (N.eqb_spec c 0); [contradiction|reflexivity].
    + intros Hneg Hexp. exists u. split; [reflexivity|].
      destruct u as [s c e|s|s p|s p]; cbn in Hneg; try discriminate.
      * injection Hneg as Hneg. apply andb_prop in Hneg as [-> Hc%negb_true_iff].
        apply float_of_Decimal_negative; [exact (Hexp _ _ _ eq_refl)|].
        split; [reflexivity|]. apply N.eqb_neq, Hc.
      * injection Hneg as ->. reflexivity.
Qed.

Lemma validation_failures_witness :
  let r := StockRecord.mk None (Some "  "%string) None (Some 0) None (Some (-1))
             (Some (Py.Finite true 1 0)) None None None
             (Some (Py.mk_datetime 2025 1 23 12 0 0 1)) None in
  let r1 := StockRecord.set_record_type (Some 1) r in
  match validate_stock_record Example.now r1 with
  | inr (is_valid, errors) =>
      (forall m, In m errors <-> violation Example.now r m) /\
      (is_valid = true <-> errors = []) /\
      (errors <> [] ->
       (1 = 1 -> add_in_stock Example.now r Example.db
                 = (Example.db, inl (ValueError errors))) /\
       (1 = 2 -> add_out_stock Example.now r Example.db
                 = (Example.db, inl (ValueError errors)))) /\
      ((forall m, ~ violation Example.now r m) -> is_valid = true)
  | inl e =>
      e = FloatValueError /\
      (1 = 1 -> add_in_stock Example.now r Example.db = (Example.db, inl e)) /\
      (1 = 2 -> add_out_stock Example.now r Example.db = (Example.db, inl e))
  end /\
  ((exists e, validate_stock_record Example.now r1 = inl e)
   <-> exists s p, StockRecord.unit_price r = Some (Py.sNaN s p)) /\
  (forall u, StockRecord.unit_price r = Some u ->
     (violation Example.now r MsgUnitPriceNegative -> Py.Decimal_lt0 u = inr true) /\
     (Py.Decimal_lt0 u = inr true ->
      (forall s c e, u = Py.Finite s c e -> -323 <= e) ->
      violation Example.now r MsgUnitPriceNegative)).
Proof.
  intros r r1.
  apply (validation_failures Example.now 1 r r1 Example.db);
    [left; reflexivity | reflexivity].
Defined.

Example all_messages_collected :
  add_in_stock Example.now
    (StockRecord.mk None (Some "  "%string) None (Some 0) None (Some (-1))
       (Some (Py.Finite true 1 0)) None None None
       (Some (Py.mk_datetime 2025 1 23 12 0 0 1)) None)
    Example.db
  = (Example.db,
     inl (ValueError [MsgRecordNoEmpty; MsgWarehouseIdEmpty; MsgProductIdEmpty;
                      MsgQuantityNotPositive; MsgUnitPriceNegative;
                      MsgRecordDateFuture])).
Proof. vm_compute. reflexivity. Qed.

(** A document number of blanks wider than one byte (here two
    ideographic spaces, U+3000) is blank as well. *)
Example wide_blank_record_no :
  let blank := String (ascii_of_nat 227) (String (ascii_of_nat 128)
                 (String (ascii_of_nat 128) EmptyString)) in
  add_in_stock Example.now (Example.entry (Some (blank +:+ blank)) 1 1 5 None) Example.db
  = (Example.db, inl (ValueError [MsgRecordNoEmpty])).
Proof. vm_compute. reflexivity. Qed.

(** A signaling NaN as unit price ends the validation with the error of
    the conversion to [float]. *)
Example signaling_nan_price :
  add_in_stock Example.now (Example.entry None 1 1 5 (Some (Py.sNaN false 0))) Example.db
  = (Example.db, inl FloatValueError).
Proof. vm_compute. reflexivity. Qed.

(** C5 as stated fails: a request with an empty document number, and
    nothing else at fault, does not fail validation; the number is
    generated and the movement is committed. *)
Lemma empty_record_no_counterexample :
  exists db' r',
    add_in_stock Example.now (Example.entry (Some EmptyString) 1 1 5 None) Example.db
      = (db', inr r') /\
    StockRecord.record_no r' = Some "RK202501230001"%string /\
    stock_record db' = [r'].
Proof. eexists _, _. vm_compute. repeat split. Qed.

(** C4 fails on the code.  A request without unit price that carries a
    total of 999 is committed with that total: [calculate_total_amount]
    returns zero for it but assigns nothing. *)
Lemma total_amount_kept_from_caller :
  let r := StockRecord.mk None None None (Some 1) (Some 1) (Some 10) None
             (Some (Py.Finite false 999 0)) None None (Some Example.morning) None in
  StockRecord.calculate_total_amount r = inr (r, Py.Decimal_zero) /\
  exists db' r',
    add_in_stock Example.now r Example.db = (db', inr r') /\
    StockRecord.total_amount r' = Some (Py.Finite false 999 0) /\
    stock_record db' = [r'].
Proof. split; [reflexivity|]. eexists _, _. vm_compute. repeat split. Qed.

(** The same with a unit price of zero, and with no total supplied:
    the stored total is the caller's 999, and [NULL], not zero. *)
Lemma total_amount_with_zero_price :
  let r := StockRecord.mk None None None (Some 1) (Some 1) (Some 10)
             (Some (Py.Finite false 0 (-2)))
             (Some (Py.Finite false 999 0)) None None (Some Example.morning) None in
  (exists db' r',
     add_out_stock Example.now r stocked = (db', inr r') /\
     StockRecord.total_amount r' = Some (Py.Finite false 999 0)) /\
  (exists db' r',
     add_in_stock Example.now (Example.entry None 1 1 10 None) Example.db
       = (db', inr r') /\
     StockRecord.total_amount r' = None).
Proof. split; eexists _, _; vm_compute; repeat split. Qed.

(** C8.  A call of [_update_inventory_in_transaction] that returns has
    read a warehouse, a product and a quantity from the record, and has
    left the ledger and the master data alone.  When the pair has a row,
    the table is the old one with, in each row of the pair, the new
    quantity (the quantity of the first such row plus the movement for an
    inbound record, minus it for an outbound one, in which case it is not
    negative), the date of the record in [last_in_date] for an inbound
    record and in [last_out_date] for an outbound one, and the other
    date as it was; rows of other pairs are the same.  When the pair has
    no row, the call is an inbound one and appends a row with the
    quantity of the record, its date as [last_in_date] and no
    [last_out_date]. *)
Theorem update_inventory_frame (r : StockRecord.t) (is_in : bool) (db db' : DB) :
  _update_inventory_in_transaction r is_in db = (db', inr tt) ->
  exists w p q,
    StockRecord.warehouse_id r = Some w /\
    StockRecord.product_id r = Some p /\
    StockRecord.quantity r = Some q /\
    stock_record db' = stock_record db /\
    stock_record_auto_increment db' = stock_record_auto_increment db /\
    warehouse db' = warehouse db /\ product db' = product db /\
    match InventoryDAO.select (Some w) (Some p) (inventory db) with
    | Some existing =>
        let new_quantity :=
          if is_in then Inventory.quantity existing + q
          else Inventory.quantity existing - q in
        0 <= (if is_in then 0 else new_quantity) /\
        inventory_auto_increment db' = inventory_auto_increment db /\
        inventory db'
        = map (fun row =>
                 if (Inventory.warehouse_id row =? w) && (Inventory.product_id row =? p)
                 then Inventory.mk (Inventory.id row) (Inventory.warehouse_id row)
                        (Inventory.product_id row) new_quantity
                        (if is_in then StockRecord.record_date r
                         else Inventory.last_in_date row)
                        (if is_in then Inventory.last_out_date row
                         else StockRecord.record_date r)
                 else row)
              (inventory db)
    | None =>
        is_in = true /\
        inventory_auto_increment db' = inventory_auto_increment db + 1 /\
        inventory db'
        = inventory db ++
          [Inventory.mk (inventory_auto_increment db) w p q
             (StockRecord.record_date r) None]
    end.
Proof.
  unfold _update_inventory_in_transaction; run_monad.
  destruct (InventoryDAO.select (StockRecord.warehouse_id r)
              (StockRecord.product_id r) (inventory db)) as [e|] eqn:He.
  - pose proof (select_Some _ _ _ _ He) as [_ Hm].
    unfold InventoryDAO.matches, Sql.eq_Z in Hm.
    destruct (StockRecord.warehouse_id r) as [w|]; [|discriminate Hm].
    destruct (StockRecord.product_id r) as [p|];
      [|rewrite andb_false_r in Hm; discriminate Hm].
    destruct (StockRecord.quantity r) as [q|]; [|discriminate].
    assert (Hmap : forall n d,
      map (update_row is_in (Some w) (Some p) n d) (inventory db)
      = map (fun row =>
               if (Inventory.warehouse_id row =? w) && (Inventory.product_id row =? p)
               then Inventory.mk (Inventory.id row) (Inventory.warehouse_id row)
                      (Inventory.product_id row) n
                      (if is_in then d else Inventory.last_in_date row)
                      (if is_in then Inventory.last_out_date row else d)
               else row) (inventory db)).
    { intros n d. apply map_ext. intros row.
      unfold update_row, InventoryDAO.matches, Sql.eq_Z.
      destruct ((Inventory.warehouse_id row =? w) && (Inventory.product_id row =? p));
        [|reflexivity].
      destruct is_in; reflexivity. }
    destruct is_in.
    + intros [= <-]. exists w, p, q. rewrite He. cbn. rewrite <- Hmap.
      repeat split; lia.
    + destruct (Z.ltb_spec (Inventory.quantity e - q) 0); [discriminate|].
      intros [= <-]. exists w, p, q. rewrite He. cbn. rewrite <- Hmap.
      repeat split; lia.
  - destruct is_in; cbn [negb]; [|discriminate].
    destruct (StockRecord.warehouse_id r) as [w|]; [|discriminate].
    destruct (StockRecord.product_id r) as [p|]; [|discriminate].
    destruct (StockRecord.quantity r) as [q|]; [|discriminate].
    intros [= <-]. exists w, p, q. rewrite He. cbn. repeat split.
Qed.

Lemma update_inventory_frame_witness :
  let r := Example.entry (Some "CK202501230002"%string) 1 1 20 None in
  let db' := fst (_update_inventory_in_transaction r false stocked) in
  exists w p q,
    StockRecord.warehouse_id r = Some w /\
    StockRecord.product_id r = Some p /\
    StockRecord.quantity r = Some q /\
    stock_record db' = stock_record stocked /\
    stock_record_auto_increment db' = stock_record_auto_increment stocked /\
    warehouse db' = warehouse stocked /\ product db' = product stocked /\
    match InventoryDAO.select (Some w) (Some p) (inventory stocked) with
    | Some existing =>
        let new_quantity :=
          if false then Inventory.quantity existing + q
          else Inventory.quantity existing - q in
        0 <= (if false then 0 else new_quantity) /\
        inventory_auto_increment db' = inventory_auto_increment stocked /\
        inventory db'
        = map (fun row =>
                 if (Inventory.warehouse_id row =? w) && (Inventory.product_id row =? p)
                 then Inventory.mk (Inventory.id row) (Inventory.warehouse_id row)
                        (Inventory.product_id row) new_quantity
                        (if false then StockRecord.record_date r
                         else Inventory.last_in_date row)
                        (if false then Inventory.last_out_date row
                         else StockRecord.record_date r)
                 else row)
              (inventory stocked)
    | None =>
        false = true /\
        inventory_auto_increment db' = inventory_auto_increment stocked + 1 /\
        inventory db'
        = inventory stocked ++
          [Inventory.mk (inventory_auto_increment stocked) w p q
             (StockRecord.record_date r) None]
    end.
Proof.
  intros r db'.
  apply (update_inventory_frame r false stocked db').
  vm_compute. reflexivity.
Defined.

Example outbound_keeps_last_in_date :
  inventory (fst (_update_inventory_in_transaction
                    (StockRecord.mk (Some 3) (Some "CK202501230002"%string) (Some 2)
                       (Some 1) (Some 1) (Some 20) None None None None
                       (Some Example.now) None)
                    false stocked))
  = [Inventory.mk 1 1 1 50 (Some Example.morning) (Some Example.now)].
Proof. vm_compute. reflexivity. Qed.

Ltac cmp_done :=
  intros; try lia; try congruence;
  repeat split; intros; try lia; try congruence.

Lemma ordering_Z : ordering Z.compare.
Proof.
  split.
  - intros a b. apply Z.compare_antisym.
  - intros a b c.
    destruct (Z.compare_spec a b), (Z.compare_spec b c), (Z.compare_spec a c);
      cmp_done.
Qed.

Lemma ordering_lex_compare : ordering Py.lex_compare.
Proof.
  split.
  - intros a. induction a as [|x a IH]; intros [|y b]; cbn; try reflexivity.
    rewrite (Z.compare_antisym x y).
    destruct (x ?= y); cbn; [apply IH|reflexivity|reflexivity].
  - intros a. induction a as [|x a IH]; intros [|y b] [|z c]; cbn;
      try solve [cmp_done].
    destruct (Z.compare_spec x y) as [Exy|Exy|Exy],
             (Z.compare_spec y z) as [Eyz|Eyz|Eyz],
             (Z.compare_spec x z) as [Exz|Exz|Exz];
      intros Hab Hbc; try lia; try solve [cmp_done].
    destruct (IH b c Hab Hbc) as [H3 H4]. auto.
Qed.

Lemma ordering_datetime : ordering Py.compare.
Proof.
  destruct ordering_lex_compare as [Ha Ht]. unfold Py.compare. split.
  - intros a b. apply Ha.
  - intros a b c. apply Ht.
Qed.

Lemma ordering_compare_opt {A} (cmp : A -> A -> comparison) :
  ordering cmp -> ordering (Sql.compare_opt cmp).
Proof.
  intros [Ha Ht]. split.
  - intros [a|] [b|]; cbn; auto.
  - intros [a|] [b|] [c|]; cbn; try solve [cmp_done].
    apply Ht.
Qed.

Lemma ordering_order_compare : ordering order_compare.
Proof.
  destruct (ordering_compare_opt _ ordering_datetime) as [Ha1 Ht1].
  destruct (ordering_compare_opt _ ordering_Z) as [Ha2 Ht2].
  unfold order_compare. split.
  - intros a b. rewrite (Ha1 (StockRecord.record_date a) (StockRecord.record_date b)).
    destruct (Sql.compare_opt Py.compare _ _); cbn; [apply Ha2|reflexivity|reflexivity].
  - intros a b c.
    pose proof (Ht1 (StockRecord.record_date a) (StockRecord.record_date b)
                  (StockRecord.record_date c)) as H1.
    pose proof (Ht2 (StockRecord.id a) (StockRecord.id b) (StockRecord.id c)) as H2.
    destruct (Sql.compare_opt Py.compare (StockRecord.record_date a)
                (StockRecord.record_date b)) eqn:Eab;
    destruct (Sql.compare_opt Py.compare (StockRecord.record_date b)
                (StockRecord.record_date c)) eqn:Ebc;
    destruct (Sql.compare_opt Py.compare (StockRecord.record_date a)
                (StockRecord.record_date c)) eqn:Eac;
    intros Hab Hbc; try congruence;
    try solve [repeat split; congruence];
    try solve [exfalso; assert (Hx : Gt <> Lt) by discriminate;
               assert (Hy : @Eq <> Lt) by discriminate;
               first [destruct (H1 Hy Hy) as [? ?]
                     |destruct (H1 Hx Hy) as [? ?]
                     |destruct (H1 Hy Hx) as [? ?]
                     |destruct (H1 Hx Hx) as [? ?]]; intuition congruence].
    apply H2; assumption.
Qed.

#[local] Instance newest_first_total : Total newest_first.
Proof.
  intros a b. unfold newest_first, newest_firstb.
  destruct ordering_order_compare as [Ha _]. rewrite (Ha a b).
  destruct (order_compare a b); cbn; auto.
Qed.

#[local] Instance newest_first_trans : Transitive newest_first.
Proof.
  intros a b c. unfold newest_first, newest_firstb.
  destruct ordering_order_compare as [_ Ht]. specialize (Ht a b c).
  destruct (order_compare a b), (order_compare b c), (order_compare a c);
    try reflexivity; try discriminate; intros _ _; exfalso;
    destruct Ht as [Ht _]; try discriminate; apply Ht; reflexivity.
Qed.

Lemma suffixes_spec s t :
  In t (Sql.suffixes s) <-> exists a, s = (a +:+ t)%string.
Proof.
  induction s as [|c s IH].
  - cbn. split.
    + intros [<-|[]]. exists EmptyString. reflexivity.
    + intros ([|c a] & H); [left; exact H|discriminate H].
  - cbn [Sql.suffixes In]. rewrite IH. split.
    + intros [<-|[a ->]].
      * exists EmptyString. reflexivity.
      * exists (String c a). reflexivity.
    + intros ([|c' a] & H).
      * left. exact H.
      * right. change (String c s = String c' (a +:+ t)) in H.
        injection H as <- ->. eauto.
Qed.

Lemma like_percent p s :
  Sql.like (String "%" p) s = true
  <-> exists a t, s = (a +:+ t)%string /\ Sql.like p t = true.
Proof.
  cbn. rewrite existsb_exists. split.
  - intros (t & [a ->]%suffixes_spec & Ht). eauto.
  - intros (a & t & -> & Ht). exists t. split; [|exact Ht].
    apply suffixes_spec. eauto.
Qed.

Lemma like_plain q p s :
  plain q = true ->
  Sql.like (q +:+ p) s = true
  <-> exists t, s = (q +:+ t)%string /\ Sql.like p t = true.
Proof.
  revert s. induction q as [|c q IH]; intros s Hq.
  - change (EmptyString +:+ p)%string with p. split.
    + intros H. exists s. split; [reflexivity|exact H].
    + intros (t & -> & H). exact H.
  - cbn in Hq. apply andb_prop in Hq as [Hc Hq].
    apply andb_prop in Hc as [Hc H3]. apply andb_prop in Hc as [H1 H2].
    apply negb_true_iff in H1, H2, H3.
    change (String c q +:+ p)%string with (String c (q +:+ p)).
    cbn [Sql.like]. rewrite H1, H2, H3.
    destruct s as [|c' s].
    + split; [discriminate|intros (t & Ht & _); discriminate Ht].
    + rewrite andb_true_iff, Ascii.eqb_eq, (IH s Hq). split.
      * intros [-> (t & -> & Ht)]. exists t. split; [reflexivity|exact Ht].
      * intros (t & Hs & Ht).
        change (String c' s = String c (q +:+ t)) in Hs.
        injection Hs as -> ->. eauto.
Qed.

Lemma like_any s : Sql.like "%" s = true.
Proof.
  apply like_percent. exists s, EmptyString. split; [|reflexivity].
  induction s as [|c s IH]; [reflexivity|].
  change (String c s = String c (s +:+ EmptyString)). congruence.
Qed.

(** On a text without wildcards, [LIKE '%text%'] is containment. *)
Lemma like_contains q s :
  plain q = true ->
  Sql.like ("%" +:+ q +:+ "%") s = true <-> contains q s.
Proof.
  intros Hq. change ("%" +:+ q +:+ "%")%string with (String "%" (q +:+ "%")).
  rewrite like_percent. unfold contains. split.
  - intros (a & t & -> & (b & -> & _)%(like_plain q "%" t Hq)). eauto.
  - intros (a & b & ->). exists a, (q +:+ b)%string. split; [reflexivity|].
    apply (like_plain q "%" _ Hq). exists b. split; [reflexivity|apply like_any].
Qed.

(** On a prefix without wildcards, [LIKE 'prefix%'] is [String.prefix]. *)
Lemma like_prefix q s :
  plain q = true ->
  Sql.like (q +:+ "%") s = String.prefix q s.
Proof.
  intros Hq. revert s. induction q as [|c q IH]; intros s.
  - change (EmptyString +:+ "%")%string with "%"%string.
    rewrite like_any. destruct s; reflexivity.
  - cbn in Hq. apply andb_prop in Hq as [Hc Hq].
    apply andb_prop in Hc as [Hc H3]. apply andb_prop in Hc as [H1 H2].
    apply negb_true_iff in H1, H2, H3.
    change (String c q +:+ "%")%string with (String c (q +:+ "%")).
    cbn [Sql.like]. rewrite H1, H2, H3.
    destruct s as [|c' s]; [reflexivity|].
    change (String.prefix (String c q) (String c' s))
      with (if ascii_dec c c' then String.prefix q s else false).
    rewrite (IH Hq s). destruct (Ascii.eqb_spec c c') as [->|Hne].
    + destruct (ascii_dec c' c'); [reflexivity|contradiction].
    + destruct (ascii_dec c c'); [contradiction|reflexivity].
Qed.


Lemma int_condition (x col : option Z) :
  (if not_int x then true else Sql.eq_Z col x) = true
  <-> (forall w, x = Some w -> w <> 0 -> col = Some w).
Proof.
  unfold not_int, Sql.eq_Z. destruct x as [w|]; [|split; [discriminate|reflexivity]].
  destruct (Z.eqb_spec w 0) as [->|Hw].
  - split; [intros _ ? [= <-] ?; contradiction|reflexivity].
  - destruct col as [v|].
    + rewrite Z.eqb_eq. split.
      * intros -> ? [= <-] _. reflexivity.
      * intros H. specialize (H w eq_refl Hw). congruence.
    + split; [discriminate|]. intros H. specialize (H w eq_refl Hw). discriminate.
Qed.

Lemma start_condition (x col : option Py.datetime) :
  match x with None => true | Some d => Sql.ge_datetime col d end = true
  <-> (forall d, x = Some d ->
         exists d', col = Some d' /\ Py.compare d' d <> Lt).
Proof.
  destruct x as [d|]; [|split; [discriminate|reflexivity]].
  unfold Sql.ge_datetime, Py.geb. destruct col as [d'|].
  - split.
    + intros H ? [= <-]. exists d'. split; [reflexivity|].
      destruct (Py.compare d' d); congruence.
    + intros H. destruct (H d eq_refl) as (? & [= <-] & H').
      destruct (Py.compare d' d); congruence.
  - split; [discriminate|]. intros H. destruct (H d eq_refl) as (? & [=] & _).
Qed.

Lemma end_condition (x col : option Py.datetime) :
  match x with None => true | Some d => Sql.le_datetime col d end = true
  <-> (forall d, x = Some d ->
         exists d', col = Some d' /\ Py.compare d' d <> Gt).
Proof.
  destruct x as [d|]; [|split; [discriminate|reflexivity]].
  unfold Sql.le_datetime, Py.leb. destruct col as [d'|].
  - split.
    + intros H ? [= <-]. exists d'. split; [reflexivity|].
      destruct (Py.compare d' d); congruence.
    + intros H. destruct (H d eq_refl) as (? & [= <-] & H').
      destruct (Py.compare d' d); congruence.
  - split; [discriminate|]. intros H. destruct (H d eq_refl) as (? & [=] & _).
Qed.

Lemma text_condition (x col : option string) :
  match x with
  | Some (String a q) => Sql.like_opt col ("%" +:+ String a q +:+ "%")
  | _ => true
  end = true
  <-> (forall q, x = Some q -> q <> EmptyString ->
         exists s, col = Some s /\ Sql.like ("%" +:+ q +:+ "%") s = true).
Proof.
  destruct x as [[|a q]|].
  - split; [intros _ ? [= <-] ?; contradiction|reflexivity].
  - unfold Sql.like_opt. destruct col as [s|].
    + split.
      * intros H ? [= <-] _. eauto.
      * intros H. destruct (H (String a q) eq_refl) as (? & [= <-] & H');
          [discriminate|exact H'].
    + split; [discriminate|]. intros H.
      destruct (H (String a q) eq_refl) as (? & [=] & _). discriminate.
  - split; [discriminate|reflexivity].
Qed.

Lemma where_clause_selected c r : where_clause c r = true <-> selected c r.
Proof.
  unfold where_clause, selected.
  rewrite !andb_true_iff, !int_condition, start_condition, end_condition,
    !text_condition. tauto.
Qed.

(** C9, as the code has it.  [search_stock_records] reads only.  Its
    result holds exactly the ledger rows that satisfy the conditions on
    warehouse, product, kind, start and end date, document number and
    operator (each row as often as it is in the ledger), ordered by
    operation date and then by id, both descending.  The two text
    conditions are [LIKE] patterns, which for a text without wildcards
    means containment.  The counterparty key of the conditions has no
    effect. *)
Theorem search_stock_records_result (c : conditions) (db : DB) :
  exists l,
    search_stock_records c db = (db, inr l) /\
    (forall r, In r l <-> In r (stock_record db) /\ selected c r) /\
    l ≡ₚ List.filter (where_clause c) (stock_record db) /\
    StronglySorted newest_first l /\
    (forall x, search_stock_records (with_supplier_client_id x c) db
               = search_stock_records c db) /\
    (forall q s, plain q = true ->
       (Sql.like ("%" +:+ q +:+ "%") s = true <-> contains q s)).
Proof.
  eexists. split; [reflexivity|]. split; [|split; [|split; [|split]]].
  - intros r.
    rewrite <- list_elem_of_In, (merge_sort_Permutation newest_first),
      list_elem_of_In, filter_In, where_clause_selected.
    reflexivity.
  - apply merge_sort_Permutation.
  - apply (StronglySorted_merge_sort newest_first).
  - reflexivity.
  - intros q s Hq. apply like_contains, Hq.
Qed.

(** C9 as stated fails: a search for counterparty 5 returns a record
    that has no counterparty at all. *)
Lemma search_ignores_counterparty_counterexample :
  exists l r,
    search_stock_records (mk_conditions None None (Some 5) None None None None None)
      stocked = (stocked, inr l) /\
    In r l /\ StockRecord.supplier_client_id r <> Some 5.
Proof.
  eexists _, _. split; [vm_compute; reflexivity|].
  split; [left; reflexivity|]. discriminate.
Qed.

Example search_by_document_number :
  map StockRecord.record_no
    (match snd (search_stock_records
                  (mk_conditions (Some 1) None None None None None
                     (Some "K2025"%string) None) stocked) with
     | inr l => l
     | inl _ => []
     end)
  = [Some "CK202501230001"%string; Some "RK202501230001"%string].
Proof. vm_compute. reflexivity. Qed.

Lemma suffix_checks_all : forallb suffix_checks (seqZ 0 10000) = true.
Proof. vm_compute. reflexivity. Qed.

Lemma suffix_facts n :
  0 <= n <= 9999 ->
  Py.int (Py.format_0d 4 n) = Some n /\
  String.length (Py.format_0d 4 n) = 4%nat /\
  (n < 9999 -> String.ltb (Py.format_0d 4 n) (Py.format_0d 4 (n + 1)) = true) /\
  String.length (Py.format_0d 2 (n mod 100)) = 2%nat.
Proof.
  intros Hn. pose proof suffix_checks_all as H.
  rewrite forallb_forall in H. specialize (H n).
  assert (Hin : In n (seqZ 0 10000)).
  { apply list_elem_of_In, elem_of_seqZ. lia. }
  specialize (H Hin). unfold suffix_checks in H.
  apply andb_prop in H as [H H4]. apply andb_prop in H as [H H3].
  apply andb_prop in H as [H1 H2].
  split; [|split; [|split]].
  - destruct (Py.int _) as [m|]; [|discriminate].
    apply Z.eqb_eq in H1. congruence.
  - apply Nat.eqb_eq, H2.
  - intros Hlt. apply orb_prop in H3 as [H3|H3]; [|exact H3].
    apply Z.eqb_eq in H3. lia.
  - apply Nat.eqb_eq, H4.
Qed.

Lemma ordering_ascii : ordering Ascii.compare.
Proof.
  unfold Ascii.compare. split.
  - intros a b. apply N.compare_antisym.
  - intros a b c.
    destruct (N.compare_spec (N_of_ascii a) (N_of_ascii b)),
             (N.compare_spec (N_of_ascii b) (N_of_ascii c)),
             (N.compare_spec (N_of_ascii a) (N_of_ascii c));
      intros; try lia; try congruence; repeat split; intros; try lia; try congruence.
Qed.

Lemma ordering_string : ordering String.compare.
Proof.
  destruct ordering_ascii as [Ha Ht]. split.
  - intros a b. apply String.compare_antisym.
  - intros a. induction a as [|x a IH]; intros [|y b] [|z c]; cbn;
      try solve [intros; try congruence; repeat split; intros; congruence].
    pose proof (Ht x y z) as Hxyz.
    destruct (Ascii.compare x y) eqn:Exy, (Ascii.compare y z) eqn:Eyz,
             (Ascii.compare x z) eqn:Exz;
      intros Hab Hbc; try congruence;
      try solve [repeat split; intros; congruence];
      try solve [exfalso;
                 assert (Hx : Gt <> Lt) by discriminate;
                 assert (Hy : @Eq <> Lt) by discriminate;
                 first [destruct (Hxyz Hy Hy) as [? ?]
                       |destruct (Hxyz Hx Hy) as [? ?]
                       |destruct (Hxyz Hy Hx) as [? ?]
                       |destruct (Hxyz Hx Hx) as [? ?]]; intuition congruence].
    apply IH; assumption.
Qed.

Lemma string_compare_refl s : String.compare s s = Eq.
Proof.
  induction s as [|c s IH]; [reflexivity|]. cbn.
  unfold Ascii.compare. rewrite N.compare_refl. exact IH.
Qed.

Lemma greatest_spec l :
  match Sql.greatest l with
  | None => l = []
  | Some m => In m l /\ forall s, In s l -> String.compare s m <> Gt
  end.
Proof.
  destruct ordering_string as [Ha Ht].
  induction l as [|x l IH]; [reflexivity|]. cbn.
  destruct (Sql.greatest l) as [m|].
  - destruct IH as [Hin Hmax]. unfold String.ltb.
    destruct (String.compare x m) eqn:Exm.
    + split; [auto|]. intros s [<-|Hs].
      * rewrite string_compare_refl. discriminate.
      * apply String.compare_eq_iff in Exm as ->. auto.
    + split; [auto|]. intros s [<-|Hs]; [congruence|auto].
    + split; [auto|]. intros s [<-|Hs].
      * rewrite string_compare_refl. discriminate.
      * specialize (Hmax s Hs).
        assert (H1 : String.compare x m <> Lt) by congruence.
        assert (H2 : String.compare m s <> Lt).
        { rewrite (Ha s m). destruct (String.compare s m); cbn; congruence. }
        destruct (Ht x m s H1 H2) as [H3 _].
        rewrite (Ha x s). destruct (String.compare x s); cbn; congruence.
  - subst l. split; [auto|]. intros s [<-|[]].
    rewrite string_compare_refl. discriminate.
Qed.

Lemma greatest_unique l x :
  In x l -> (forall s, In s l -> String.compare s x <> Gt) ->
  Sql.greatest l = Some x.
Proof.
  intros Hin Hmax. pose proof (greatest_spec l) as H.
  destruct (Sql.greatest l) as [m|]; [|subst l; destruct Hin].
  destruct H as [Hm Hmax']. f_equal. apply String.compare_eq_iff.
  specialize (Hmax m Hm). specialize (Hmax' x Hin).
  rewrite String.compare_antisym in Hmax'.
  destruct (String.compare m x); cbn in *; congruence.
Qed.

Lemma greatest_None l : Sql.greatest l = None <-> l = [].
Proof.
  split; [|intros ->; reflexivity].
  pose proof (greatest_spec l) as H. destruct (Sql.greatest l); [discriminate|auto].
Qed.

Lemma plain_app a b : plain (a +:+ b) = plain a && plain b.
Proof.
  induction a as [|c a IH]; [reflexivity|].
  change (String c a +:+ b)%string with (String c (a +:+ b)).
  cbn [plain]. rewrite IH, andb_assoc. reflexivity.
Qed.

Lemma plain_zeros k : plain (Py.zeros k) = true.
Proof. induction k as [|k IH]; [reflexivity|]. cbn. exact IH. Qed.

Lemma plain_string_of_uint u : plain (NilEmpty.string_of_uint u) = true.
Proof. induction u; cbn; auto. Qed.

Lemma plain_str_of_nonneg n : plain (Py.str_of_nonneg n) = true.
Proof.
  unfold Py.str_of_nonneg, NilZero.string_of_uint.
  destruct (N.to_uint (Z.to_N n)); try reflexivity;
    cbn [NilEmpty.string_of_uint plain]; cbn; apply plain_string_of_uint.
Qed.

Lemma plain_format_0d w n : plain (Py.format_0d w n) = true.
Proof.
  unfold Py.format_0d, Py.zfill. destruct (n <? 0).
  - cbn [plain]. rewrite plain_app, plain_zeros, plain_str_of_nonneg. reflexivity.
  - rewrite plain_app, plain_zeros, plain_str_of_nonneg. reflexivity.
Qed.

Lemma plain_record_no_prefix now kind : plain (record_no_prefix now kind) = true.
Proof.
  unfold record_no_prefix, Py.strftime_Ymd.
  repeat case_match; rewrite !plain_app, !plain_format_0d; reflexivity.
Qed.

Lemma select_last_record_no_prefix now kind db :
  select_last_record_no (record_no_prefix now kind +:+ "%") (stock_record db)
  = Sql.greatest (numbers_with (record_no_prefix now kind) db).
Proof.
  unfold select_last_record_no, numbers_with. f_equal.
  apply filter_ext. intros s. apply like_prefix, plain_record_no_prefix.
Qed.

Lemma length_append a b :
  String.length (a +:+ b) = (String.length a + String.length b)%nat.
Proof.
  induction a as [|c a IH]; [reflexivity|].
  change (String c a +:+ b)%string with (String c (a +:+ b)). cbn. congruence.
Qed.

Lemma substring_all s : String.substring 0 (String.length s) s = s.
Proof. induction s as [|c s IH]; [reflexivity|]. cbn. congruence. Qed.

Lemma substring_append a b :
  String.substring (String.length a) (String.length b) (a +:+ b) = b.
Proof.
  induction a as [|c a IH]; [apply substring_all|].
  change (String c a +:+ b)%string with (String c (a +:+ b)). cbn. exact IH.
Qed.

Lemma len_append a b : Py.len (a +:+ b) = (Py.len a + Py.len b)%nat.
Proof.
  induction a as [|c a IH]; [reflexivity|].
  change (String c a +:+ b)%string with (String c (a +:+ b)). cbn [Py.len].
  destruct (Py.is_continuation c); [exact IH|]. rewrite IH. reflexivity.
Qed.

Lemma last4_append a b :
  Py.len b = 4%nat -> Py.last4 b = b -> Py.last4 (a +:+ b) = b.
Proof.
  intros Hb Hl. induction a as [|c a IH]; [exact Hl|].
  change (String c a +:+ b)%string with (String c (a +:+ b)).
  cbn [Py.last4 Py.len].
  destruct (Py.is_continuation c); cbn [orb]; [exact IH|].
  rewrite len_append, Hb.
  assert (H : (4 <? S (Py.len a + 4))%nat = true) by (apply Nat.ltb_lt; lia).
  rewrite H. exact IH.
Qed.

Lemma slice_checks_all : forallb slice_checks (seqZ 0 10000) = true.
Proof. vm_compute. reflexivity. Qed.

(** The last four characters of a text that ends in the rendering of a
    sequence number are that rendering. *)
Lemma last4_suffix a n :
  0 <= n <= 9999 -> Py.last4 (a +:+ Py.format_0d 4 n) = Py.format_0d 4 n.
Proof.
  intros Hn. pose proof slice_checks_all as H.
  rewrite forallb_forall in H. specialize (H n).
  assert (Hin : In n (seqZ 0 10000)).
  { apply list_elem_of_In, elem_of_seqZ. lia. }
  specialize (H Hin). unfold slice_checks in H.
  apply andb_prop in H as [H1 H2].
  apply last4_append; [apply Nat.eqb_eq, H1|apply String.eqb_eq, H2].
Qed.

Lemma compare_append p a b :
  String.compare (p +:+ a) (p +:+ b) = String.compare a b.
Proof.
  induction p as [|c p IH]; [reflexivity|].
  change (String c p +:+ a)%string with (String c (p +:+ a)).
  change (String c p +:+ b)%string with (String c (p +:+ b)).
  cbn. unfold Ascii.compare. rewrite N.compare_refl. exact IH.
Qed.

Lemma prefix_append p a : String.prefix p (p +:+ a) = true.
Proof.
  induction p as [|c p IH]; [destruct a; reflexivity|].
  change (String c p +:+ a)%string with (String c (p +:+ a)).
  change (String.prefix (String c p) (String c (p +:+ a)))
    with (if ascii_dec c c then String.prefix p (p +:+ a) else false).
  destruct (ascii_dec c c); [exact IH|contradiction].
Qed.

(** The two outcomes of [generate_record_no] on a ledger whose greatest
    number with the prefix ends in the rendering of a sequence number. *)
Lemma generate_record_no_next now kind db :
  let prefix := record_no_prefix now kind in
  (numbers_with prefix db = [] ->
   generate_record_no now kind db = (db, inr (prefix +:+ "0001"))) /\
  (forall last n,
     Sql.greatest (numbers_with prefix db) = Some last ->
     Py.last4 last = Py.format_0d 4 n -> 0 <= n <= 9999 ->
     generate_record_no now kind db = (db, inr (prefix +:+ Py.format_0d 4 (n + 1)))).
Proof.
  cbv zeta. unfold generate_record_no; run_monad.
  rewrite select_last_record_no_prefix. split.
  - intros ->. reflexivity.
  - intros last n -> -> Hn.
    destruct (suffix_facts n Hn) as (-> & _). reflexivity.
Qed.

Lemma generate_record_no_starts now kind db db' no :
  generate_record_no now kind db = (db', inr no) ->
  exists suffix, no = (record_no_prefix now kind +:+ suffix)%string.
Proof.
  unfold generate_record_no; run_monad.
  repeat case_match; intros [= _ <-]; eauto.
Qed.

Lemma record_no_prefix_kind now kind :
  kind = 1 \/ kind = 2 ->
  record_no_prefix now kind = kind_prefix kind (Py.strftime_Ymd now).
Proof. intros [-> | ->]; reflexivity. Qed.

Lemma numbers_with_app prefix db db' r no :
  stock_record db' = stock_record db ++ [r] ->
  StockRecord.record_no r = Some no ->
  numbers_with prefix db'
  = numbers_with prefix db ++ (if String.prefix prefix no then [no] else []).
Proof.
  intros Hs Hno. unfold numbers_with. rewrite Hs, omap_app, List.filter_app.
  cbn. rewrite Hno. cbn. reflexivity.
Qed.

Lemma post_failure op db db' e : post op db = (db', inl e) -> db' = db.
Proof.
  intros H. destruct (post_cases op db) as [(e' & H')|(? & ? & ? & ? & ? & ? & H' & _)];
    congruence.
Qed.

Lemma post_success_numbered date op db db' r' :
  auto_numbered_on date op ->
  post op db = (db', inr r') ->
  exists now k no,
    (k = 1 \/ k = 2) /\ Py.strftime_Ymd now = date /\
    StockRecord.record_type r' = Some k /\
    StockRecord.record_no r' = Some no /\
    generate_record_no now k db = (db, inr no) /\
    stock_record db' = stock_record db ++ [r'].
Proof.
  destruct op as [now r|now r]; cbn [post auto_numbered_on]; intros [Hd Hns] Hpost.
  - destruct (add_in_stock_cases now r db)
      as [(e & _ & H)|[(r1 & e & _ & _ & H)
                      |(r1 & r2 & t & w & p & q & db1 & Hprep & Htotal & H & Hc)]];
      [congruence|congruence|].
    rewrite Hpost in H. injection H as <- ->.
    apply prepare_inr in Hprep as (_ & Ha & _).
    apply assign_record_no_inr in Ha as (_ & Hrest).
    destruct Hrest as (_ & _ & _ & _ & _ & _ & _ & Hno).
    rewrite Hns in Hno. destruct Hno as (no & Hg & Hno).
    destruct Hc as (_ & _ & _ & _ & _ & _ & _ & Ht & Hs & _).
    pose proof (calculate_total_amount_fields _ _ _ Htotal) as (_ & Hn' & _).
    exists now, 1, no. repeat split; auto. cbn. congruence.
  - destruct (add_out_stock_cases now r db)
      as [(e & _ & H)|[(r1 & ? & ? & ? & _ & _ & _ & _ & _ & H)
                      |[(r1 & ? & ? & ? & ? & ? & _ & _ & _ & _ & _ & _ & _ & H)
                       |(r1 & r2 & t & w & p & q & e & db1 & Hprep & Htotal & _ & _ & H & Hc)]]];
      [congruence|congruence|congruence|].
    rewrite Hpost in H. injection H as <- ->.
    apply prepare_inr in Hprep as (_ & Ha & _).
    apply assign_record_no_inr in Ha as (_ & Hrest).
    destruct Hrest as (_ & _ & _ & _ & _ & _ & _ & Hno).
    rewrite Hns in Hno. destruct Hno as (no & Hg & Hno).
    destruct Hc as (_ & _ & _ & _ & _ & _ & _ & Ht & Hs & _).
    pose proof (calculate_total_amount_fields _ _ _ Htotal) as (_ & Hn' & _).
    exists now, 2, no. repeat split; auto. cbn. congruence.
Qed.

Lemma other_kind_prefix k k' date suffix :
  (k = 1 \/ k = 2) -> (k' = 1 \/ k' = 2) -> k <> k' ->
  String.prefix (kind_prefix k date) (kind_prefix k' date +:+ suffix) = false.
Proof. intros [-> | ->] [-> | ->] Hne; try contradiction; reflexivity. Qed.

Lemma numbered_next prefix db db' r' m :
  Z.of_nat m < 9999 ->
  numbered_up_to prefix db m ->
  stock_record db' = stock_record db ++ [r'] ->
  StockRecord.record_no r' = Some (prefix +:+ Py.format_0d 4 (Z.of_nat (S m)))%string ->
  numbered_up_to prefix db' (S m).
Proof.
  intros Hm Hnum Hs Hno. unfold numbered_up_to.
  rewrite (numbers_with_app _ _ _ _ _ Hs Hno), prefix_append.
  apply greatest_unique; [apply in_or_app; right; left; reflexivity|].
  intros s [Hin|[<-|[]]]%in_app_or; [|rewrite string_compare_refl; discriminate].
  destruct m as [|m']; [cbn in Hnum; rewrite Hnum in Hin; destruct Hin|].
  unfold numbered_up_to in Hnum.
  pose proof (greatest_spec (numbers_with prefix db)) as Hg. rewrite Hnum in Hg.
  destruct Hg as [_ Hmax]. specialize (Hmax s Hin).
  destruct (suffix_facts (Z.of_nat (S m'))) as (_ & _ & Hlt & _); [lia|].
  specialize (Hlt ltac:(lia)). unfold String.ltb in Hlt.
  replace (Z.of_nat (S m') + 1) with (Z.of_nat (S (S m'))) in Hlt by lia.
  destruct ordering_string as [Ha Ht].
  set (a := (prefix +:+ Py.format_0d 4 (Z.of_nat (S m')))%string) in *.
  set (b := (prefix +:+ Py.format_0d 4 (Z.of_nat (S (S m'))))%string) in *.
  assert (Hab : String.compare a b = Lt).
  { unfold a, b. rewrite compare_append. revert Hlt.
    destruct (String.compare (Py.format_0d 4 (Z.of_nat (S m')))
                (Py.format_0d 4 (Z.of_nat (S (S m'))))); congruence. }
  assert (H1 : String.compare b a <> Lt).
  { rewrite (Ha a b), Hab. discriminate. }
  assert (H2 : String.compare a s <> Lt).
  { rewrite (Ha s a). destruct (String.compare s a); cbn; congruence. }
  destruct (Ht b a s H1 H2) as [H3 _].
  rewrite (Ha b s). destruct (String.compare b s); cbn; congruence.
Qed.

Lemma post_numbering date kind op db m :
  kind = 1 \/ kind = 2 ->
  auto_numbered_on date op ->
  numbered_up_to (kind_prefix kind date) db m ->
  Z.of_nat m < 9999 ->
  match post op db with
  | (db', inl _) => db' = db
  | (db', inr r') =>
      if of_kind kind r'
      then StockRecord.record_no r'
           = Some (kind_prefix kind date +:+ Py.format_0d 4 (Z.of_nat (S m)))%string
           /\ numbered_up_to (kind_prefix kind date) db' (S m)
      else numbered_up_to (kind_prefix kind date) db' m
  end.
Proof.
  intros Hk Hauto Hnum Hm.
  destruct (post op db) as [db' [e|r']] eqn:Hpost.
  { exact (post_failure _ _ _ _ Hpost). }
  destruct (post_success_numbered _ _ _ _ _ Hauto Hpost)
    as (now & k & no & Hk' & Hd & Ht & Hno & Hg & Hs).
  unfold of_kind. rewrite Ht. cbn [Sql.eq_Z].
  destruct (Z.eqb_spec k kind) as [->|Hne].
  - (* a number of this kind *)
    assert (no = (kind_prefix kind date +:+ Py.format_0d 4 (Z.of_nat (S m)))%string)
      as ->.
    { destruct (generate_record_no_next now kind db) as [H0 Hn].
      rewrite (record_no_prefix_kind now kind Hk), Hd in H0, Hn.
      destruct m as [|m'].
      - rewrite (H0 Hnum) in Hg. injection Hg as <-. reflexivity.
      - unfold numbered_up_to in Hnum.
        rewrite (Hn _ (Z.of_nat (S m')) Hnum (last4_suffix _ (Z.of_nat (S m')) ltac:(lia))) in Hg
          by lia.
        replace (Z.of_nat (S (S m'))) with (Z.of_nat (S m') + 1) by lia.
        congruence. }
    split; [exact Hno|]. exact (numbered_next _ _ _ _ _ Hm Hnum Hs Hno).
  - (* a number of the other kind *)
    destruct (generate_record_no_starts _ _ _ _ _ Hg) as [suffix ->].
    rewrite (record_no_prefix_kind now k Hk'), Hd in Hno.
    assert (Hsame : numbers_with (kind_prefix kind date) db'
                    = numbers_with (kind_prefix kind date) db).
    { rewrite (numbers_with_app _ _ _ _ _ Hs Hno).
      rewrite (other_kind_prefix kind k date suffix Hk Hk') by congruence.
      apply app_nil_r. }
    unfold numbered_up_to. rewrite Hsame. exact Hnum.
Qed.

Lemma run_numbering date kind ops : forall db m,
  kind = 1 \/ kind = 2 ->
  Forall (auto_numbered_on date) ops ->
  numbered_up_to (kind_prefix kind date) db m ->
  Z.of_nat (m + length ops) <= 9999 ->
  let posted := List.filter (of_kind kind) (snd (run ops db)) in
  map StockRecord.record_no posted
  = map (fun i : nat => Some (kind_prefix kind date +:+ Py.format_0d 4 (Z.of_nat i))%string)
      (seq (S m) (length posted)).
Proof.
  induction ops as [|op ops IH]; intros db m Hk Hall Hnum Hlen; [reflexivity|].
  apply Forall_cons in Hall as [Hop Hall]. cbn [length] in Hlen.
  pose proof (post_numbering date kind op db m Hk Hop Hnum ltac:(lia)) as Hstep.
  cbn [run]. destruct (post op db) as [db' [e|r']].
  - subst db'. apply IH; auto. lia.
  - pose proof (IH db') as IH'.
    destruct (run ops db') as [db'' rs]. cbn [snd] in *. cbn [List.filter].
    destruct (of_kind kind r').
    + destruct Hstep as [Hno Hnum']. cbn [map length seq]. rewrite Hno. f_equal.
      apply (IH' (S m)); auto. lia.
    + apply (IH' m); auto. lia.
Qed.

Lemma strftime_length now : valid_date now -> String.length (Py.strftime_Ymd now) = 8%nat.
Proof.
  intros (Hy & Hm & Hd). unfold Py.strftime_Ymd. rewrite !length_append.
  destruct (suffix_facts (Py.year now)) as (_ & -> & _); [lia|].
  destruct (suffix_facts (Py.month now)) as (_ & _ & _ & H1); [lia|].
  destruct (suffix_facts (Py.day now)) as (_ & _ & _ & H2); [lia|].
  rewrite Z.mod_small in H1, H2 by lia. rewrite H1, H2. reflexivity.
Qed.

(** C7.  For an inbound or outbound kind, the prefix is the two-letter
    code followed by the date in eight digits.  When no number of the
    ledger starts with the prefix, [generate_record_no] returns the
    prefix followed by 0001; when the greatest such number ends in the
    four digits of [n], it returns the prefix followed by [n + 1] padded
    to four digits.  Consequently, from a ledger without numbers for the
    prefix, the records of that kind committed by at most 9999 requests
    posted one after the other on that day without a number of their own
    carry the suffixes 0001, 0002, ... in order and without gap. *)
Theorem generated_document_numbers (now : Py.datetime) (kind : Z) (db : DB) :
  kind = 1 \/ kind = 2 ->
  let prefix := kind_prefix kind (Py.strftime_Ymd now) in
  (valid_date now -> String.length prefix = 10%nat) /\
  (numbers_with prefix db = [] ->
   generate_record_no now kind db = (db, inr (prefix +:+ "0001"))) /\
  (forall last n,
     Sql.greatest (numbers_with prefix db) = Some last ->
     Py.last4 last = Py.format_0d 4 n -> 0 <= n <= 9999 ->
     generate_record_no now kind db
     = (db, inr (prefix +:+ Py.format_0d 4 (n + 1)))) /\
  (forall ops,
     numbers_with prefix db = [] ->
     Z.of_nat (length ops) <= 9999 ->
     Forall (auto_numbered_on (Py.strftime_Ymd now)) ops ->
     let posted := List.filter (of_kind kind) (snd (run ops db)) in
     map StockRecord.record_no posted
     = map (fun i : nat => Some (prefix +:+ Py.format_0d 4 (Z.of_nat i)))
         (seq 1 (length posted))).
Proof.
  intros Hk. cbv zeta.
  destruct (generate_record_no_next now kind db) as [H0 Hn].
  rewrite (record_no_prefix_kind now kind Hk) in H0, Hn.
  split; [|split; [exact H0|split; [exact Hn|]]].
  - intros Hv. unfold kind_prefix. rewrite length_append, (strftime_length now Hv).
    destruct Hk as [-> | ->]; reflexivity.
  - intros ops Hnone Hlen Hall.
    apply (run_numbering (Py.strftime_Ymd now) kind ops db 0%nat Hk Hall Hnone).
    cbn. lia.
Qed.

Lemma generated_document_numbers_witness :
  let prefix := kind_prefix 1 (Py.strftime_Ymd Example.now) in
  (valid_date Example.now -> String.length prefix = 10%nat) /\
  (numbers_with prefix Example.db = [] ->
   generate_record_no Example.now 1 Example.db
   = (Example.db, inr (prefix +:+ "0001"))) /\
  (forall last n,
     Sql.greatest (numbers_with prefix Example.db) = Some last ->
     Py.last4 last = Py.format_0d 4 n -> 0 <= n <= 9999 ->
     generate_record_no Example.now 1 Example.db
     = (Example.db, inr (prefix +:+ Py.format_0d 4 (n + 1)))) /\
  (forall ops,
     numbers_with prefix Example.db = [] ->
     Z.of_nat (length ops) <= 9999 ->
     Forall (auto_numbered_on (Py.strftime_Ymd Example.now)) ops ->
     let posted := List.filter (of_kind 1) (snd (run ops Example.db)) in
     map StockRecord.record_no posted
     = map (fun i : nat => Some (prefix +:+ Py.format_0d 4 (Z.of_nat i)))
         (seq 1 (length posted))).
Proof.
  apply (generated_document_numbers Example.now 1 Example.db).
  left. reflexivity.
Defined.

Example numbers_of_a_day :
  map StockRecord.record_no
    (snd (run [InStock Example.now (Example.entry None 1 1 10 None);
               OutStock Example.now (Example.entry None 1 1 4 None);
               InStock Example.now (Example.entry None 2 1 10 None);
               InStock Example.now (Example.entry None 1 1 10 None);
               OutStock Example.now (Example.entry None 1 1 4 None)]
            Example.db))
  = [Some "RK202501230001"%string; Some "CK202501230001"%string;
     Some "RK202501230002"%string; Some "CK202501230002"%string].
Proof. vm_compute. reflexivity. Qed.

(** The sequence number is read from the last four characters, in
    whatever script their digits are: after a number ending in the
    full-width digits 1234 (U+FF11..U+FF14, three bytes each) comes
    1235. *)
Example full_width_suffix :
  let wide d := String (ascii_of_nat 239) (String (ascii_of_nat 188)
                  (String (ascii_of_nat (144 + d)%nat) EmptyString)) in
  let last := ("RK20250123" +:+ wide 1%nat +:+ wide 2%nat +:+ wide 3%nat
               +:+ wide 4%nat)%string in
  generate_record_no Example.now 1
    (mk_DB [Example.entry (Some last) 1 1 1 None] 2 [] 1
       (warehouse Example.db) (product Example.db))
  = (mk_DB [Example.entry (Some last) 1 1 1 None] 2 [] 1
       (warehouse Example.db) (product Example.db),
     inr "RK202501231235"%string).
Proof. vm_compute. reflexivity. Qed.

(** C10.  [generate_record_no] checks no upper bound.  When the greatest
    number with the prefix ends in the four digits of [n]: for [n] below
    9999 the result is the prefix and four digits, 14 characters in all;
    for [n = 9999] it is the prefix followed by 10000, 15 characters,
    and no error.  That number sorts below the one ending in 9999, so
    once it is in the ledger the greatest number is still the old one
    and the next call returns the same number again. *)
Theorem sequence_overflow (now : Py.datetime) (kind : Z) (db : DB) (last : string)
    (n : Z) :
  kind = 1 \/ kind = 2 ->
  valid_date now ->
  let prefix := kind_prefix kind (Py.strftime_Ymd now) in
  Sql.greatest (numbers_with prefix db) = Some last ->
  Py.last4 last = Py.format_0d 4 n ->
  0 <= n <= 9999 ->
  generate_record_no now kind db = (db, inr (prefix +:+ Py.format_0d 4 (n + 1))) /\
  (n < 9999 ->
   String.length (Py.format_0d 4 (n + 1)) = 4%nat /\
   String.length (prefix +:+ Py.format_0d 4 (n + 1)) = 14%nat) /\
  (n = 9999 ->
   Py.format_0d 4 (n + 1) = "10000"%string /\
   String.length (prefix +:+ Py.format_0d 4 (n + 1)) = 15%nat /\
   forall db' r',
     last = (prefix +:+ "9999")%string ->
     stock_record db' = stock_record db ++ [r'] ->
     StockRecord.record_no r' = Some (prefix +:+ "10000")%string ->
     Sql.greatest (numbers_with prefix db') = Some last /\
     generate_record_no now kind db' = (db', inr (prefix +:+ "10000"))).
Proof.
  intros Hk Hv. cbv zeta. intros Hlast H4 Hn.
  destruct (generate_record_no_next now kind db) as [_ Hnext].
  rewrite (record_no_prefix_kind now kind Hk) in Hnext.
  assert (Hplen : String.length (kind_prefix kind (Py.strftime_Ymd now)) = 10%nat).
  { unfold kind_prefix. rewrite length_append, (strftime_length now Hv).
    destruct Hk as [-> | ->]; reflexivity. }
  split; [exact (Hnext last n Hlast H4 Hn)|]. split.
  - intros Hlt. destruct (suffix_facts (n + 1)) as (_ & Hlen & _); [lia|].
    rewrite length_append, Hplen, Hlen. auto.
  - intros ->. split; [reflexivity|]. split.
    { rewrite length_append, Hplen. reflexivity. }
    intros db' r' -> Hs Hno.
    assert (Hg : Sql.greatest (numbers_with (kind_prefix kind (Py.strftime_Ymd now)) db')
                 = Some (kind_prefix kind (Py.strftime_Ymd now) +:+ "9999")%string).
    { rewrite (numbers_with_app _ _ _ _ _ Hs Hno), prefix_append.
      pose proof (greatest_spec (numbers_with (kind_prefix kind (Py.strftime_Ymd now)) db))
        as Hspec.
      rewrite Hlast in Hspec. destruct Hspec as [Hin Hmax].
      apply greatest_unique; [apply in_or_app; left; exact Hin|].
      intros s [Hs'|[<-|[]]]%in_app_or; [auto|].
      rewrite compare_append. discriminate. }
    split; [exact Hg|].
    destruct (generate_record_no_next now kind db') as [_ Hnext'].
    rewrite (record_no_prefix_kind now kind Hk) in Hnext'.
    apply (Hnext' _ 9999 Hg); [|lia].
    apply (last4_suffix _ 9999). lia.
Qed.


Lemma sequence_overflow_witness :
  let prefix := kind_prefix 1 (Py.strftime_Ymd Example.now) in
  generate_record_no Example.now 1 full_day
  = (full_day, inr (prefix +:+ Py.format_0d 4 (9999 + 1))) /\
  (9999 < 9999 ->
   String.length (Py.format_0d 4 (9999 + 1)) = 4%nat /\
   String.length (prefix +:+ Py.format_0d 4 (9999 + 1)) = 14%nat) /\
  (9999 = 9999 ->
   Py.format_0d 4 (9999 + 1) = "10000"%string /\
   String.length (prefix +:+ Py.format_0d 4 (9999 + 1)) = 15%nat /\
   forall db' r',
     "RK202501239999"%string = (prefix +:+ "9999")%string ->
     stock_record db' = stock_record full_day ++ [r'] ->
     StockRecord.record_no r' = Some (prefix +:+ "10000")%string ->
     Sql.greatest (numbers_with prefix db') = Some "RK202501239999"%string /\
     generate_record_no Example.now 1 db' = (db', inr (prefix +:+ "10000"))).
Proof.
  apply (sequence_overflow Example.now 1 full_day "RK202501239999" 9999).
  - left. reflexivity.
  - unfold valid_date. cbn. lia.
  - vm_compute. reflexivity.
  - reflexivity.
  - lia.
Defined.

Example duplicate_after_9999 :
  map StockRecord.record_no
    (snd (run [InStock Example.now (Example.entry None 1 1 1 None);
               InStock Example.now (Example.entry None 1 1 1 None)]
            full_day))
  = [Some "RK2025012310000"%string; Some "RK2025012310000"%string].
Proof. vm_compute. reflexivity. Qed.

Lemma calculate_total_amount_helper r :
  StockRecord.calculate_total_amount r
  = match StockServiceRest.calculate_total_amount (StockRecord.quantity r)
            (StockRecord.unit_price r) with
    | inl e => inl e
    | inr total =>
        inr (if priced r then StockRecord.set_total_amount (Some total) r else r,
             total)
    end.
Proof.
  unfold StockRecord.calculate_total_amount, StockServiceRest.calculate_total_amount,
    priced.
  destruct (StockRecord.quantity r) as [q|]; [|reflexivity].
  destruct (StockRecord.unit_price r) as [u|]; [|reflexivity].
  destruct (negb (q =? 0) && Py.Decimal_bool u); [|reflexivity].
  destruct (Py.Decimal_mul _ u); reflexivity.
Qed.

Lemma Decimal_fix_inl s c e err : Py.Decimal_fix s c e = inl err -> err = DecimalOverflow.
Proof.
  unfold Py.Decimal_fix. repeat case_match; intros [= <-]; reflexivity.
Qed.

(** With a finite price, or none, the total can only fail by overflow. *)
Lemma total_of_finite_price q u err :
  finite_price u ->
  StockServiceRest.calculate_total_amount q u = inl err -> err = DecimalOverflow.
Proof.
  unfold StockServiceRest.calculate_total_amount, finite_price.
  destruct q as [q|]; [|discriminate]. destruct u as [u|]; [|discriminate].
  intros (s & c & e & [= ->]).
  destruct (negb (q =? 0) && _); [|discriminate].
  unfold Py.Decimal_of_int, Py.Decimal_mul. apply Decimal_fix_inl.
Qed.

Lemma prepare_keeps_price now kind r db r1 :
  prepare now kind r db = (db, inr r1) ->
  StockRecord.unit_price r1 = StockRecord.unit_price r.
Proof.
  intros Hprep. apply prepare_inr in Hprep as (_ & Ha & _).
  apply assign_record_no_inr in Ha as (_ & _ & _ & _ & _ & Hu & _). exact Hu.
Qed.

(** X1.  An inbound request with a finite unit price, or none, that the
    checks accept is committed unless its total overflows: when the
    product of quantity and price can be computed the ledger grows by
    the returned record, and when it cannot, the operation ends with the
    overflow of the [decimal] module and the store is as it was. *)
Theorem accepted_inbound_commits (now : Py.datetime) (r : StockRecord.t) (db : DB) :
  accepted now 1 r db ->
  finite_price (StockRecord.unit_price r) ->
  match StockServiceRest.calculate_total_amount (StockRecord.quantity r)
          (StockRecord.unit_price r) with
  | inr _ =>
      exists db' r',
        add_in_stock now r db = (db', inr r') /\
        stock_record db' = stock_record db ++ [r']
  | inl e => e = DecimalOverflow /\ add_in_stock now r db = (db, inl e)
  end.
Proof.
  intros [r0 Hr0] Hfin.
  destruct (add_in_stock_cases now r db)
    as [(e & He & _)|[(r1 & e & Hprep & Htotal & H)
                     |(r1 & r2 & t & w & p & q & db' & Hprep & Htotal & H & Hc)]];
    [congruence|..];
    pose proof (prepare_keeps _ _ _ _ _ Hprep) as (_ & _ & Hq);
    pose proof (prepare_keeps_price _ _ _ _ _ Hprep) as Hu;
    rewrite calculate_total_amount_helper, Hq, Hu in Htotal.
  - destruct (StockServiceRest.calculate_total_amount _ _) as [e'|t] eqn:Hh;
      [|discriminate].
    injection Htotal as ->. split; [|exact H].
    exact (total_of_finite_price _ _ _ Hfin Hh).
  - destruct (StockServiceRest.calculate_total_amount _ _) as [e'|t'];
      [discriminate|].
    eexists db', _. split; [exact H|].
    destruct Hc as (_ & _ & _ & _ & _ & _ & _ & _ & Hs & _). exact Hs.
Qed.

Lemma accepted_inbound_commits_witness :
  match StockServiceRest.calculate_total_amount
          (StockRecord.quantity (Example.entry None 1 1 100 (Some (Py.Finite false 500 (-2)))))
          (StockRecord.unit_price (Example.entry None 1 1 100 (Some (Py.Finite false 500 (-2)))))
  with
  | inr _ =>
      exists db' r',
        add_in_stock Example.now
          (Example.entry None 1 1 100 (Some (Py.Finite false 500 (-2)))) Example.db
        = (db', inr r') /\
        stock_record db' = stock_record Example.db ++ [r']
  | inl e =>
      e = DecimalOverflow /\
      add_in_stock Example.now
        (Example.entry None 1 1 100 (Some (Py.Finite false 500 (-2)))) Example.db
      = (Example.db, inl e)
  end.
Proof.
  apply (accepted_inbound_commits Example.now
           (Example.entry None 1 1 100 (Some (Py.Finite false 500 (-2)))) Example.db).
  - eexists. vm_compute. reflexivity.
  - exists false, 500%N, (-2). reflexivity.
Defined.

(** A price that passes the validation and overflows the total. *)
Example overflowing_total :
  add_in_stock Example.now
    (Example.entry None 1 1 10 (Some (Py.Finite false 1 999999))) Example.db
  = (Example.db, inl DecimalOverflow).
Proof. vm_compute. reflexivity. Qed.

(** X2.  For a request with a finite unit price, or none,
    [add_out_stock] commits exactly when the request is accepted by the
    checks, the pair has a row that holds at least the quantity asked
    for, and the total can be computed. *)
Theorem outbound_commits_iff (now : Py.datetime) (r : StockRecord.t) (db : DB) :
  finite_price (StockRecord.unit_price r) ->
  (exists db' r', add_out_stock now r db = (db', inr r'))
  <-> (accepted now 2 r db /\
       (exists w p q e,
          StockRecord.warehouse_id r = Some w /\
          StockRecord.product_id r = Some p /\
          StockRecord.quantity r = Some q /\
          InventoryDAO.select (Some w) (Some p) (inventory db) = Some e /\
          q <= Inventory.quantity e) /\
       exists total,
         StockServiceRest.calculate_total_amount (StockRecord.quantity r)
           (StockRecord.unit_price r) = inr total).
Proof.
  intros _. split.
  - intros (db' & r' & H).
    destruct (add_out_stock_cases now r db)
      as [(e & _ & H')|[(r1 & ? & ? & ? & _ & _ & _ & _ & _ & H')
                       |[(r1 & ? & ? & ? & ? & ? & _ & _ & _ & _ & _ & _ & _ & H')
                        |(r1 & r2 & t & w & p & q & e & db1 & Hprep & Htotal & He & Hle
                          & _ & Hc)]]];
      [congruence|congruence|congruence|].
    split; [exists r1; exact Hprep|].
    pose proof (prepare_keeps _ _ _ _ _ Hprep) as (Hw1 & Hp1 & Hq1).
    pose proof (prepare_keeps_price _ _ _ _ _ Hprep) as Hu1.
    destruct Hc as (_ & Hw3 & _ & Hp3 & _ & Hq3 & _). cbn in Hw3, Hp3, Hq3.
    pose proof (calculate_total_amount_fields _ _ _ Htotal)
      as (_ & _ & _ & Hw4 & Hp4 & Hq4 & _).
    split.
    + exists w, p, q, e. repeat split; congruence.
    + rewrite calculate_total_amount_helper, Hq1, Hu1 in Htotal.
      destruct (StockServiceRest.calculate_total_amount _ _) as [e'|t'];
        [discriminate|eauto].
  - intros ([r0 Hr0] & (w & p & q & e & Hw & Hp & Hq & He & Hle) & total & Htot).
    destruct (add_out_stock_cases now r db)
      as [(e' & He' & _)|[(r2 & w' & p' & q' & Hprep & Hw' & Hp' & Hq' & Hlt & _)
                         |[(r2 & w' & p' & q' & e' & err & Hprep & _ & _ & _ & _ & _
                            & Htotal & _)
                          |(r2 & ? & ? & ? & ? & ? & ? & db1 & _ & _ & _ & _ & H & _)]]].
    + congruence.
    + exfalso. apply prepare_keeps in Hprep as (Hw1 & Hp1 & Hq1).
      assert (w' = w) as -> by congruence.
      assert (p' = p) as -> by congruence.
      assert (q' = q) as -> by congruence.
      rewrite He in Hlt. lia.
    + exfalso.
      pose proof (prepare_keeps _ _ _ _ _ Hprep) as (_ & _ & Hq1).
      pose proof (prepare_keeps_price _ _ _ _ _ Hprep) as Hu1.
      rewrite calculate_total_amount_helper, Hq1, Hu1, Htot in Htotal. discriminate.
    + eauto.
Qed.

Lemma outbound_commits_iff_witness :
  let r := Example.entry None 1 1 30 (Some (Py.Finite false 500 (-2))) in
  (exists db' r', add_out_stock Example.now r stocked = (db', inr r'))
  <-> (accepted Example.now 2 r stocked /\
       (exists w p q e,
          StockRecord.warehouse_id r = Some w /\
          StockRecord.product_id r = Some p /\
          StockRecord.quantity r = Some q /\
          InventoryDAO.select (Some w) (Some p) (inventory stocked) = Some e /\
          q <= Inventory.quantity e) /\
       exists total,
         StockServiceRest.calculate_total_amount (StockRecord.quantity r)
           (StockRecord.unit_price r) = inr total).
Proof.
  intros r. apply (outbound_commits_iff Example.now r stocked).
  exists false, 500%N, (-2). reflexivity.
Defined.

(** X3.  A posting that fails leaves the store exactly as it was: no
    ledger row, no balance change, no counter moved. *)
Theorem failed_posting_changes_nothing (op : request) (db db' : DB) (e : exn) :
  post op db = (db', inl e) -> db' = db.
Proof.
  intros H.
  destruct (post_cases op db) as [(e' & H')|(? & ? & ? & ? & ? & ? & H' & _)];
    congruence.
Qed.

Lemma failed_posting_changes_nothing_witness :
  fst (post (OutStock Example.now (Example.entry None 1 1 71 None)) stocked) = stocked.
Proof.
  apply (failed_posting_changes_nothing
           (OutStock Example.now (Example.entry None 1 1 71 None)) stocked _
           (StockInsufficient 70 (Some 71))).
  vm_compute. reflexivity.
Defined.

(** X5.  The method [calculate_total_amount] of a record against the
    helper of the service on its quantity and unit price: both raise
    the same error or return the same value; the method stores the
    value in the record exactly when quantity and unit price are both
    truthy, and otherwise leaves the record as it is, the value being
    zero. *)
Theorem calculate_total_amount_agree (r : StockRecord.t) :
  StockRecord.calculate_total_amount r
  = match StockServiceRest.calculate_total_amount (StockRecord.quantity r)
            (StockRecord.unit_price r) with
    | inl e => inl e
    | inr total =>
        inr (if priced r then StockRecord.set_total_amount (Some total) r else r,
             total)
    end /\
  (priced r = false ->
   StockServiceRest.calculate_total_amount (StockRecord.quantity r)
     (StockRecord.unit_price r) = inr Py.Decimal_zero) /\
  (priced r = true <->
   exists q u, StockRecord.quantity r = Some q /\ q <> 0 /\
               StockRecord.unit_price r = Some u /\
               forall s e, u <> Py.Finite s 0 e).
Proof.
  split; [apply calculate_total_amount_helper|]. split.
  - unfold priced, StockServiceRest.calculate_total_amount.
    destruct (StockRecord.quantity r) as [q|]; [|reflexivity].
    destruct (StockRecord.unit_price r) as [u|]; [|reflexivity].
    intros ->. reflexivity.
  - unfold priced.
    destruct (StockRecord.quantity r) as [q|];
      [|split; [discriminate|intros (? & ? & [=] & _)]].
    destruct (StockRecord.unit_price r) as [u|];
      [|split; [discriminate|intros (? & ? & _ & _ & [=] & _)]].
    rewrite andb_true_iff, negb_true_iff, Z.eqb_neq. split.
    + intros [Hq Hu]. exists q, u. repeat split; auto.
      intros s e ->. cbn in Hu. discriminate.
    + intros (q' & u' & [= <-] & Hq & [= <-] & Hu). split; [exact Hq|].
      destruct u as [s c e| | |]; try reflexivity. cbn.
      destruct (N.eqb_spec c 0) as [->|]; [|reflexivity].
      exfalso. exact (Hu s e eq_refl).
Qed.

Lemma digits_upto_spec fuel : forall c,
  Z.of_N c < 2 ^ Z.of_nat fuel -> (0 < c)%N ->
  1 <= Py.digits_upto fuel c /\
  10 ^ (Py.digits_upto fuel c - 1) <= Z.of_N c < 10 ^ Py.digits_upto fuel c.
Proof.
  induction fuel as [|fuel IH]; intros c Hlt Hpos.
  - cbn in Hlt. lia.
  - cbn [Py.digits_upto]. destruct (N.ltb_spec c 10) as [Hc|Hc].
    + cbn. lia.
    + assert (Hdiv : Z.of_N (c / 10) = Z.of_N c / 10) by apply N2Z.inj_div.
      assert (Hq : 1 <= Z.of_N c / 10).
      { apply Z.div_le_lower_bound; lia. }
      assert (Hlt' : Z.of_N (c / 10) < 2 ^ Z.of_nat fuel).
      { rewrite Hdiv. apply Z.div_lt_upper_bound; [lia|].
        rewrite Nat2Z.inj_succ, Z.pow_succ_r in Hlt by lia.
        assert (0 < 2 ^ Z.of_nat fuel) by (apply Z.pow_pos_nonneg; lia). lia. }
      destruct (IH (c / 10)%N Hlt' ltac:(lia)) as (H1 & H2 & H3).
      set (r := Py.digits_upto fuel (c / 10)) in *.
      split; [lia|].
      replace (1 + r - 1) with (Z.succ (r - 1)) by lia.
      replace (1 + r) with (Z.succ r) by lia.
      rewrite !Z.pow_succ_r by lia.
      rewrite Hdiv in H2, H3.
      pose proof (Z.div_mod (Z.of_N c) 10 ltac:(lia)) as Hdm.
      pose proof (Z.mod_pos_bound (Z.of_N c) 10 ltac:(lia)) as Hm.
      lia.
Qed.

Lemma digits_spec c :
  (0 < c)%N ->
  1 <= Py.digits c /\ 10 ^ (Py.digits c - 1) <= Z.of_N c < 10 ^ Py.digits c.
Proof.
  intros Hpos. unfold Py.digits. apply digits_upto_spec; [|exact Hpos].
  destruct (N.log2_spec c Hpos) as [_ H].
  rewrite Nat2Z.inj_succ, N_nat_Z.
  apply N2Z.inj_lt in H. rewrite N2Z.inj_pow, N2Z.inj_succ in H. exact H.
Qed.

Lemma digits_le c k :
  (0 < c)%N -> 0 <= k -> Z.of_N c < 10 ^ k -> Py.digits c <= k.
Proof.
  intros Hpos Hk Hlt. destruct (digits_spec c Hpos) as (H1 & H2 & _).
  destruct (Z.le_gt_cases (Py.digits c) k) as [|Hgt]; [assumption|exfalso].
  assert (10 ^ k <= 10 ^ (Py.digits c - 1)) by (apply Z.pow_le_mono_r; lia).
  lia.
Qed.

(** A result of at most [prec] digits whose exponent is in range is
    left as it is. *)
Lemma Decimal_fix_exact s c e :
  (0 < c)%N -> Z.of_N c < 10 ^ Py.prec -> Py.Etiny <= e <= Py.Etop ->
  Py.Decimal_fix s c e = inr (Py.Finite s c e).
Proof.
  intros Hpos Hlt He. unfold Py.Decimal_fix.
  destruct (N.eqb_spec c 0); [lia|].
  pose proof (digits_le c Py.prec Hpos ltac:(unfold Py.prec; lia) Hlt) as Hd.
  destruct (Z.ltb_spec Py.Etop (Py.digits c + e - Py.prec)); [lia|].
  destruct (Z.ltb_spec e (Z.max (Py.digits c + e - Py.prec) Py.Etiny)); [lia|].
  reflexivity.
Qed.

Lemma total_exact q s c e total :
  0 < q -> c <> 0%N ->
  q * Z.of_N c < 10 ^ Py.prec -> Py.Etiny <= e <= Py.Etop ->
  Py.Decimal_mul (Py.Decimal_of_int q) (Py.Finite s c e) = inr total ->
  total = Py.Finite s (Z.to_N q * c) e.
Proof.
  intros Hq Hc Hlt He. unfold Py.Decimal_mul, Py.Decimal_of_int.
  destruct (Z.ltb_spec q 0); [lia|]. cbn [xorb].
  replace (Z.abs_N q) with (Z.to_N q) by (destruct q; [reflexivity|reflexivity|lia]).
  rewrite Z.add_0_l, Decimal_fix_exact; [congruence|lia| |exact He].
  rewrite N2Z.inj_mul, Z2N.id by lia. exact Hlt.
Qed.

(** X4.  The total stored with a committed movement: when the request
    has a unit price other than zero, the product of quantity and price
    as the [decimal] module computes it, which is the exact product
    when that has at most 28 digits and an exponent within the range of
    the context, and its rounding to 28 digits otherwise; when the unit
    price is missing or zero, the total the caller put into the request,
    whatever it is. *)
Theorem stored_total_amount (op : request) (db db' : DB) (r' : StockRecord.t) :
  post op db = (db', inr r') ->
  exists q,
    StockRecord.quantity (record_of op) = Some q /\ 0 < q /\
    StockRecord.unit_price r' = StockRecord.unit_price (record_of op) /\
    match StockRecord.unit_price (record_of op) with
    | Some u =>
        if Py.Decimal_bool u
        then exists total,
               Py.Decimal_mul (Py.Decimal_of_int q) u = inr total /\
               StockRecord.total_amount r' = Some total /\
               (forall s c e,
                  u = Py.Finite s c e ->
                  q * Z.of_N c < 10 ^ Py.prec -> Py.Etiny <= e <= Py.Etop ->
                  total = Py.Finite s (Z.to_N q * c) e)
        else StockRecord.total_amount r' = StockRecord.total_amount (record_of op)
    | None => StockRecord.total_amount r' = StockRecord.total_amount (record_of op)
    end.
Proof.
  intros Hpost.
  assert (H : exists r1 r2 t kind,
            prepare (time_of op) kind (record_of op) db = (db, inr r1) /\
            StockRecord.calculate_total_amount r1 = inr (r2, t) /\
            r' = StockRecord.set_id (Some (stock_record_auto_increment db)) r2).
  { destruct op as [now r|now r]; cbn [post record_of time_of] in *.
    - destruct (add_in_stock_cases now r db)
        as [(e & _ & H)|[(r1 & e & _ & _ & H)
                        |(r1 & r2 & t & ? & ? & ? & ? & Hprep & Htotal & H & _)]];
        [congruence|congruence|].
      exists r1, r2, t, 1. split; [exact Hprep|]. split; [exact Htotal|congruence].
    - destruct (add_out_stock_cases now r db)
        as [(e & _ & H)|[(r1 & ? & ? & ? & _ & _ & _ & _ & _ & H)
                        |[(r1 & ? & ? & ? & ? & ? & _ & _ & _ & _ & _ & _ & _ & H)
                         |(r1 & r2 & t & ? & ? & ? & ? & ? & Hprep & Htotal & _ & _ & H & _)]]];
        [congruence|congruence|congruence|].
      exists r1, r2, t, 2. split; [exact Hprep|]. split; [exact Htotal|congruence]. }
  destruct H as (r1 & r2 & t & kind & Hprep & Htotal & ->).
  apply prepare_inr in Hprep as (_ & Ha & Hv & _).
  apply validate_stock_record_true in Hv
    as (w & p & q & d & _ & _ & _ & _ & Hq & Hq0 & _).
  apply assign_record_no_inr in Ha as (_ & _ & _ & _ & Hq1 & Hu1 & Ht1 & _).
  exists q. split; [congruence|]. split; [exact Hq0|].
  revert Htotal. unfold StockRecord.calculate_total_amount. rewrite Hq, Hu1.
  rewrite <- Ht1.
  destruct (StockRecord.unit_price (record_of op)) as [u|] eqn:Hu;
    [|intros [= <- _]; cbn; rewrite Hu1; auto].
  destruct (Z.eqb_spec q 0); [lia|]. cbn [negb andb].
  destruct (Py.Decimal_bool u) eqn:Hb.
  - destruct (Py.Decimal_mul (Py.Decimal_of_int q) u) as [e|total] eqn:Hmul;
      [discriminate|].
    intros [= <- _]. cbn. rewrite Hu1. split; [reflexivity|].
    exists total. split; [reflexivity|]. split; [reflexivity|].
    intros s c e -> Hlt He. apply (total_exact q s c e total Hq0); auto.
    intros ->. discriminate Hb.
  - intros [= <- _]. cbn. rewrite Hu1. auto.
Qed.

Lemma stored_total_amount_witness :
  let op := InStock Example.now
              (Example.entry None 1 1 100 (Some (Py.Finite false 500 (-2)))) in
  let r' := match snd (post op Example.db) with
            | inr r' => r'
            | inl _ => record_of op
            end in
  exists q,
    StockRecord.quantity (record_of op) = Some q /\ 0 < q /\
    StockRecord.unit_price r' = StockRecord.unit_price (record_of op) /\
    match StockRecord.unit_price (record_of op) with
    | Some u =>
        if Py.Decimal_bool u
        then exists total,
               Py.Decimal_mul (Py.Decimal_of_int q) u = inr total /\
               StockRecord.total_amount r' = Some total /\
               (forall s c e,
                  u = Py.Finite s c e ->
                  q * Z.of_N c < 10 ^ Py.prec -> Py.Etiny <= e <= Py.Etop ->
                  total = Py.Finite s (Z.to_N q * c) e)
        else StockRecord.total_amount r' = StockRecord.total_amount (record_of op)
    | None => StockRecord.total_amount r' = StockRecord.total_amount (record_of op)
    end.
Proof.
  intros op r'.
  apply (stored_total_amount op Example.db (fst (post op Example.db))).
  vm_compute. reflexivity.
Defined.

(** 100 units at 5.00 make 500.00. *)
Example total_of_the_first_posting :
  map StockRecord.total_amount (stock_record stocked)
  = [Some (Py.Finite false 50000 (-2)); None].
Proof. vm_compute. reflexivity. Qed.

(** A total of more than 28 digits is rounded to the even neighbour. *)
Example rounded_total :
  Py.Decimal_mul (Py.Decimal_of_int 3)
    (Py.Finite false 10000000000000000000000000001 (-28))
  = inr (Py.Finite false 3000000000000000000000000000 (-27)).
Proof. vm_compute. reflexivity. Qed.

Lemma not_str_not_valid x :
  not_str x = true -> Validator.validate_not_empty x = false.
Proof. destruct x as [[|c s]|]; [reflexivity|discriminate|reflexivity]. Qed.

(** On a record the service accepts, the model finds nothing to object
    to in the fields other than the unit price. *)
Lemma service_valid_model_fields now r errors :
  validate_stock_record now r = inr (true, errors) ->
  forall price_errors,
    (if not_str (StockRecord.record_no r) then [MsgRecordNoEmpty] else [])
    ++ (match StockRecord.record_type r with
        | Some 1 | Some 2 => []
        | _ => [MsgRecordTypeInvalid]
        end)
    ++ (if not_int (StockRecord.warehouse_id r) then [MsgWarehouseIdEmpty] else [])
    ++ (if not_int (StockRecord.product_id r) then [MsgProductIdEmpty] else [])
    ++ (match StockRecord.quantity r with
        | Some q => if (q =? 0) || (q <=? 0) then [MsgQuantityNotPositive] else []
        | None => [MsgQuantityNotPositive]
        end)
    ++ price_errors
    ++ (match StockRecord.record_date r with
        | None => [MsgRecordDateEmpty]
        | Some _ => []
        end)
    = price_errors.
Proof.
  intros Hv price_errors.
  assert (Hno : not_str (StockRecord.record_no r) = false).
  { apply validate_stock_record_true in Hv
      as (_ & _ & _ & _ & _ & _ & _ & _ & _ & _ & _ & _ & Hne & _).
    destruct (not_str (StockRecord.record_no r)) eqn:Hn; [|reflexivity].
    rewrite (not_str_not_valid _ Hn) in Hne. discriminate. }
  revert Hv. unfold validate_stock_record.
  destruct (unit_price_errors _) as [e|pe]; [discriminate|].
  rewrite Hno.
  destruct (Validator.validate_not_empty _); [|discriminate].
  destruct (StockRecord.record_type r) as [[|[|[]|]|]|]; try discriminate;
  (destruct (not_int (StockRecord.warehouse_id r)); [discriminate|];
   destruct (not_int (StockRecord.product_id r)); [discriminate|];
   destruct (StockRecord.quantity r) as [q|]; [|discriminate];
   destruct ((q =? 0) || (q <=? 0)); [discriminate|];
   destruct pe; [|discriminate];
   destruct (StockRecord.record_date r) as [d|]; [|discriminate];
   intros _; cbn; apply app_nil_r).
Qed.

(** X6.  The [validate] method of the model on a record the service
    accepts.  The model accepts it as well, with two exceptions, both
    in the unit price, which the service checks as a [float] and the
    model as a [Decimal]: for a NaN the comparison of the model raises,
    and a negative price so small that its [float] is zero (its exponent
    is then below -323) is reported by the model only. *)
Theorem model_validation_compared (now : Py.datetime) (r : StockRecord.t)
    (errors : list message) :
  validate_stock_record now r = inr (true, errors) ->
  match StockRecord.unit_price r with
  | Some (Py.NaN _ _) => StockRecordMethods.validate r = inl DecimalInvalidOperation
  | Some (Py.Finite true c e) =>
      if (c =? 0)%N then StockRecordMethods.validate r = inr (true, [])
      else StockRecordMethods.validate r = inr (false, [MsgUnitPriceNegative])
           /\ e < -323
  | _ => StockRecordMethods.validate r = inr (true, [])
  end.
Proof.
  intros Hv.
  pose proof (service_valid_model_fields now r errors Hv) as Hf.
  apply validate_stock_record_true in Hv
    as (_ & _ & _ & _ & _ & _ & _ & _ & _ & _ & _ & _ & _ & Hpe & _).
  unfold StockRecordMethods.validate.
  destruct (StockRecord.unit_price r) as [[s c e|s|s p|s p]|]; cbn [Py.Decimal_lt0].
  - destruct s; cbn [andb].
    + destruct (N.eqb_spec c 0) as [->|Hc]; cbn [negb].
      * rewrite (Hf []). reflexivity.
      * rewrite (Hf [MsgUnitPriceNegative]). split; [reflexivity|].
        destruct (Z.lt_ge_cases e (-323)) as [|He]; [assumption|exfalso].
        pose proof (proj2 (float_of_Decimal_negative true c e ltac:(lia))
                      (conj eq_refl Hc)) as Hneg.
        unfold unit_price_errors in Hpe. rewrite Hneg in Hpe. discriminate.
    + rewrite (Hf []). reflexivity.
  - destruct s.
    + discriminate Hpe.
    + rewrite (Hf []). reflexivity.
  - reflexivity.
  - discriminate Hpe.
  - rewrite (Hf []). reflexivity.
Qed.

Lemma model_validation_compared_witness :
  let r := StockRecord.mk None (Some "X1"%string) (Some 1) (Some 1) (Some 1) (Some 10)
             (Some (Py.Finite true 1 (-400))) None None None
             (Some Example.morning) None in
  match StockRecord.unit_price r with
  | Some (Py.NaN _ _) => StockRecordMethods.validate r = inl DecimalInvalidOperation
  | Some (Py.Finite true c e) =>
      if (c =? 0)%N then StockRecordMethods.validate r = inr (true, [])
      else StockRecordMethods.validate r = inr (false, [MsgUnitPriceNegative])
           /\ e < -323
  | _ => StockRecordMethods.validate r = inr (true, [])
  end.
Proof.
  intros r. apply (model_validation_compared Example.now r []).
  vm_compute. reflexivity.
Defined.

(** The service alone rejects a blank document number and a date in the
    future. *)
Example model_accepts_future_date :
  let r := StockRecord.mk None (Some " "%string) (Some 1) (Some 1) (Some 1) (Some 5)
             None None None None (Some (Py.mk_datetime 2030 1 1 0 0 0 0)) None in
  StockRecordMethods.validate r = inr (true, []) /\
  validate_stock_record Example.now r
  = inr (false, [MsgRecordNoEmpty; MsgRecordDateFuture]).
Proof. split; reflexivity. Qed.

(** A negative price of [-1E-400] is committed by the service. *)
Example tiny_negative_price_committed :
  exists db' r',
    add_in_stock Example.now
      (Example.entry None 1 1 10 (Some (Py.Finite true 1 (-400)))) Example.db
    = (db', inr r') /\
    StockRecord.unit_price r' = Some (Py.Finite true 1 (-400)).
Proof. eexists _, _. vm_compute. split; reflexivity. Qed.

(** X7.  The balance update of the DAO and the one the service runs
    inside its transaction agree: for a movement of [q > 0] units on a
    pair whose first row, if any, holds a quantity that is not negative,
    [update_quantity] with the signed change ends in the same store and
    the same error as [_update_inventory_in_transaction] on the
    record. *)
Theorem update_quantity_agrees (r : StockRecord.t) (is_in : bool) (db : DB)
    (w p q : Z) :
  StockRecord.warehouse_id r = Some w ->
  StockRecord.product_id r = Some p ->
  StockRecord.quantity r = Some q ->
  0 < q ->
  (forall e, InventoryDAO.select (Some w) (Some p) (inventory db) = Some e ->
             0 <= Inventory.quantity e) ->
  InventoryDAOWrite.update_quantity (Some w) (Some p) (if is_in then q else - q)
    is_in (StockRecord.record_date r) db
  = match _update_inventory_in_transaction r is_in db with
    | (db', inr _) => (db', inr true)
    | (_, inl e) => (db, inl e)
    end.
Proof.
  intros Hw Hp Hq Hq0 Hnn.
  unfold InventoryDAOWrite.update_quantity, _update_inventory_in_transaction.
  run_monad. rewrite Hw, Hp, Hq.
  destruct (InventoryDAO.select (Some w) (Some p) (inventory db)) as [e|] eqn:He.
  - specialize (Hnn e eq_refl). destruct is_in.
    + destruct (Z.ltb_spec (Inventory.quantity e + q) 0); [lia|]. reflexivity.
    + replace (Inventory.quantity e + - q) with (Inventory.quantity e - q) by lia.
      destruct (Z.ltb_spec (Inventory.quantity e - q) 0); [|reflexivity].
      rewrite Z.abs_opp, Z.abs_eq by lia. reflexivity.
  - destruct is_in; reflexivity.
Qed.

Lemma update_quantity_agrees_witness :
  let r := Example.entry (Some "CK202501230002"%string) 1 1 20 None in
  InventoryDAOWrite.update_quantity (Some 1) (Some 1) (if false then 20 else - 20)
    false (StockRecord.record_date r) stocked
  = match _update_inventory_in_transaction r false stocked with
    | (db', inr _) => (db', inr true)
    | (_, inl e) => (stocked, inl e)
    end.
Proof.
  intros r.
  apply (update_quantity_agrees r false stocked 1 1 20);
    [reflexivity | reflexivity | reflexivity | lia |].
  intros e He. vm_compute in He. injection He as <-. cbn. lia.
Defined.

(** X8.  [update_quantity] either fails and leaves the store as it was,
    or returns [True]; when the pair had a row, every row of the pair
    then holds a quantity that is not negative, both for an increase and
    for a decrease. *)
Theorem update_quantity_floor (w p : option Z) (change : Z) (is_in : bool)
    (d : option Py.datetime) (db : DB) :
  match InventoryDAOWrite.update_quantity w p change is_in d db with
  | (db', inl _) => db' = db
  | (db', inr b) =>
      b = true /\
      stock_record db' = stock_record db /\
      (InventoryDAO.select w p (inventory db) <> None ->
       forall row, In row (inventory db') ->
                   InventoryDAO.matches w p row = true ->
                   0 <= Inventory.quantity row)
  end.
Proof.
  unfold InventoryDAOWrite.update_quantity. run_monad.
  destruct (InventoryDAO.select w p (inventory db)) as [e|] eqn:He.
  - destruct (Z.ltb_spec (Inventory.quantity e + change) 0); [reflexivity|].
    cbn. split; [reflexivity|]. split; [reflexivity|].
    intros _ row [row0 [<- Hin]]%in_map_iff. rewrite matches_update_row.
    intros Hm. unfold update_row. rewrite Hm. destruct is_in; cbn; lia.
  - destruct is_in; cbn [negb]; [|reflexivity].
    destruct w as [w|]; [|reflexivity]. destruct p as [p|]; [|reflexivity].
    cbn. split; [reflexivity|]. split; [reflexivity|]. intros H. contradiction.
Qed.

Example update_quantity_first_row_unchecked :
  inventory (fst (InventoryDAOWrite.update_quantity (Some 1) (Some 1) (-5) true None
                    Example.db))
  = [Inventory.mk 1 1 1 (-5) None None].
Proof. vm_compute. reflexivity. Qed.

Lemma update_row_key is_in w p n d row :
  (Inventory.warehouse_id (update_row is_in w p n d row),
   Inventory.product_id (update_row is_in w p n d row))
  = (Inventory.warehouse_id row, Inventory.product_id row).
Proof.
  unfold update_row. destruct (InventoryDAO.matches w p row); [|reflexivity].
  destruct is_in; reflexivity.
Qed.

Lemma inventory_after_keys is_in w p q d db :
  NoDup (map (fun row => (Inventory.warehouse_id row, Inventory.product_id row))
           (inventory db)) ->
  NoDup (map (fun row => (Inventory.warehouse_id row, Inventory.product_id row))
           (inventory_after is_in w p q d db)).
Proof.
  intros Hnd. unfold inventory_after.
  destruct (InventoryDAO.select (Some w) (Some p) (inventory db)) as [e|] eqn:He.
  - rewrite map_map.
    erewrite map_ext; [exact Hnd|]. intros row. apply update_row_key.
  - rewrite map_app. cbn. apply NoDup_app. split; [exact Hnd|].
    split; [|apply NoDup_singleton].
    intros key Hin%list_elem_of_In [= ->]%list_elem_of_singleton.
    apply in_map_iff in Hin as (row & Hkey & Hin). injection Hkey as Hw Hp.
    pose proof (select_None _ _ _ _ He Hin) as Hm.
    unfold InventoryDAO.matches, Sql.eq_Z in Hm. rewrite Hw, Hp, !Z.eqb_refl in Hm.
    discriminate.
Qed.

Lemma committed_store_ok is_in r' w p q db db' :
  committed is_in r' w p q db db' -> store_ok db -> store_ok db'.
Proof.
  intros (Hid & _ & _ & _ & _ & _ & _ & _ & Hs & Hai & Hinv & _) (Hlt & Hnd & Hkeys).
  split; [|split].
  - intros r. rewrite Hs, Hai. intros [Hin|[<-|[]]]%in_app_or.
    + destruct (Hlt r Hin) as (i & Hi & Hlt'). exists i. split; [exact Hi|lia].
    + eexists. split; [exact Hid|lia].
  - rewrite Hs, map_app. cbn. apply NoDup_app. split; [exact Hnd|].
    split; [|apply NoDup_singleton].
    intros x Hin%list_elem_of_In [= ->]%list_elem_of_singleton.
    apply in_map_iff in Hin as (r & Hr & Hin).
    destruct (Hlt r Hin) as (i & Hi & Hlt'). rewrite Hid in Hr. rewrite Hr in Hi.
    injection Hi as <-. lia.
  - rewrite Hinv. apply inventory_after_keys, Hkeys.
Qed.

(** X9.  The operations keep the store well formed: starting from a
    store in which ledger ids are below the counter and distinct and
    each (warehouse, product) pair has at most one inventory row, this
    still holds after any sequence of postings. *)
Theorem run_keeps_store_ok (ops : list request) (db : DB) :
  store_ok db -> store_ok (fst (run ops db)).
Proof.
  revert db. induction ops as [|op ops IH]; intros db Hok; [exact Hok|].
  cbn [run].
  destruct (post_cases op db) as [(e & ->)|(is_in & r' & w & p & q & db' & -> & Hc & _)].
  - apply IH, Hok.
  - specialize (IH db' (committed_store_ok _ _ _ _ _ _ _ Hc Hok)).
    destruct (run ops db') as [db'' rs]. exact IH.
Qed.

Lemma run_keeps_store_ok_witness : store_ok (fst (run Example.postings Example.db)).
Proof.
  apply (run_keeps_store_ok Example.postings Example.db).
  split; [|split].
  - intros r [].
  - apply NoDup_nil_2.
  - apply NoDup_nil_2.
Defined.

(** X11.  Every record a posting commits is well formed: it has the kind
    of the operation (an inbound record answers [is_in_stock], an
    outbound one [is_out_stock], never both), a document number that is
    not blank, a positive quantity, a unit price, if any, whose [float]
    is not below zero, an operation date not later than the clock of the
    call, and active references. *)
Theorem committed_record_well_formed (op : request) (db db' : DB) (r' : StockRecord.t) :
  post op db = (db', inr r') ->
  StockRecord.record_type r' = Some (kind_of op) /\
  StockRecordMethods.is_in_stock r' = (kind_of op =? 1) /\
  StockRecordMethods.is_out_stock r' = (kind_of op =? 2) /\
  Validator.validate_not_empty (StockRecord.record_no r') = true /\
  (exists q, StockRecord.quantity r' = Some q /\ 0 < q) /\
  (forall u, StockRecord.unit_price r' = Some u ->
     exists value, Py.float_of_Decimal u = inr value /\ Py.float_lt0 value = false) /\
  (exists d, StockRecord.record_date r' = Some d /\ Py.compare d (time_of op) <> Gt) /\
  references_active db r'.
Proof.
  intros Hpost.
  assert (H : exists r1 r2 t,
            prepare (time_of op) (kind_of op) (record_of op) db = (db, inr r1) /\
            StockRecord.calculate_total_amount r1 = inr (r2, t) /\
            r' = StockRecord.set_id (Some (stock_record_auto_increment db)) r2).
  { destruct op as [now r|now r]; cbn [post record_of time_of kind_of] in *.
    - destruct (add_in_stock_cases now r db)
        as [(e & _ & H)|[(r1 & e & _ & _ & H)
                        |(r1 & r2 & t & ? & ? & ? & ? & Hprep & Htotal & H & _)]];
        [congruence|congruence|].
      exists r1, r2, t. split; [exact Hprep|]. split; [exact Htotal|congruence].
    - destruct (add_out_stock_cases now r db)
        as [(e & _ & H)|[(r1 & ? & ? & ? & _ & _ & _ & _ & _ & H)
                        |[(r1 & ? & ? & ? & ? & ? & _ & _ & _ & _ & _ & _ & _ & H)
                         |(r1 & r2 & t & ? & ? & ? & ? & ? & Hprep & Htotal & _ & _ & H & _)]]];
        [congruence|congruence|congruence|].
      exists r1, r2, t. split; [exact Hprep|]. split; [exact Htotal|congruence]. }
  destruct H as (r1 & r2 & t & Hprep & Htotal & ->).
  apply prepare_inr in Hprep as (_ & Ha & Hv & Hact).
  apply validate_stock_record_true in Hv
    as (w & p & q & d & Hw & _ & Hp & _ & Hq & Hq0 & Hd & Hgt & Hne & Hpe & _).
  apply assign_record_no_inr in Ha as (Ht & _).
  pose proof (calculate_total_amount_fields _ _ _ Htotal)
    as (Hi' & Hn' & Ht' & Hw' & Hp' & Hq' & Hu' & Hd').
  assert (Hk : kind_of op = 1 \/ kind_of op = 2) by (destruct op; auto).
  split; [cbn; rewrite Ht'; exact Ht|].
  split; [unfold StockRecordMethods.is_in_stock; cbn; rewrite Ht', Ht; reflexivity|].
  split; [unfold StockRecordMethods.is_out_stock; cbn; rewrite Ht', Ht; reflexivity|].
  split; [cbn; rewrite Hn'; exact Hne|].
  split; [exists q; cbn; rewrite Hq'; auto|].
  split.
  { intros u Hu. cbn in Hu. rewrite Hu' in Hu. rewrite Hu in Hpe.
    unfold unit_price_errors, Validator.validate_number_min0 in Hpe.
    destruct (Py.float_of_Decimal u) as [e|value]; [discriminate|].
    exists value. split; [reflexivity|].
    destruct (Py.float_lt0 value); [discriminate|reflexivity]. }
  split.
  { exists d. split; [cbn; rewrite Hd'; exact Hd|].
    unfold Py.gtb in Hgt. revert Hgt.
    destruct (Py.compare d (time_of op)); congruence. }
  apply (references_active_ids db r1); [cbn; exact Hw'|cbn; exact Hp'|exact Hact].
Qed.

Lemma committed_record_well_formed_witness :
  let op := OutStock Example.now (Example.entry None 1 1 30 None) in
  let db' := fst (post op stocked) in
  let r' := match snd (post op stocked) with
            | inr r' => r'
            | inl _ => record_of op
            end in
  StockRecord.record_type r' = Some (kind_of op) /\
  StockRecordMethods.is_in_stock r' = (kind_of op =? 1) /\
  StockRecordMethods.is_out_stock r' = (kind_of op =? 2) /\
  Validator.validate_not_empty (StockRecord.record_no r') = true /\
  (exists q, StockRecord.quantity r' = Some q /\ 0 < q) /\
  (forall u, StockRecord.unit_price r' = Some u ->
     exists value, Py.float_of_Decimal u = inr value /\ Py.float_lt0 value = false) /\
  (exists d, StockRecord.record_date r' = Some d /\ Py.compare d (time_of op) <> Gt) /\
  references_active stocked r'.
Proof.
  intros op db' r'.
  apply (committed_record_well_formed op stocked db' r').
  vm_compute. reflexivity.
Defined.

Lemma andb_move_third (a b s t u v x y : bool) :
  a && b && s && t && u && v && x && y = a && b && t && u && v && x && y && s.
Proof. destruct a, b, s, t, u, v, x, y; reflexivity. Qed.

Lemma query_where_clause c r :
  QueryService.where_clause c r
  = where_clause c r
    && (if not_int (c_supplier_client_id c) then true
        else Sql.eq_Z (StockRecord.supplier_client_id r) (c_supplier_client_id c)).
Proof. unfold QueryService.where_clause, where_clause. apply andb_move_third. Qed.

Lemma query_where_clause_selected c r :
  QueryService.where_clause c r = true <-> selected c r /\ counterparty_selected c r.
Proof.
  rewrite query_where_clause, andb_true_iff, where_clause_selected, int_condition.
  reflexivity.
Qed.

(** X12.  [query_stock_records] of the query service is the search of
    the stock service with one more condition: its result holds exactly
    the ledger rows the search selects whose counterparty is the one
    asked for, ordered by operation date and then id, both descending;
    without a counterparty in the conditions (absent or 0) the two
    functions return the same list.  Neither changes the store. *)
Theorem query_refines_search (c : conditions) (db : DB) :
  exists l l',
    QueryService.query_stock_records c db = (db, inr l) /\
    search_stock_records c db = (db, inr l') /\
    (forall r, In r l <-> In r l' /\ counterparty_selected c r) /\
    (forall r, In r l <-> In r (stock_record db) /\ selected c r
                          /\ counterparty_selected c r) /\
    StronglySorted newest_first l /\
    (not_int (c_supplier_client_id c) = true -> l = l').
Proof.
  eexists _, _. split; [reflexivity|]. split; [reflexivity|].
  assert (Hin : forall r,
            In r (merge_sort newest_first
                    (List.filter (QueryService.where_clause c) (stock_record db)))
            <-> In r (stock_record db) /\ selected c r /\ counterparty_selected c r).
  { intros r.
    rewrite <- list_elem_of_In, (merge_sort_Permutation newest_first),
      list_elem_of_In, filter_In, query_where_clause_selected. reflexivity. }
  assert (Hin' : forall r,
            In r (merge_sort newest_first
                    (List.filter (where_clause c) (stock_record db)))
            <-> In r (stock_record db) /\ selected c r).
  { intros r.
    rewrite <- list_elem_of_In, (merge_sort_Permutation newest_first),
      list_elem_of_In, filter_In, where_clause_selected. reflexivity. }
  split; [|split; [exact Hin|split]].
  - intros r. rewrite Hin, Hin'. tauto.
  - apply (StronglySorted_merge_sort newest_first).
  - intros Hn. f_equal. apply filter_ext. intros r.
    rewrite query_where_clause, Hn. apply andb_true_r.
Qed.

Example query_by_counterparty :
  let db := fst (run [InStock Example.now
                        (StockRecord.mk None None None (Some 1) (Some 1) (Some 5) None
                           None (Some 7) None (Some Example.morning) None);
                      InStock Example.now (Example.entry None 1 1 5 None)]
                   Example.db) in
  map StockRecord.record_no
    (match snd (QueryService.query_stock_records_by_supplier_client (Some 7) None None db)
     with inr l => l | inl _ => [] end)
  = [Some "RK202501230001"%string] /\
  map StockRecord.record_no
    (match snd (search_stock_records
                  (mk_conditions None None (Some 7) None None None None None) db)
     with inr l => l | inl _ => [] end)
  = [Some "RK202501230002"%string; Some "RK202501230001"%string].
Proof. split; vm_compute; reflexivity. Qed.

Lemma range_condition s e r :
  StockDAO.in_range s e r
  = (match s with
     | None => true
     | Some d => Sql.ge_datetime (StockRecord.record_date r) d
     end)
    && (match e with
        | None => true
        | Some d => Sql.le_datetime (StockRecord.record_date r) d
        end).
Proof. reflexivity. Qed.

(** X13.  The by-key queries of the query service against those of the
    DAO.  For a warehouse (product) id other than 0 the service returns
    what [get_by_warehouse] ([get_by_product]) of the DAO returns for
    the same date range.  For the id 0 the service drops the condition
    and returns every record of the date range, as
    [query_stock_records_by_date] does, while the DAO looks for rows
    whose id is 0. *)
Theorem query_by_key (id : Z) (s e : option Py.datetime) (db : DB) :
  (id <> 0 ->
   QueryService.query_stock_records_by_warehouse (Some id) s e db
   = StockDAO.get_by_warehouse (Some id) s e db /\
   QueryService.query_stock_records_by_product (Some id) s e db
   = StockDAO.get_by_product (Some id) s e db) /\
  QueryService.query_stock_records_by_warehouse (Some 0) s e db
  = QueryService.query_stock_records_by_date s e db /\
  QueryService.query_stock_records_by_product (Some 0) s e db
  = QueryService.query_stock_records_by_date s e db /\
  QueryService.query_stock_records_by_supplier_client (Some 0) s e db
  = QueryService.query_stock_records_by_date s e db /\
  QueryService.query_stock_records_by_date None None db = StockDAO.get_all db.
Proof.
  split; [|split; [reflexivity|split; [reflexivity|split; [reflexivity|]]]].
  - intros Hid.
    unfold QueryService.query_stock_records_by_warehouse,
      QueryService.query_stock_records_by_product, QueryService.query_stock_records,
      StockDAO.get_by_warehouse, StockDAO.get_by_product.
    run_monad. split; do 3 f_equal; apply filter_ext; intros r;
      unfold QueryService.where_clause; cbn;
      (destruct (Z.eqb_spec id 0); [contradiction|]);
      rewrite range_condition, !andb_true_r, ?andb_assoc; reflexivity.
  - unfold QueryService.query_stock_records_by_date, QueryService.query_stock_records,
      StockDAO.get_all. run_monad. do 3 f_equal.
    induction (stock_record db) as [|r l IH]; [reflexivity|]. cbn. congruence.
Qed.

(** X14.  Under sequential use the generated number is new: when no
    number of the ledger starts with the prefix, or the greatest one is
    the prefix followed by the four digits of some [n < 9999],
    [generate_record_no] returns a number that no ledger row carries. *)
Theorem generated_number_is_fresh (now : Py.datetime) (kind : Z) (db : DB) :
  (numbers_with (record_no_prefix now kind) db = []
   \/ exists n, 0 <= n < 9999 /\
        Sql.greatest (numbers_with (record_no_prefix now kind) db)
        = Some (record_no_prefix now kind +:+ Py.format_0d 4 n)%string) ->
  exists no,
    generate_record_no now kind db = (db, inr no) /\
    forall r, In r (stock_record db) -> StockRecord.record_no r <> Some no.
Proof.
  set (prefix := record_no_prefix now kind).
  destruct (generate_record_no_next now kind db) as [H0 Hn]. fold prefix in H0, Hn.
  assert (Hmem : forall r suffix,
            In r (stock_record db) ->
            StockRecord.record_no r = Some (prefix +:+ suffix)%string ->
            In (prefix +:+ suffix)%string (numbers_with prefix db)).
  { intros r suffix Hin Hno. unfold numbers_with. apply filter_In.
    split; [|apply prefix_append].
    apply list_elem_of_In, list_elem_of_omap. exists r.
    split; [apply list_elem_of_In, Hin|exact Hno]. }
  intros [Hnone|(n & Hb & Hlast)].
  - eexists. split; [exact (H0 Hnone)|]. intros r Hin Hno.
    pose proof (Hmem r _ Hin Hno) as Hx. rewrite Hnone in Hx. destruct Hx.
  - destruct (suffix_facts n) as (_ & Hlen & Hlt & _); [lia|].
    eexists. split.
    { apply (Hn _ n Hlast); [apply last4_suffix; lia|lia]. }
    intros r Hin Hno. pose proof (Hmem r _ Hin Hno) as Hx.
    pose proof (greatest_spec (numbers_with prefix db)) as Hspec.
    rewrite Hlast in Hspec. destruct Hspec as [_ Hmax].
    specialize (Hmax _ Hx). rewrite compare_append in Hmax.
    specialize (Hlt ltac:(lia)). unfold String.ltb in Hlt.
    rewrite String.compare_antisym in Hmax. revert Hlt Hmax.
    destruct (String.compare (Py.format_0d 4 n) (Py.format_0d 4 (n + 1)));
      cbn; congruence.
Qed.

Lemma generated_number_is_fresh_witness :
  exists no,
    generate_record_no Example.now 1 stocked = (stocked, inr no) /\
    forall r, In r (stock_record stocked) -> StockRecord.record_no r <> Some no.
Proof.
  apply (generated_number_is_fresh Example.now 1 stocked).
  right. exists 1. split; [lia|]. vm_compute. reflexivity.
Defined.

(** X15.  Postings never touch the master data: after any sequence of
    postings the warehouse and product tables are the ones before. *)
Theorem run_keeps_master_data (ops : list request) (db : DB) :
  warehouse (fst (run ops db)) = warehouse db /\
  product (fst (run ops db)) = product db.
Proof.
  revert db. induction ops as [|op ops IH]; intros db; [auto|].
  cbn [run].
  destruct (post_cases op db) as [(e & ->)|(is_in & r' & w & p & q & db' & -> & Hc & _)].
  - apply IH.
  - specialize (IH db'). destruct (run ops db') as [db'' rs]. cbn [fst] in *.
    destruct Hc as (_ & _ & _ & _ & _ & _ & _ & _ & _ & _ & _ & Hw & Hp).
    destruct IH as [-> ->]. auto.
Qed.

Lemma run_ids ops : forall db,
  map StockRecord.id (snd (run ops db))
  = map (fun i : nat => Some (stock_record_auto_increment db + Z.of_nat i))
      (seq 0 (length (snd (run ops db)))) /\
  stock_record_auto_increment (fst (run ops db))
  = stock_record_auto_increment db + Z.of_nat (length (snd (run ops db))).
Proof.
  induction ops as [|op ops IH]; intros db; [cbn; split; [reflexivity|lia]|].
  cbn [run].
  destruct (post_cases op db) as [(e & ->)|(is_in & r' & w & p & q & db' & -> & Hc & _)].
  - apply IH.
  - specialize (IH db'). destruct (run ops db') as [db'' rs]. cbn [fst snd] in *.
    destruct Hc as (Hid & _ & _ & _ & _ & _ & _ & _ & _ & Hai & _).
    destruct IH as [IH1 IH2]. cbn [map length seq]. split.
    + rewrite Hid, Z.add_0_r. f_equal. rewrite IH1, Hai, <- seq_shift, map_map.
      apply map_ext. intros i. f_equal. lia.
    + rewrite IH2, Hai. lia.
Qed.

(** X16.  Ledger ids are handed out consecutively: the records committed
    by a sequence of postings carry the ids counter, counter + 1, ... in
    the order of posting, failed postings use up no id, and the counter
    ends that many steps further. *)
Theorem posted_ids_consecutive (ops : list request) (db : DB) :
  map StockRecord.id (snd (run ops db))
  = map (fun i : nat => Some (stock_record_auto_increment db + Z.of_nat i))
      (seq 0 (length (snd (run ops db)))) /\
  stock_record_auto_increment (fst (run ops db))
  = stock_record_auto_increment db + Z.of_nat (length (snd (run ops db))).
Proof. apply run_ids. Qed.
